(** * AponiaJS: session tokens and OAuth/OIDC providers

    A shallow embedding of the token session manager
    ([TokenSessionManager]), the JWT codec ([encode]/[decode]) and the
    OAuth 2.0 / OpenID Connect providers of the repository, together with
    the properties of the specification that concern them.

    JavaScript promises are modelled by their settled result: a computation
    either returns a value or throws (rejects).  Calls that leave the
    repository (application hooks, [jose], [oauth4webapi], the [cookie]
    parser, the check helpers) are recorded in a call log, so that
    statements such as "no token request is made" can be expressed. *)

From stdpp Require Import base strings list gmap.
From Stdlib Require Import ZArith Ascii.

(** ** JavaScript values and exceptions *)

Module JS.

(** The values application payloads (users, sessions, refresh payloads) range
    over.  Numbers are restricted to integers. *)
#[warnings="-register-all"]
Inductive value : Type :=
| VUndefined
| VNull
| VBool (b : bool)
| VNum (n : Z)
| VStr (s : string)
| VObj (fields : list (string * value)).

(** [ToBoolean]: what [if (v)] and [!v] test. *)
Definition truthy (v : value) : bool :=
  match v with
  | VUndefined | VNull => false
  | VBool b => b
  | VNum n => negb (n =? 0)%Z
  | VStr s => negb (String.eqb s "")
  | VObj _ => true
  end.

(** [v !== undefined] *)
Definition defined (v : value) : bool :=
  match v with
  | VUndefined => false
  | _ => true
  end.

(** Truthiness of a [string | undefined], e.g. a looked-up cookie. *)
Definition truthy_str (o : option string) : bool :=
  match o with
  | None => false
  | Some s => negb (String.eqb s "")
  end.

Inductive exn : Type :=
| TypeError (message : string)
| Error (message : string)
| External (name : string).

(** The settled result of a call. *)
Inductive outcome (A : Type) : Type :=
| Returned (a : A)
| Thrown (e : exn).
Arguments Returned {A} a.
Arguments Thrown {A} e.

Definition returns {A} (o : outcome A) : bool :=
  match o with
  | Returned _ => true
  | Thrown _ => false
  end.

#[global] Instance outcome_ret : MRet outcome := @Returned.
#[global] Instance outcome_bind : MBind outcome := λ A B f m,
  match m with
  | Returned a => f a
  | Thrown e => Thrown e
  end.

End JS.
Export JS.

(** ** Cookies and internal responses *)

Record CookieSerializeOptions : Type := {
  path : option string;
  domain : option string;
  httpOnly : option bool;
  sameSite : option string;
  secure : option bool;
  maxAge : option Z
}.

(** [{ ...options, maxAge: n }] *)
Definition with_maxAge (o : CookieSerializeOptions) (n : Z) : CookieSerializeOptions :=
  {| path := path o; domain := domain o; httpOnly := httpOnly o;
     sameSite := sameSite o; secure := secure o; maxAge := Some n |}.

Record Cookie : Type := {
  name : string;
  value_ : string;
  options : CookieSerializeOptions
}.

Record CookieOption : Type := {
  co_name : string;
  co_options : CookieSerializeOptions
}.

(** One entry per cookie the library sets. *)
Record CookiesOptions : Type := {
  ck_state : CookieOption;
  ck_pkce : CookieOption;
  ck_nonce : CookieOption;
  ck_accessToken : CookieOption;
  ck_refreshToken : CookieOption
}.

(** [InternalResponse]: every field is optional; an absent [user] or
    [session] is [VUndefined]. *)
Record InternalResponse : Type := {
  status : option Z;
  headers : option (list (string * string));
  body : option value;
  redirect : option string;
  cookies : option (list Cookie);
  user : value;
  session : value
}.

(** [{}] *)
Definition empty_response : InternalResponse :=
  {| status := None; headers := None; body := None; redirect := None;
     cookies := None; user := VUndefined; session := VUndefined |}.

(** [response.cookies ??= []; response.cookies.push(...cs)] *)
Definition push_cookies (r : InternalResponse) (cs : list Cookie) : InternalResponse :=
  {| status := status r; headers := headers r; body := body r;
     redirect := redirect r; cookies := Some (default [] (cookies r) ++ cs);
     user := user r; session := session r |}.

(** [{ cookies: cs }] *)
Definition cookies_response (cs : list Cookie) : InternalResponse :=
  {| status := None; headers := None; body := None; redirect := None;
     cookies := Some cs; user := VUndefined; session := VUndefined |}.

(** A clear instruction for the cookie [c]. *)
Definition clearing (c : CookieOption) : Cookie :=
  {| name := co_name c; value_ := ""; options := with_maxAge (co_options c) 0 |}.

(** ** JWT codec parameters *)

Record JWTEncodeParams : Type := {
  enc_token : option value;
  enc_secret : string;
  enc_maxAge : option Z
}.

Record JWTDecodeParams : Type := {
  dec_token : option string;
  dec_secret : string
}.

Record JWTDecryptResult : Type := {
  payload : value;
  protectedHeader : value
}.

(** [NewSession]: [{ accessToken, refreshToken? } | Nullish] *)
Record SessionTokens : Type := {
  accessToken : value;
  refreshToken : value
}.
Definition NewSession : Type := option SessionTokens.

(** [newSession?.accessToken] *)
Definition opt_accessToken (s : NewSession) : value :=
  from_option accessToken VUndefined s.
Definition opt_refreshToken (s : NewSession) : value :=
  from_option refreshToken VUndefined s.

(** ** URLs and internal requests *)

(** A parsed URL: its origin, the part of its serialization before the
    query, and its [searchParams] in order. *)
Record URL : Type := {
  origin : string;
  base : string;
  searchParams : list (string * string)
}.

(** [URLSearchParams.prototype.has] *)
Definition sp_has (k : string) (l : list (string * string)) : bool :=
  existsb (λ p, String.eqb p.1 k) l.

(** [URLSearchParams.prototype.get] *)
Fixpoint sp_get (k : string) (l : list (string * string)) : option string :=
  match l with
  | [] => None
  | (k', v) :: l' => if String.eqb k' k then Some v else sp_get k l'
  end.

(** Setting a key in an ordered list of entries: the first entry named [k]
    takes the value and keeps its place, later ones are removed; without
    one the pair is appended.  This is [URLSearchParams.prototype.set],
    and property assignment on an object (whose keys are distinct). *)
Fixpoint entries_set {V} (k : string) (v : V) (l : list (string * V)) : list (string * V) :=
  match l with
  | [] => [(k, v)]
  | (k', v') :: l' =>
      if String.eqb k' k
      then (k, v) :: filter (λ p, negb (String.eqb p.1 k)) l'
      else (k', v') :: entries_set k v l'
  end.

Definition sp_set : string → string → list (string * string) → list (string * string) :=
  entries_set.

(** A plain object: its own enumerable string-keyed properties in
    insertion order. *)
Definition Obj : Type := list (string * value).

(** [{ ...a, ...b }] *)
Definition spread (a b : Obj) : Obj :=
  foldl (λ o p, entries_set p.1 p.2 o) a b.

(** [url.searchParams.set(k, v)] *)
Definition url_set (k v : string) (u : URL) : URL :=
  {| origin := origin u; base := base u; searchParams := sp_set k v (searchParams u) |}.

(** [InternalRequest]: the request URL and the parsed cookies. *)
Record InternalRequest : Type := {
  req_url : URL;
  req_cookies : gmap string string
}.

(** ** The call log and the method monad *)

Inductive OAuthCheck : Type := pkce | state | none | nonce.

#[global] Instance OAuthCheck_eq_dec : EqDecision OAuthCheck.
Proof. solve_decision. Defined.

(** Calls that leave the class being modelled. *)
Inductive event : Type :=
| Call_encode (p : JWTEncodeParams)
| Call_decode (p : JWTDecodeParams)
| Call_createSession (user : value)
| Call_refreshSession (refresh : value)
| Call_onInvalidateSession (session refresh : value)
| Call_check_create (c : OAuthCheck)
| Call_check_use (c : OAuthCheck)
| Call_discovery (issuer : string)
| Call_validateAuthResponse (expectedState : option string)
| Call_authorizationCodeGrantRequest (redirectUri : string) (codeVerifier : option string)
| Call_conform
| Call_parseWwwAuthenticateChallenges
| Call_processAuthorizationCodeOAuth2Response
| Call_processAuthorizationCodeOpenIDResponse (expectedNonce : option string)
| Call_userinfo
| Call_profile
| Call_onAuth (profile : value).

(** A method of an object with mutable state [S]: from the state before
    to the settled result, the state after and the calls made, in order.
    A throw keeps the assignments made before it. *)
Definition M (S A : Type) : Type := S → outcome A * S * list event.

#[global] Instance M_ret {S} : MRet (M S) := λ A a s, (Returned a, s, []).
#[global] Instance M_bind {S} : MBind (M S) := λ A B f m s,
  match m s with
  | (Returned a, s1, l1) =>
      match f a s1 with
      | (r, s2, l2) => (r, s2, l1 ++ l2)
      end
  | (Thrown e, s1, l1) => (Thrown e, s1, l1)
  end.

Definition throw {S A} (e : exn) : M S A := λ s, (Thrown e, s, []).

(** An awaited call to a collaborator whose settled result is [r]. *)
Definition call {S A} (ev : event) (r : outcome A) : M S A := λ s, (r, s, [ev]).

(** A call that is not logged (pure helpers that may throw, e.g. [new URL]). *)
Definition lift {S A} (r : outcome A) : M S A := λ s, (r, s, []).

Definition get {S} : M S S := λ s, (Returned s, s, []).
Definition modify {S} (f : S → S) : M S unit := λ s, (Returned tt, f s, []).

Definition result {S A} (x : outcome A * S * list event) : outcome A := x.1.1.
Definition final {S A} (x : outcome A * S * list event) : S := x.1.2.
Definition calls {S A} (x : outcome A * S * list event) : list event := x.2.

(** ** security/jwt: the token codec *)

Module Jwt.

Definition Key : Type := string.

(** What the codec imports from [jose], [@panva/hkdf] and the runtime. *)
Record Externals : Type := {
  (** [hkdf(digest, ikm, salt, info, keylen)] *)
  hkdf : string → string → string → string → Z → outcome Key;
  (** [jwtDecrypt(token, key, { clockTolerance })] *)
  jwtDecrypt : string → Key → Z → outcome JWTDecryptResult;
  (** [new EncryptJWT(token).setProtectedHeader(..).setIssuedAt()
      .setExpirationTime(exp).setJti(jti).encrypt(key)] *)
  encryptJWT : value → Z → string → Key → outcome string;
  (** [Date.now()], in milliseconds *)
  Date_now : Z;
  randomUUID : string
}.

Section Codec.
Variable E : Externals.

Definition DEFAULT_MAX_AGE : Z := 30 * 24 * 60 * 60.

(** [x | 0]: truncation to a signed 32-bit integer. *)
Definition to_int32 (x : Z) : Z := (x + 2 ^ 31) mod 2 ^ 32 - 2 ^ 31.

(** [(Date.now() / 1000) | 0] *)
Definition now : Z := to_int32 (Z.quot (Date_now E) 1000).

Definition getDerivedEncryptionKey (secret : string) : outcome Key :=
  hkdf E "sha256" secret "" "Aponia Auth" 32.

Definition encode (params : JWTEncodeParams) : outcome string :=
  let token := default (VObj []) (enc_token params) in
  let secret := enc_secret params in
  let maxAge := default DEFAULT_MAX_AGE (enc_maxAge params) in
  encryptionSecret ← getDerivedEncryptionKey secret;
  encryptJWT E token (now + maxAge) (randomUUID E) encryptionSecret.

Definition decode (params : JWTDecodeParams) : outcome value :=
  match dec_token params with
  | None => Returned VNull
  | Some token =>
      encryptionSecret ← getDerivedEncryptionKey (dec_secret params);
      r ← jwtDecrypt E token encryptionSecret 15;
      Returned (payload r)
  end.

End Codec.
End Jwt.

(** ** session/token: the session and token lifecycle manager *)

Module TokenSession.

Definition DefaultAccessTokenMaxAge : Z := 60 * 60.
Definition DefaultRefreshTokenMaxAge : Z := 60 * 60 * 24 * 7.

Record TokenMaxAge : Type := {
  ma_accessToken : Z;
  ma_refreshToken : Z
}.

Record PartialTokenMaxAge : Type := {
  pma_accessToken : option Z;
  pma_refreshToken : option Z
}.

(** [Omit<JWTOptions, 'maxAge'>]: the secret and custom codec functions. *)
Record JWTOptions : Type := {
  jwt_secret : option string;
  jwt_encode : option (JWTEncodeParams → outcome string);
  jwt_decode : option (JWTDecodeParams → outcome value)
}.

Definition InvalidateHook : Type :=
  value → value → outcome (option InternalResponse).

Record TokenSessionConfig : Type := {
  cfg_secret : string;
  cfg_jwt : option JWTOptions;
  cfg_maxAge : option PartialTokenMaxAge;
  cfg_useSecureCookies : option bool;
  cfg_createSession : value → outcome NewSession;
  cfg_refreshSession : value → outcome NewSession;
  cfg_onInvalidateSession : option InvalidateHook
}.

Record TokenSessionManager : Type := {
  secret : string;
  jwt : JWTOptions;
  encode : JWTEncodeParams → outcome string;
  decode : JWTDecodeParams → outcome value;
  maxAge_ : TokenMaxAge;
  cookies_ : CookiesOptions;
  createSession : value → outcome NewSession;
  refreshSession : value → outcome NewSession;
  onInvalidateSession : option InvalidateHook
}.

(** A fetch [Request]: its [cookie] header, if any. *)
Record Request : Type := {
  cookie_header : option string
}.

Section Manager.
(** The codec's imports, the [cookie] package's [parse] and
    [createCookiesOptions] of security/cookie. *)
Variable E : Jwt.Externals.
Variable parse : string → gmap string string.
Variable createCookiesOptions : option bool → CookiesOptions.

Definition constructor (config : TokenSessionConfig) : TokenSessionManager :=
  {| secret := cfg_secret config;
     jwt := {| jwt_secret := Some (cfg_secret config);
               jwt_encode := cfg_jwt config ≫= jwt_encode;
               jwt_decode := cfg_jwt config ≫= jwt_decode |};
     maxAge_ :=
       {| ma_accessToken :=
            default DefaultAccessTokenMaxAge (cfg_maxAge config ≫= pma_accessToken);
          ma_refreshToken :=
            default DefaultRefreshTokenMaxAge (cfg_maxAge config ≫= pma_refreshToken) |};
     encode := default (Jwt.encode E) (cfg_jwt config ≫= jwt_encode);
     decode := default (Jwt.decode E) (cfg_jwt config ≫= jwt_decode);
     cookies_ := createCookiesOptions (cfg_useSecureCookies config);
     createSession := cfg_createSession config;
     refreshSession := cfg_refreshSession config;
     onInvalidateSession := cfg_onInvalidateSession config |}.

Variable this : TokenSessionManager.

Definition access_cookie (v : string) : Cookie :=
  {| name := co_name (ck_accessToken (cookies_ this));
     value_ := v;
     options := with_maxAge (co_options (ck_accessToken (cookies_ this)))
                  (ma_accessToken (maxAge_ this)) |}.

Definition refresh_cookie (v : string) : Cookie :=
  {| name := co_name (ck_refreshToken (cookies_ this));
     value_ := v;
     options := with_maxAge (co_options (ck_refreshToken (cookies_ this)))
                  (ma_refreshToken (maxAge_ this)) |}.

Definition access_params (tok : value) : JWTEncodeParams :=
  {| enc_secret := secret this;
     enc_maxAge := Some (ma_accessToken (maxAge_ this));
     enc_token := Some tok |}.

Definition refresh_params (tok : value) : JWTEncodeParams :=
  {| enc_secret := secret this;
     enc_maxAge := Some (ma_refreshToken (maxAge_ this));
     enc_token := Some tok |}.

Definition decode_params (tok : option string) : JWTDecodeParams :=
  {| dec_secret := secret this; dec_token := tok |}.

Definition createCookies (newSession : NewSession) : M unit (list Cookie) :=
  let cookies : list Cookie := [] in
  cookies ←
    (if truthy (opt_accessToken newSession) then
       v ← call (Call_encode (access_params (opt_accessToken newSession)))
              (encode this (access_params (opt_accessToken newSession)));
       mret (cookies ++ [access_cookie v])
     else mret cookies);
  cookies ←
    (if truthy (opt_refreshToken newSession) then
       v ← call (Call_encode (refresh_params (opt_refreshToken newSession)))
              (encode this (refresh_params (opt_refreshToken newSession)));
       mret (cookies ++ [refresh_cookie v])
     else mret cookies);
  mret cookies.

Definition handleRequest (request : InternalRequest) : M unit InternalResponse :=
  let accessToken := req_cookies request !! co_name (ck_accessToken (cookies_ this)) in
  let refreshToken := req_cookies request !! co_name (ck_refreshToken (cookies_ this)) in
  refresh ← call (Call_decode (decode_params refreshToken))
              (decode this (decode_params refreshToken));
  if negb (truthy_str accessToken) && truthy_str refreshToken && truthy refresh then
    newSession ← call (Call_refreshSession refresh) (refreshSession this refresh);
    cs ← createCookies newSession;
    mret (cookies_response cs)
  else mret empty_response.

Definition handleResponse (response : InternalResponse) : M unit InternalResponse :=
  if negb (truthy (user response)) then mret response
  else
    newSession ← call (Call_createSession (user response))
                   (createSession this (user response));
    cs ← createCookies newSession;
    mret (push_cookies response cs).

Definition getUser (request : Request) : M unit value :=
  let cookies := parse (default "" (cookie_header request)) in
  let accessToken := cookies !! co_name (ck_accessToken (cookies_ this)) in
  if negb (truthy_str accessToken) then mret VNull
  else call (Call_decode (decode_params accessToken))
         (decode this (decode_params accessToken)).

Definition logout (request : Request) : M unit InternalResponse :=
  let cookies := parse (default "" (cookie_header request)) in
  let accessToken := cookies !! co_name (ck_accessToken (cookies_ this)) in
  let refreshToken := cookies !! co_name (ck_refreshToken (cookies_ this)) in
  session ← call (Call_decode (decode_params accessToken))
              (decode this (decode_params accessToken));
  refresh ← call (Call_decode (decode_params refreshToken))
              (decode this (decode_params refreshToken));
  response ←
    (if truthy session then
       match onInvalidateSession this with
       | Some hook =>
           r ← call (Call_onInvalidateSession session refresh) (hook session refresh);
           mret (default empty_response r)
       | None => mret empty_response
       end
     else mret empty_response);
  mret (push_cookies response
          [clearing (ck_accessToken (cookies_ this));
           clearing (ck_refreshToken (cookies_ this))]).

End Manager.
End TokenSession.

(** ** oauth4webapi and the check helpers *)

(** [oauth.AuthorizationServer]; an object made by [Object.create(null)]
    has no field set. *)
Record AuthorizationServer : Type := {
  issuer : option string;
  authorization_endpoint : option string;
  token_endpoint : option string;
  userinfo_endpoint : option string;
  code_challenge_methods_supported : option (list string)
}.

Record OAuth2Error : Type := {
  error : string;
  error_description : option string
}.

(** A fetch [Response]. *)
Record HttpResponse : Type := {
  http_status : Z;
  http_body : string
}.

(** The functions of [oauth4webapi] the providers call, and [URL]. *)
Record Lib : Type := {
  (** [new URL(s)]; throws a [TypeError] on an invalid URL *)
  URL_new : string → outcome URL;
  URL_toString : URL → string;
  discoveryRequest : URL → outcome HttpResponse;
  processDiscoveryResponse : URL → HttpResponse → outcome AuthorizationServer;
  validateAuthResponse :
    AuthorizationServer → Obj → list (string * string) → option string →
    outcome (OAuth2Error + list (string * string));
  authorizationCodeGrantRequest :
    AuthorizationServer → Obj → list (string * string) → string → option string →
    outcome HttpResponse;
  parseWwwAuthenticateChallenges : HttpResponse → option (list value);
  processAuthorizationCodeOAuth2Response :
    AuthorizationServer → Obj → HttpResponse → outcome (OAuth2Error + value);
  processAuthorizationCodeOpenIDResponse :
    AuthorizationServer → Obj → HttpResponse → option string →
    outcome (OAuth2Error + value);
  getValidatedIdTokenClaims : value → value;
  (** [oauth.userInfoRequest(as, client, access_token).then(r => r.json())] *)
  userInfoRequest_json : AuthorizationServer → Obj → value → outcome value
}.

(** security/checks for a provider type [P]: [checks.<kind>.create(provider)]
    and [checks.<kind>.use(request, provider)], each giving a value and a
    cookie (the cookie of [use] may be undefined). *)
Record Checks (P : Type) : Type := {
  create : OAuthCheck → P → outcome (string * Cookie);
  use : OAuthCheck → InternalRequest → P → outcome (option string * option Cookie)
}.
Arguments create {P} _ _ _.
Arguments use {P} _ _ _ _.

(** [checks?.includes(c)] *)
Definition includes (c : OAuthCheck) (checks : list OAuthCheck) : bool :=
  bool_decide (c ∈ checks).

(** Property lookup on an object, [undefined] when absent. *)
Fixpoint obj_get (k : string) (o : Obj) : value :=
  match o with
  | [] => VUndefined
  | (k', v) :: o' => if String.eqb k' k then v else obj_get k o'
  end.

(** [v.k] for a value that is an object. *)
Definition prop (k : string) (v : value) : value :=
  match v with
  | VObj fields => obj_get k fields
  | _ => VUndefined
  end.

(** [if (c) cookies.push(c)] *)
Definition push_if (cookies : list Cookie) (c : option Cookie) : list Cookie :=
  match c with
  | Some c => cookies ++ [c]
  | None => cookies
  end.

(** [Object.entries(params).forEach(([key, value]) => { if (typeof value
    === 'string') url.searchParams.set(key, value) })] *)
Definition set_string_params (params : Obj) (u : URL) : URL :=
  foldl (λ u p, match p.2 with VStr v => url_set p.1 v u | _ => u end) u params.

(** ** providers/core/oauth: the OAuth 2.0 provider *)

Module OAuth.

Record Pages : Type := {
  pg_login : string;
  pg_callback : string
}.

Record PartialPages : Type := {
  ppg_login : option string;
  ppg_callback : option string
}.

(** [Endpoint]: [request] and [conform] are optional functions.  The
    result of [request] is what its call gives, awaited: [None] when the
    call itself returns [null] or [undefined] (no promise), which [??]
    tests before the [await]; a promise that resolves to [null] gives
    [Some VNull]. *)
Record Endpoint (Ctx : Type) : Type := {
  ep_url : string;
  ep_params : option Obj;
  ep_request : option (Ctx → outcome (option value));
  ep_conform : option (HttpResponse → outcome (option HttpResponse))
}.
Arguments ep_url {Ctx} _.
Arguments ep_params {Ctx} _.
Arguments ep_request {Ctx} _.
Arguments ep_conform {Ctx} _.

(** The context of a userinfo request is the token set (the provider is
    the receiver of the call). *)
Record OAuthEndpoints : Type := {
  ep_authorization : Endpoint value;
  ep_token : Endpoint value;
  ep_userinfo : Endpoint value
}.

Record JWTOptions : Type := {
  jwt_secret : string;
  jwt_maxAge : option Z
}.

(** [OAuthConfig], the constructor's argument. *)
Record OAuthConfig : Type := {
  c_id : string;
  c_clientId : string;
  c_clientSecret : string;
  c_client : Obj;
  c_jwt : JWTOptions;
  c_cookies : CookiesOptions;
  c_checks : list OAuthCheck;
  c_pages : Pages;
  c_endpoints : OAuthEndpoints;
  c_onAuth : value → outcome InternalResponse
}.

(** The fields of an [OAuthProvider] instance. *)
Record OAuthProvider : Type := {
  id : string;
  clientId : string;
  clientSecret : string;
  client : Obj;
  authorizationServer : AuthorizationServer;
  jwt : JWTOptions;
  cookies_ : CookiesOptions;
  checks : list OAuthCheck;
  pages : Pages;
  endpoints : OAuthEndpoints;
  onAuth : value → outcome InternalResponse
}.

Definition constructor (options : OAuthConfig) : OAuthProvider :=
  {| id := c_id options;
     clientId := c_clientId options;
     clientSecret := c_clientSecret options;
     client := c_client options;
     jwt := c_jwt options;
     cookies_ := c_cookies options;
     checks := c_checks options;
     pages := c_pages options;
     endpoints := c_endpoints options;
     onAuth := c_onAuth options;
     authorizationServer :=
       {| issuer := Some "auth.js";
          authorization_endpoint := Some (ep_url (ep_authorization (c_endpoints options)));
          token_endpoint := Some (ep_url (ep_token (c_endpoints options)));
          userinfo_endpoint := Some (ep_url (ep_userinfo (c_endpoints options)));
          code_challenge_methods_supported := None |} |}.

Section Provider.
Variable L : Lib.
Variable checks_ : Checks OAuthProvider.

(** One check of [login]: when enabled, create it, set its parameters on
    the URL and collect its cookie. *)
Definition login_check (c : OAuthCheck) (this : OAuthProvider)
    (set : string → URL → URL) (acc : URL * list Cookie) :
    M OAuthProvider (URL * list Cookie) :=
  if includes c (checks this) then
    '(v, cookie) ← call (Call_check_create c) (create checks_ c this);
    mret (set v acc.1, acc.2 ++ [cookie])
  else mret acc.

Definition login (request : InternalRequest) : M OAuthProvider InternalResponse :=
  this ← get;
  url ← lift (URL_new L (ep_url (ep_authorization (endpoints this))));
  let cookies : list Cookie := [] in
  let url := set_string_params (default [] (ep_params (ep_authorization (endpoints this)))) url in
  acc ← login_check state this (url_set "state") (url, cookies);
  acc ← login_check pkce this
          (λ v u, url_set "code_challenge_method" "S256" (url_set "code_challenge" v u)) acc;
  acc ← login_check nonce this (url_set "nonce") acc;
  let url :=
    if negb (sp_has "redirect_uri" (searchParams acc.1))
    then url_set "redirect_uri" (origin (req_url request) +:+ pg_callback (pages this)) acc.1
    else acc.1 in
  mret {| status := Some 302%Z; redirect := Some (URL_toString L url);
          cookies := Some acc.2; headers := None; body := None;
          user := VUndefined; session := VUndefined |}.

Definition callback (request : InternalRequest) : M OAuthProvider InternalResponse :=
  this ← get;
  let cookies : list Cookie := [] in
  '(state_, stateCookie) ← call (Call_check_use state) (use checks_ state request this);
  let cookies := push_if cookies stateCookie in
  codeGrantParams ←
    call (Call_validateAuthResponse state_)
      (validateAuthResponse L (authorizationServer this) (client this)
         (searchParams (req_url request)) state_);
  match codeGrantParams with
  | inl err => throw (Error (default "" (error_description err)))
  | inr codeGrantParams =>
      '(pkce_, pkceCookie) ← call (Call_check_use pkce) (use checks_ pkce request this);
      let cookies := push_if cookies pkceCookie in
      let redirectUri := origin (req_url request) +:+ pg_callback (pages this) in
      initialCodeGrantResponse ←
        call (Call_authorizationCodeGrantRequest redirectUri pkce_)
          (authorizationCodeGrantRequest L (authorizationServer this) (client this)
             codeGrantParams redirectUri pkce_);
      codeGrantResponse ←
        match ep_conform (ep_token (endpoints this)) with
        | Some conform =>
            r ← call Call_conform (conform initialCodeGrantResponse);
            mret (default initialCodeGrantResponse r)
        | None => mret initialCodeGrantResponse
        end;
      match parseWwwAuthenticateChallenges L codeGrantResponse with
      | Some _ => throw (Error "TODO: Handle www-authenticate challenges as needed")
      | None =>
          tokens ←
            call Call_processAuthorizationCodeOAuth2Response
              (processAuthorizationCodeOAuth2Response L (authorizationServer this)
                 (client this) codeGrantResponse);
          match tokens with
          | inl _ => throw (Error "TODO: Handle OAuth 2.0 response body error")
          | inr tokens =>
              let userInfoRequest :=
                call Call_userinfo
                  (userInfoRequest_json L (authorizationServer this) (client this)
                     (prop "access_token" tokens)) in
              profile ←
                match ep_request (ep_userinfo (endpoints this)) with
                | Some request =>
                    r ← call Call_userinfo (request tokens);
                    match r with
                    | Some profile => mret profile
                    | None => userInfoRequest
                    end
                | None => userInfoRequest
                end;
              if negb (truthy profile) then throw (Error "TODO: Handle missing profile")
              else
                processedResponse ← call (Call_onAuth profile) (onAuth this profile);
                mret (push_cookies processedResponse cookies)
          end
      end
  end.

End Provider.

(** *** mergeOAuthOptions *)

(** An endpoint given by the user: a URL string or an [Endpoint] object. *)
Inductive UserEndpoint : Type :=
| EpString (url : string)
| EpObject (e : Endpoint value).

Record UserEndpoints : Type := {
  ue_authorization : option UserEndpoint;
  ue_token : option UserEndpoint;
  ue_userinfo : option UserEndpoint
}.

Record OAuthUserConfig : Type := {
  u_id : option string;
  u_clientId : string;
  u_clientSecret : string;
  u_client : option Obj;
  u_onAuth : option (value → outcome InternalResponse);
  u_checks : option (list OAuthCheck);
  u_pages : option PartialPages;
  u_endpoints : option UserEndpoints;
  u_jwt : option JWTOptions;
  u_useSecureCookies : option bool
}.

Record OAuthDefaultConfig : Type := {
  d_id : string;
  d_checks : option (list OAuthCheck);
  d_client : option Obj;
  d_endpoints : OAuthEndpoints
}.

(** [typeof e === 'string' ? e : (e?.url ?? fallback)] *)
Definition endpoint_url (e : option UserEndpoint) (fallback : string) : string :=
  match e with
  | Some (EpString url) => url
  | Some (EpObject o) => ep_url o
  | None => fallback
  end.

(** [{ ...dflt, ...(typeof e === 'object' ? e : {}), url }] without the
    [params] key, which the caller sets or leaves as merged. *)
Definition endpoint_merge (dflt : Endpoint value) (e : option UserEndpoint)
    (url : string) (params : option Obj) : Endpoint value :=
  match e with
  | Some (EpObject o) =>
      {| ep_url := url; ep_params := params;
         ep_request := ep_request o ∪ ep_request dflt;
         ep_conform := ep_conform o ∪ ep_conform dflt |}
  | _ =>
      {| ep_url := url; ep_params := params;
         ep_request := ep_request dflt; ep_conform := ep_conform dflt |}
  end.

(** The [params] of a merged endpoint that does not override them. *)
Definition endpoint_params (dflt : Endpoint value) (e : option UserEndpoint) : option Obj :=
  match e with
  | Some (EpObject o) => ep_params o ∪ ep_params dflt
  | _ => ep_params dflt
  end.

Section Merge.
(** [createCookiesOptions] of security/cookie. *)
Variable createCookiesOptions : option bool → CookiesOptions.

Definition mergeOAuthOptions (userOptions : OAuthUserConfig)
    (defaultOptions : OAuthDefaultConfig) : OAuthConfig :=
  let id := default (d_id defaultOptions) (u_id userOptions) in
  let user_ep := λ (f : UserEndpoints → option UserEndpoint), u_endpoints userOptions ≫= f in
  let authorizationUrl :=
    endpoint_url (user_ep ue_authorization)
      (ep_url (ep_authorization (d_endpoints defaultOptions))) in
  let tokenUrl :=
    endpoint_url (user_ep ue_token) (ep_url (ep_token (d_endpoints defaultOptions))) in
  let userinfoUrl :=
    endpoint_url (user_ep ue_userinfo) (ep_url (ep_userinfo (d_endpoints defaultOptions))) in
  {| c_id := id;
     c_clientId := u_clientId userOptions;
     c_clientSecret := u_clientSecret userOptions;
     c_client :=
       spread (spread (default [] (d_client defaultOptions)) (default [] (u_client userOptions)))
         [("client_id", VStr (u_clientId userOptions));
          ("client_secret", VStr (u_clientSecret userOptions))];
     c_onAuth :=
       default (λ user, Returned
                  {| status := None; headers := None; body := None; redirect := None;
                     cookies := None; user := user; session := user |})
         (u_onAuth userOptions);
     c_checks := default (default [pkce] (d_checks defaultOptions)) (u_checks userOptions);
     c_pages :=
       {| pg_login := default ("/auth/login/" +:+ id) (u_pages userOptions ≫= ppg_login);
          pg_callback :=
            default ("/auth/callback/" +:+ id) (u_pages userOptions ≫= ppg_callback) |};
     c_endpoints :=
       {| ep_authorization :=
            endpoint_merge (ep_authorization (d_endpoints defaultOptions))
              (user_ep ue_authorization) authorizationUrl
              (Some (spread
                       (default [] (ep_params (ep_authorization (d_endpoints defaultOptions))))
                       [("client_id", VStr (u_clientId userOptions));
                        ("response_type", VStr "code")]));
          ep_token :=
            endpoint_merge (ep_token (d_endpoints defaultOptions)) (user_ep ue_token) tokenUrl
              (endpoint_params (ep_token (d_endpoints defaultOptions)) (user_ep ue_token));
          ep_userinfo :=
            endpoint_merge (ep_userinfo (d_endpoints defaultOptions)) (user_ep ue_userinfo)
              userinfoUrl
              (endpoint_params (ep_userinfo (d_endpoints defaultOptions))
                 (user_ep ue_userinfo)) |};
     c_cookies := createCookiesOptions (u_useSecureCookies userOptions);
     c_jwt :=
       {| jwt_secret := ""; jwt_maxAge := u_jwt userOptions ≫= jwt_maxAge |} |}.

End Merge.
End OAuth.

(** ** providers/oidc: the OpenID Connect provider *)

Module OIDC.

(** [Pages]; an object made by [Object.create(null)] has no field set. *)
Record Pages : Type := {
  pg_signIn : option string;
  pg_signOut : option string;
  pg_callback : option string
}.

(** An endpoint of the provider configuration:
    [undefined], a URL string, or an object [{ url?, params?, conform? }]. *)
Inductive EndpointConfig : Type :=
| EcUndefined
| EcString (url : string)
| EcObject (url : option string) (params : option Obj)
    (conform : option (HttpResponse → outcome HttpResponse)).

(** The fields of [OAuthConfig] (of @auth/core) the provider reads. *)
Record Fields : Type := {
  f_id : string;
  f_issuer : option string;
  f_clientId : option string;
  f_clientSecret : option string;
  f_client : option Obj;
  f_checks : option (list OAuthCheck);
  f_authorization : EndpointConfig;
  f_token : EndpointConfig;
  f_profile : option (value → value → outcome value)
}.

(** [Config<T>]: the provider's defaults and the user's [options]. *)
Record Config : Type := {
  defaults : Fields;
  options_ : option Fields
}.

Record Options : Type := {
  o_useSecureCookies : option bool;
  o_onAuth : option (value → value → outcome (option InternalResponse));
  o_jwt : option OAuth.JWTOptions;
  o_pages : option Pages
}.

Record AuthorizationFlow : Type := { au_url : URL }.

Record TokenFlow : Type := {
  tk_url : URL;
  tk_conform : option (HttpResponse → outcome HttpResponse)
}.

Record UserinfoFlow : Type := { ui_url : URL }.

(** [oauthFlow]: empty until [initialize] assigns its three fields. *)
Record OAuthFlow : Type := {
  fl_authorization : option AuthorizationFlow;
  fl_token : option TokenFlow;
  fl_userinfo : option UserinfoFlow
}.

(** The fields of an [OIDCProvider] instance. *)
Record OIDCProvider : Type := {
  initialized : bool;
  provider : Config;
  config : Fields;
  authorizationServer : AuthorizationServer;
  client : Obj;
  cookies_ : CookiesOptions;
  jwt : option OAuth.JWTOptions;
  pages : Pages;
  onAuth : option (value → value → outcome (option InternalResponse));
  oauthFlow : OAuthFlow
}.

(** Assignments to fields of [this]. *)
Definition set_initialized (b : bool) (this : OIDCProvider) : OIDCProvider :=
  {| initialized := b; provider := provider this; config := config this;
     authorizationServer := authorizationServer this; client := client this;
     cookies_ := cookies_ this; jwt := jwt this; pages := pages this;
     onAuth := onAuth this; oauthFlow := oauthFlow this |}.

Definition set_authorizationServer (a : AuthorizationServer) (this : OIDCProvider) :
    OIDCProvider :=
  {| initialized := initialized this; provider := provider this; config := config this;
     authorizationServer := a; client := client this;
     cookies_ := cookies_ this; jwt := jwt this; pages := pages this;
     onAuth := onAuth this; oauthFlow := oauthFlow this |}.

Definition set_oauthFlow (f : OAuthFlow) (this : OIDCProvider) : OIDCProvider :=
  {| initialized := initialized this; provider := provider this; config := config this;
     authorizationServer := authorizationServer this; client := client this;
     cookies_ := cookies_ this; jwt := jwt this; pages := pages this;
     onAuth := onAuth this; oauthFlow := f |}.

Definition set_config (c : Fields) (this : OIDCProvider) : OIDCProvider :=
  {| initialized := initialized this; provider := provider this; config := c;
     authorizationServer := authorizationServer this; client := client this;
     cookies_ := cookies_ this; jwt := jwt this; pages := pages this;
     onAuth := onAuth this; oauthFlow := oauthFlow this |}.

Definition with_checks (cs : option (list OAuthCheck)) (c : Fields) : Fields :=
  {| f_id := f_id c; f_issuer := f_issuer c; f_clientId := f_clientId c;
     f_clientSecret := f_clientSecret c; f_client := f_client c; f_checks := cs;
     f_authorization := f_authorization c; f_token := f_token c;
     f_profile := f_profile c |}.

Definition with_profile (p : option (value → value → outcome value)) (c : Fields) : Fields :=
  {| f_id := f_id c; f_issuer := f_issuer c; f_clientId := f_clientId c;
     f_clientSecret := f_clientSecret c; f_client := f_client c; f_checks := f_checks c;
     f_authorization := f_authorization c; f_token := f_token c;
     f_profile := p |}.

(** [this.config.checks = cs] *)
Definition set_checks (cs : list OAuthCheck) (this : OIDCProvider) : OIDCProvider :=
  set_config (with_checks (Some cs) (config this)) this.

(** [this.oauthFlow.authorization.url.searchParams.set(k, v)]: the URL
    object stored in the provider is the one [signIn] writes to. *)
Definition set_param (k v : string) (this : OIDCProvider) : OIDCProvider :=
  set_oauthFlow
    {| fl_authorization :=
         (λ a, {| au_url := url_set k v (au_url a) |}) <$> fl_authorization (oauthFlow this);
       fl_token := fl_token (oauthFlow this);
       fl_userinfo := fl_userinfo (oauthFlow this) |} this.

Definition empty_server : AuthorizationServer :=
  {| issuer := None; authorization_endpoint := None; token_endpoint := None;
     userinfo_endpoint := None; code_challenge_methods_supported := None |}.

(** [this.config.checks?.includes(c)] *)
Definition enabled (c : OAuthCheck) (this : OIDCProvider) : bool :=
  from_option (includes c) false (f_checks (config this)).

(** [this.authorizationServer.code_challenge_methods_supported?.includes('S256')] *)
Definition supports_S256 (this : OIDCProvider) : bool :=
  from_option (λ l, bool_decide ("S256" ∈ l)) false
    (code_challenge_methods_supported (authorizationServer this)).

Section Provider.
Variable L : Lib.
Variable checks_ : Checks OIDCProvider.
(** [merge] of utils/merge, [defaultProfile] of utils/profile and
    [defaultCookies] of security/cookie. *)
Variable merge : Fields → option Fields → Fields.
Variable defaultProfile : value → value → outcome value.
Variable defaultCookies : option bool → CookiesOptions.

Definition constructor (provider : Config) (options : Options) : OIDCProvider :=
  let config := merge (defaults provider) (options_ provider) in
  let config := with_checks (Some (default [pkce] (f_checks config))) config in
  let config := with_profile (Some (default defaultProfile (f_profile config))) config in
  {| initialized := false;
     authorizationServer := empty_server;
     oauthFlow := {| fl_authorization := None; fl_token := None; fl_userinfo := None |};
     jwt := o_jwt options;
     cookies_ := defaultCookies (o_useSecureCookies options);
     pages := default {| pg_signIn := None; pg_signOut := None; pg_callback := None |}
                (o_pages options);
     onAuth := o_onAuth options;
     config := config;
     provider := provider;
     client :=
       spread [("client_id", VStr (default "" (f_clientId (defaults provider))));
               ("client_secret", VStr (default "" (f_clientSecret (defaults provider))))]
         (default [] (f_client (defaults provider))) |}.

Definition initializeAuthorizationServer : M OIDCProvider unit :=
  this ← get;
  if negb (truthy_str (f_issuer (config this))) then
    modify (set_authorizationServer
              {| issuer := Some "authjs.dev"; authorization_endpoint := None;
                 token_endpoint := None; userinfo_endpoint := None;
                 code_challenge_methods_supported := None |})
  else
    issuer ← lift (URL_new L (default "" (f_issuer (config this))));
    discoveryResponse ←
      call (Call_discovery (default "" (f_issuer (config this)))) (discoveryRequest L issuer);
    server ← lift (processDiscoveryResponse L issuer discoveryResponse);
    modify (set_authorizationServer server).

(** [new URL(s)] when [s] is a non-empty string, else the alternative. *)
Definition url_or (s : option string) (alt : M OIDCProvider (option URL)) :
    M OIDCProvider (option URL) :=
  if truthy_str s then u ← lift (URL_new L (default "" s)); mret (Some u) else alt.

Definition initialize : M OIDCProvider unit :=
  initializeAuthorizationServer;;
  this ← get;
  authorizationUrl ←
    match f_authorization (config this) with
    | EcString s => u ← lift (URL_new L s); mret (Some u)
    | EcObject url _ _ =>
        url_or url (url_or (authorization_endpoint (authorizationServer this)) (mret None))
    | EcUndefined =>
        url_or (authorization_endpoint (authorizationServer this)) (mret None)
    end;
  match authorizationUrl with
  | None => throw (TypeError "Invalid authorization endpoint")
  | Some authorizationUrl =>
      let params :=
        spread [("response_type", VStr "code");
                ("client_id", VStr (default "" (f_clientId (config this))))]
          match f_authorization (config this) with
          | EcObject _ (Some params) _ => params
          | _ => []
          end in
      let authorizationUrl := set_string_params params authorizationUrl in
      tokenUrl ←
        match f_token (config this) with
        | EcString s => u ← lift (URL_new L s); mret (Some u)
        | _ => url_or (token_endpoint (authorizationServer this)) (mret None)
        end;
      match tokenUrl with
      | None => throw (TypeError "Invalid token endpoint")
      | Some tokenUrl =>
          userinfoUrl ←
            lift (URL_new L "placeholder-url: OIDC gets user info from tokens directly.");
          modify (λ this, set_oauthFlow
                    {| fl_authorization := Some {| au_url := authorizationUrl |};
                       fl_token :=
                         Some {| tk_url := tokenUrl;
                                 tk_conform :=
                                   match f_token (config this) with
                                   | EcObject _ _ conform => conform
                                   | _ => Some (λ response, Returned response)
                                   end |};
                       fl_userinfo := Some {| ui_url := userinfoUrl |} |} this);;
          modify (λ this, set_authorizationServer
                    {| issuer := issuer (authorizationServer this);
                       authorization_endpoint := Some (URL_toString L authorizationUrl);
                       token_endpoint := Some (URL_toString L tokenUrl);
                       userinfo_endpoint := Some (URL_toString L userinfoUrl);
                       code_challenge_methods_supported :=
                         code_challenge_methods_supported (authorizationServer this) |} this);;
          modify (set_initialized true)
      end
  end.

(** [if (!this.initialized) await this.initialize()] *)
Definition ensure_initialized : M OIDCProvider unit :=
  this ← get;
  if negb (initialized this) then initialize else mret tt.

(** [const { url } = this.oauthFlow.authorization] *)
Definition authorization_url : M OIDCProvider URL :=
  this ← get;
  match fl_authorization (oauthFlow this) with
  | Some a => mret (au_url a)
  | None => throw (TypeError "Cannot destructure property 'url' of undefined")
  end.

(** The blocks of [signIn], in the order of the source; each reads the
    provider as the blocks before it left it.

    [if (this.config.checks?.includes('state')) { ... }] *)
Definition signIn_state (cookies : list Cookie) : M OIDCProvider (list Cookie) :=
  this ← get;
  if enabled state this then
    '(v, stateCookie) ← call (Call_check_create state) (create checks_ state this);
    modify (set_param "state" v);;
    mret (cookies ++ [stateCookie])
  else mret cookies.

(** [if (this.config.checks?.includes('pkce')) { if (!...includes('S256'))
    { this.config.checks = ['nonce'] } else { ... } }] *)
Definition signIn_pkce (cookies : list Cookie) : M OIDCProvider (list Cookie) :=
  this ← get;
  if enabled pkce this then
    if negb (supports_S256 this) then
      modify (set_checks [nonce]);;
      mret cookies
    else
      '(v, pkceCookie) ← call (Call_check_create pkce) (create checks_ pkce this);
      modify (set_param "code_challenge" v);;
      modify (set_param "code_challenge_method" "S256");;
      mret (cookies ++ [pkceCookie])
  else mret cookies.

(** [if (this.config.checks?.includes('nonce')) { ... }] *)
Definition signIn_nonce (cookies : list Cookie) : M OIDCProvider (list Cookie) :=
  this ← get;
  if enabled nonce this then
    '(v, nonceCookie) ← call (Call_check_create nonce) (create checks_ nonce this);
    modify (set_param "nonce" v);;
    mret (cookies ++ [nonceCookie])
  else mret cookies.

(** [if (!url.searchParams.has('redirect_uri')) { ... }] *)
Definition signIn_redirect_uri (request : InternalRequest) : M OIDCProvider unit :=
  url ← authorization_url;
  if negb (sp_has "redirect_uri" (searchParams url)) then
    this ← get;
    modify (set_param "redirect_uri"
              (origin (req_url request) +:+ default "undefined" (pg_callback (pages this))))
  else mret tt.

(** [if (!url.searchParams.has('scope')) { ... }] *)
Definition signIn_scope : M OIDCProvider unit :=
  url ← authorization_url;
  if negb (sp_has "scope" (searchParams url)) then
    modify (set_param "scope" "openid profile email")
  else mret tt.

(** [signIn] once the provider is initialized. *)
Definition signIn_body (request : InternalRequest) : M OIDCProvider InternalResponse :=
  let cookies : list Cookie := [] in
  _ ← authorization_url;
  cookies ← signIn_state cookies;
  cookies ← signIn_pkce cookies;
  cookies ← signIn_nonce cookies;
  signIn_redirect_uri request;;
  signIn_scope;;
  url ← authorization_url;
  mret {| status := Some 302%Z; redirect := Some (URL_toString L url);
          cookies := Some cookies; headers := None; body := None;
          user := VUndefined; session := VUndefined |}.

Definition signIn (request : InternalRequest) : M OIDCProvider InternalResponse :=
  ensure_initialized;;
  signIn_body request.

(** [callback] once the provider is initialized. *)
Definition callback_body (request : InternalRequest) : M OIDCProvider InternalResponse :=
  this ← get;
  let cookies : list Cookie := [] in
  '(state_, stateCookie) ← call (Call_check_use state) (use checks_ state request this);
  let cookies := push_if cookies stateCookie in
  codeGrantParams ←
    call (Call_validateAuthResponse state_)
      (validateAuthResponse L (authorizationServer this) (client this)
         (searchParams (req_url request)) state_);
  match codeGrantParams with
  | inl err => throw (Error (default "" (error_description err)))
  | inr codeGrantParams =>
      '(pkce_, pkceCookie) ← call (Call_check_use pkce) (use checks_ pkce request this);
      let cookies := push_if cookies pkceCookie in
      let redirectUri :=
        origin (req_url request) +:+ default "undefined" (pg_callback (pages this)) in
      initialCodeGrantResponse ←
        call (Call_authorizationCodeGrantRequest redirectUri pkce_)
          (authorizationCodeGrantRequest L (authorizationServer this) (client this)
             codeGrantParams redirectUri pkce_);
      codeGrantResponse ←
        match fl_token (oauthFlow this) ≫= tk_conform with
        | Some conform => call Call_conform (conform initialCodeGrantResponse)
        | None => throw (TypeError "this.oauthFlow.token.conform is not a function")
        end;
      match parseWwwAuthenticateChallenges L codeGrantResponse with
      | Some _ => throw (Error "TODO: Handle www-authenticate challenges as needed")
      | None =>
          '(nonce_, nonceCookie) ← call (Call_check_use nonce) (use checks_ nonce request this);
          let cookies := push_if cookies nonceCookie in
          result ←
            call (Call_processAuthorizationCodeOpenIDResponse nonce_)
              (processAuthorizationCodeOpenIDResponse L (authorizationServer this)
                 (client this) codeGrantResponse nonce_);
          match result with
          | inl _ => throw (Error "TODO: Handle OIDC response body error")
          | inr result =>
              let profile := getValidatedIdTokenClaims L result in
              session ←
                match f_profile (config this) with
                | Some profile_ => call Call_profile (profile_ profile result)
                | None => throw (TypeError "this.config.profile is not a function")
                end;
              mret {| session := session; redirect := Some "/"; status := Some 302%Z;
                      cookies := None; headers := None; body := None; user := VUndefined |}
          end
      end
  end.

Definition callback (request : InternalRequest) : M OIDCProvider InternalResponse :=
  ensure_initialized;;
  callback_body request.

End Provider.
End OIDC.

(** ** The check helpers, from their description *)

Module SpecChecks.

Section Checks.
(** The token codec, the random source and the S256 digest. *)
Variable encode : JWTEncodeParams → outcome string.
Variable decode : JWTDecodeParams → outcome value.
Variable random : OAuthCheck → string.
Variable S256 : string → string.
(** The time to live of a check cookie, in seconds. *)
Variable ttl : Z.

Definition cookie_of (c : OAuthCheck) (o : CookiesOptions) : CookieOption :=
  match c with
  | state | none => ck_state o
  | pkce => ck_pkce o
  | nonce => ck_nonce o
  end.

(** Modelled from the spec: [checks.<kind>.create] of security/checks,
    which is not among the sources.  "[create] generates a
    cryptographically random opaque value, stores it (via Token Codec,
    short TTL) in a dedicated cookie"; for pkce the value in the URL is the
    S256 challenge of the stored verifier. *)
Definition create (o : CookiesOptions) (secret : string) (c : OAuthCheck) :
    outcome (string * Cookie) :=
  let v := random c in
  token ← encode {| enc_token := Some (VObj [("value", VStr v)]);
                    enc_secret := secret; enc_maxAge := Some ttl |};
  Returned (match c with pkce => S256 v | _ => v end,
            {| name := co_name (cookie_of c o); value_ := token;
               options := with_maxAge (co_options (cookie_of c o)) ttl |}).

(** Modelled from the spec: [checks.<kind>.use] of security/checks, which
    is not among the sources.  "[use] reads the cookie, decodes it"; "[use]
    without a matching cookie fails with ValidationError"; it "emits a
    clearing cookie instruction (max-age 0) alongside the decoded value". *)
Definition use (o : CookiesOptions) (secret : string) (c : OAuthCheck)
    (request : InternalRequest) : outcome (option string * option Cookie) :=
  match req_cookies request !! co_name (cookie_of c o) with
  | None => Thrown (Error "ValidationError")
  | Some token =>
      p ← decode {| dec_token := Some token; dec_secret := secret |};
      match prop "value" p with
      | VStr v => Returned (Some v, Some (clearing (cookie_of c o)))
      | _ => Thrown (Error "ValidationError")
      end
  end.

End Checks.
End SpecChecks.

(** ** Contracts of the collaborators *)




Definition is_token_request (ev : event) : bool :=
  match ev with
  | Call_authorizationCodeGrantRequest _ _ => true
  | _ => false
  end.


Definition is_createSession (ev : event) : bool :=
  match ev with
  | Call_createSession _ => true
  | _ => false
  end.

Definition is_refreshSession (ev : event) : bool :=
  match ev with
  | Call_refreshSession _ => true
  | _ => false
  end.

Definition is_check_create (c : OAuthCheck) (ev : event) : bool :=
  match ev with
  | Call_check_create c' => bool_decide (c' = c)
  | _ => false
  end.

(** The URL parameter that carries the value of a check. *)
Definition check_param (c : OAuthCheck) : string :=
  match c with
  | state => "state"
  | pkce => "code_challenge"
  | nonce => "nonce"
  | none => "none"
  end.

(** ** What the provider methods leave alone *)

Module OIDCFrame.
Import OIDC.

(** The authorization URL stored in the provider, if any. *)
Definition flow_url (p : OIDCProvider) : option URL :=
  au_url <$> fl_authorization (oauthFlow p).

(** What [initialize] leaves alone. *)
Definition init_frame (p p' : OIDCProvider) : Prop :=
  provider p' = provider p ∧ config p' = config p ∧ client p' = client p ∧
  cookies_ p' = cookies_ p ∧ jwt p' = jwt p ∧ pages p' = pages p ∧
  onAuth p' = onAuth p.

(** What [signIn] leaves alone once the provider is initialized:
    everything but the list of checks and the parameters of the stored
    authorization URL. *)
Definition login_frame (p p' : OIDCProvider) : Prop :=
  initialized p' = initialized p ∧ provider p' = provider p ∧
  authorizationServer p' = authorizationServer p ∧ client p' = client p ∧
  cookies_ p' = cookies_ p ∧ jwt p' = jwt p ∧ pages p' = pages p ∧
  onAuth p' = onAuth p ∧
  fl_token (oauthFlow p') = fl_token (oauthFlow p) ∧
  fl_userinfo (oauthFlow p') = fl_userinfo (oauthFlow p) ∧
  with_checks None (config p') = with_checks None (config p) ∧
  (base <$> flow_url p') = (base <$> flow_url p) ∧
  (origin <$> flow_url p') = (origin <$> flow_url p).

(** How [signIn] may change the list of checks: not at all, or to
    [['nonce']] when pkce is enabled and the server does not support S256. *)
Definition checks_step (p p' : OIDCProvider) : Prop :=
  f_checks (config p') = f_checks (config p) ∨
  (enabled pkce p = true ∧ supports_S256 p = false ∧
   f_checks (config p') = Some [nonce]).

Definition signIn_frame (p p' : OIDCProvider) : Prop :=
  login_frame p p' ∧ checks_step p p'.

End OIDCFrame.

(** ** Concrete instances used by the examples *)

Module Examples.

Definition base_options (secure : option bool) : CookieSerializeOptions :=
  {| path := Some "/"; domain := None; httpOnly := Some true;
     sameSite := Some "lax"; secure := secure; maxAge := None |}.

(** Modelled from the spec: [createCookiesOptions] / [defaultCookies] of
    security/cookie, which is not among the sources: "attributes
    httpOnly=true, sameSite=lax, secure=toggle, path=root". *)
Definition createCookiesOptions (useSecureCookies : option bool) : CookiesOptions :=
  {| ck_state := {| co_name := "state"; co_options := base_options useSecureCookies |};
     ck_pkce := {| co_name := "pkce"; co_options := base_options useSecureCookies |};
     ck_nonce := {| co_name := "nonce"; co_options := base_options useSecureCookies |};
     ck_accessToken :=
       {| co_name := "access-token"; co_options := base_options useSecureCookies |};
     ck_refreshToken :=
       {| co_name := "refresh-token"; co_options := base_options useSecureCookies |} |}.

Fixpoint count_dots (s : string) : nat :=
  match s with
  | EmptyString => 0
  | String c s' => (if Ascii.eqb c "."%char then 1 else 0) + count_dots s'
  end.

Definition alice : value := VObj [("id", VStr "alice")].
Definition alice_refresh : value := VObj [("rid", VStr "r1")].

(** The tokens issued under the example key, with their payloads. *)
Definition issued : list (string * value) :=
  [("hdr..iv.alice.tag", alice); ("hdr..iv.refresh.tag", alice_refresh);
   ("hdr..iv.state.tag", VObj [("value", VStr "S")]);
   ("hdr..iv.verifier.tag", VObj [("value", VStr "V")]);
   ("hdr..iv.nonce.tag", VObj [("value", VStr "N")])].

Fixpoint lookup_entry {V} (k : string) (l : list (string * V)) : option V :=
  match l with
  | [] => None
  | (k', v) :: l' => if String.eqb k' k then Some v else lookup_entry k l'
  end.

(** [jose] under one key: a compact JWE has five dot-separated parts
    ([JWEInvalid] otherwise) and decrypts only if it was issued
    ([JWEDecryptionFailed] otherwise). *)
Definition jwtDecrypt (token : string) (key : Jwt.Key) (clockTolerance : Z) :
    outcome JWTDecryptResult :=
  if negb (count_dots token =? 4)%nat then Thrown (External "JWEInvalid")
  else match lookup_entry token issued with
       | Some p => Returned {| payload := p; protectedHeader := VObj [] |}
       | None => Thrown (External "JWEDecryptionFailed")
       end.

Definition externals : Jwt.Externals :=
  {| Jwt.hkdf := λ _ ikm _ _ _, Returned ("key:" +:+ ikm);
     Jwt.jwtDecrypt := jwtDecrypt;
     Jwt.encryptJWT := λ token _ _ _,
       match prop "id" token, prop "rid" token, prop "value" token with
       | VStr "alice", _, _ => Returned "hdr..iv.alice.tag"
       | _, VStr "r1", _ => Returned "hdr..iv.refresh.tag"
       | _, _, VStr "S" => Returned "hdr..iv.state.tag"
       | _, _, VStr "V" => Returned "hdr..iv.verifier.tag"
       | _, _, VStr "N" => Returned "hdr..iv.nonce.tag"
       | _, _, _ => Returned "hdr..iv.other.tag"
       end;
     Jwt.Date_now := 1700000000000;
     Jwt.randomUUID := "00000000-0000-4000-8000-000000000000" |}.

(** The [cookie] package's [parse] on the headers of the examples. *)
Definition parse (header : string) : gmap string string :=
  if String.eqb header "access-token=garbage" then {[ "access-token" := "garbage" ]}
  else if String.eqb header "access-token=hdr..iv.alice.tag"
  then {[ "access-token" := "hdr..iv.alice.tag" ]}
  else ∅.

Definition new_session : NewSession :=
  Some {| accessToken := alice; refreshToken := alice_refresh |}.

(** A manager with the default codec and no invalidation hook. *)
Definition config : TokenSession.TokenSessionConfig :=
  {| TokenSession.cfg_secret := "s3cret";
     TokenSession.cfg_jwt := None;
     TokenSession.cfg_maxAge := None;
     TokenSession.cfg_useSecureCookies := Some true;
     TokenSession.cfg_createSession := λ _, Returned new_session;
     TokenSession.cfg_refreshSession := λ _, Returned new_session;
     TokenSession.cfg_onInvalidateSession := None |}.

Definition manager : TokenSession.TokenSessionManager :=
  TokenSession.constructor externals createCookiesOptions config.

(** The same with an invalidation hook whose store is unreachable. *)
Definition config_failing_hook : TokenSession.TokenSessionConfig :=
  {| TokenSession.cfg_secret := "s3cret";
     TokenSession.cfg_jwt := None;
     TokenSession.cfg_maxAge := None;
     TokenSession.cfg_useSecureCookies := Some true;
     TokenSession.cfg_createSession := λ _, Returned new_session;
     TokenSession.cfg_refreshSession := λ _, Returned new_session;
     TokenSession.cfg_onInvalidateSession :=
       Some (λ _ _, Thrown (Error "session store unreachable")) |}.

Definition manager_failing_hook : TokenSession.TokenSessionManager :=
  TokenSession.constructor externals createCookiesOptions config_failing_hook.

Definition example_url : URL :=
  {| origin := "https://app.example"; base := "https://app.example/auth/callback/github";
     searchParams := [("code", "X"); ("state", "S")] |}.

(** *** Providers *)

Definition plain_url (s o : string) : string * URL :=
  (s, {| origin := o; base := s; searchParams := [] |}).

(** The URLs of the examples, parsed. *)
Definition urls : list (string * URL) :=
  [plain_url "https://github.com/login/oauth/authorize" "https://github.com";
   plain_url "https://github.com/login/oauth/access_token" "https://github.com";
   plain_url "https://api.github.com/user" "https://api.github.com";
   plain_url "https://accounts.example" "https://accounts.example";
   plain_url "https://accounts.example/authorize" "https://accounts.example";
   plain_url "https://accounts.example/token" "https://accounts.example";
   plain_url "placeholder-url: OIDC gets user info from tokens directly." "null"].

Fixpoint query (l : list (string * string)) : string :=
  match l with
  | [] => ""
  | [(k, v)] => k +:+ "=" +:+ v
  | (k, v) :: l' => k +:+ "=" +:+ v +:+ "&" +:+ query l'
  end.

(** The discovery document of the example issuer: no
    [code_challenge_methods_supported]. *)
Definition discovered : AuthorizationServer :=
  {| issuer := Some "https://accounts.example";
     authorization_endpoint := Some "https://accounts.example/authorize";
     token_endpoint := Some "https://accounts.example/token";
     userinfo_endpoint := None;
     code_challenge_methods_supported := None |}.

(** [oauth4webapi] on the examples.  [validateAuthResponse] throws when the
    [state] parameter is not the expected one and returns the error of an
    error response. *)
Definition lib : Lib :=
  {| URL_new := λ s, from_option Returned (Thrown (TypeError "Invalid URL")) (lookup_entry s urls);
     URL_toString := λ u,
       match searchParams u with
       | [] => base u
       | l => base u +:+ "?" +:+ query l
       end;
     discoveryRequest := λ _, Returned {| http_status := 200; http_body := "{...}" |};
     processDiscoveryResponse := λ _ _, Returned discovered;
     validateAuthResponse := λ _ _ params expected,
       if negb (bool_decide (sp_get "state" params = expected))
       then Thrown (External "OperationProcessingError")
       else match sp_get "error" params with
            | Some e =>
                Returned (inl {| error := e;
                                 error_description := sp_get "error_description" params |})
            | None => Returned (inr params)
            end;
     authorizationCodeGrantRequest := λ _ _ _ _ _,
       Returned {| http_status := 200; http_body := "{...}" |};
     parseWwwAuthenticateChallenges := λ _, None;
     processAuthorizationCodeOAuth2Response := λ _ _ _,
       Returned (inr (VObj [("access_token", VStr "at")]));
     processAuthorizationCodeOpenIDResponse := λ _ _ _ _,
       Returned (inr (VObj [("id_token", VStr "idt")]));
     getValidatedIdTokenClaims := λ _, alice;
     userInfoRequest_json := λ _ _ _, Returned alice |}.

Definition random (c : OAuthCheck) : string :=
  match c with
  | state => "S"
  | pkce => "V"
  | nonce => "N"
  | none => ""
  end.

Definition S256 (verifier : string) : string := "S256(" +:+ verifier +:+ ")".

(** The check helpers over the example codec, with a five minute TTL. *)
Definition checks_for {P} (cookies_of : P → CookiesOptions) : Checks P :=
  {| create := λ c this,
       SpecChecks.create (Jwt.encode externals) random S256 300 (cookies_of this) "s3cret" c;
     use := λ c request this,
       SpecChecks.use (Jwt.decode externals) (cookies_of this) "s3cret" c request |}.

Definition github_endpoint (url : string) : OAuth.Endpoint value :=
  {| OAuth.ep_url := url; OAuth.ep_params := None; OAuth.ep_request := None;
     OAuth.ep_conform := None |}.

Definition github_defaults : OAuth.OAuthDefaultConfig :=
  {| OAuth.d_id := "github"; OAuth.d_checks := None; OAuth.d_client := None;
     OAuth.d_endpoints :=
       {| OAuth.ep_authorization := github_endpoint "https://github.com/login/oauth/authorize";
          OAuth.ep_token := github_endpoint "https://github.com/login/oauth/access_token";
          OAuth.ep_userinfo := github_endpoint "https://api.github.com/user" |} |}.

Definition github_user (checks : option (list OAuthCheck)) : OAuth.OAuthUserConfig :=
  {| OAuth.u_id := None; OAuth.u_clientId := "client-1"; OAuth.u_clientSecret := "shh";
     OAuth.u_client := None; OAuth.u_onAuth := None; OAuth.u_checks := checks;
     OAuth.u_pages := None; OAuth.u_endpoints := None; OAuth.u_jwt := None;
     OAuth.u_useSecureCookies := Some true |}.

Definition github (checks : option (list OAuthCheck)) : OAuth.OAuthProvider :=
  OAuth.constructor
    (OAuth.mergeOAuthOptions createCookiesOptions (github_user checks) github_defaults).

(** The user's fields override the provider's where they are defined. *)
Definition merge (d : OIDC.Fields) (o : option OIDC.Fields) : OIDC.Fields :=
  match o with
  | None => d
  | Some o =>
      {| OIDC.f_id := OIDC.f_id d;
         OIDC.f_issuer := OIDC.f_issuer o ∪ OIDC.f_issuer d;
         OIDC.f_clientId := OIDC.f_clientId o ∪ OIDC.f_clientId d;
         OIDC.f_clientSecret := OIDC.f_clientSecret o ∪ OIDC.f_clientSecret d;
         OIDC.f_client := OIDC.f_client o ∪ OIDC.f_client d;
         OIDC.f_checks := OIDC.f_checks o ∪ OIDC.f_checks d;
         OIDC.f_authorization :=
           match OIDC.f_authorization o with
           | OIDC.EcUndefined => OIDC.f_authorization d
           | e => e
           end;
         OIDC.f_token :=
           match OIDC.f_token o with
           | OIDC.EcUndefined => OIDC.f_token d
           | e => e
           end;
         OIDC.f_profile := OIDC.f_profile o ∪ OIDC.f_profile d |}
  end.

Definition defaultProfile (profile tokens : value) : outcome value := Returned profile.

Definition accounts_fields (checks : option (list OAuthCheck)) : OIDC.Fields :=
  {| OIDC.f_id := "accounts"; OIDC.f_issuer := Some "https://accounts.example";
     OIDC.f_clientId := Some "client-1"; OIDC.f_clientSecret := Some "shh";
     OIDC.f_client := None; OIDC.f_checks := checks;
     OIDC.f_authorization := OIDC.EcUndefined; OIDC.f_token := OIDC.EcUndefined;
     OIDC.f_profile := None |}.

Definition accounts_pages : OIDC.Pages :=
  {| OIDC.pg_signIn := Some "/auth/login/accounts";
     OIDC.pg_signOut := Some "/auth/logout/accounts";
     OIDC.pg_callback := Some "/auth/callback/accounts" |}.

(** An OIDC provider whose issuer does not announce S256. *)
Definition accounts (checks : option (list OAuthCheck)) : OIDC.OIDCProvider :=
  OIDC.constructor merge defaultProfile createCookiesOptions
    {| OIDC.defaults := accounts_fields checks; OIDC.options_ := None |}
    {| OIDC.o_useSecureCookies := Some true; OIDC.o_onAuth := None; OIDC.o_jwt := None;
       OIDC.o_pages := Some accounts_pages |}.

Definition login_request : InternalRequest :=
  {| req_url := {| origin := "https://app.example";
                   base := "https://app.example/auth/login/accounts";
                   searchParams := [] |};
     req_cookies := ∅ |}.


End Examples.

(** ** session: the opaque-session manager *)

Module SessionManager.

Definition SESSION_COOKIE_NAME : string := "sid".

(** [JwtConfig], with the optional codec functions the constructor reads. *)
Record JwtConfig : Type := {
  jc_secret : string;
  jc_maxAge : option Z;
  jc_encode : option (JWTEncodeParams → outcome string);
  jc_decode : option (JWTDecodeParams → outcome value)
}.

Record SessionManagerConfig : Type := {
  smc_jwt : option JwtConfig
}.

(** The fields of a [SessionManager] instance. *)
Record SessionManager : Type := {
  jwt : JwtConfig;
  encode : JWTEncodeParams → outcome string;
  decode : JWTDecodeParams → outcome value
}.

Section Session.
Variable E : Jwt.Externals.
Variable parse : string → gmap string string.

(** [getSessionToken]: [sessionId || null]. *)
Definition getSessionToken (request : TokenSession.Request) : option string :=
  let cookies := parse (default "" (TokenSession.cookie_header request)) in
  let sessionId := cookies !! SESSION_COOKIE_NAME in
  if truthy_str sessionId then sessionId else None.

Definition constructor (config : SessionManagerConfig) : SessionManager :=
  {| jwt := default {| jc_secret := ""; jc_maxAge := None;
                       jc_encode := None; jc_decode := None |} (smc_jwt config);
     encode := default (Jwt.encode E) (smc_jwt config ≫= jc_encode);
     decode := default (Jwt.decode E) (smc_jwt config ≫= jc_decode) |}.

(** [{ ...this.jwt, token: session }], as the encoder reads it. *)
Definition token_params (this : SessionManager) (session : value) : JWTEncodeParams :=
  {| enc_secret := jc_secret (jwt this); enc_maxAge := jc_maxAge (jwt this);
     enc_token := Some session |}.

Definition createSessionToken (this : SessionManager) (session : value) : M unit string :=
  token ← call (Call_encode (token_params this session))
             (encode this (token_params this session));
  mret token.

End Session.
End SessionManager.

(** ** The page setter of the OIDC provider *)

Module OIDCSetters.
Import OIDC.

(** [Partial<Pages>] *)
Record PartialPages : Type := {
  pp_signIn : option string;
  pp_signOut : option string;
  pp_callback : option string
}.

(** [this.pages = pages] *)
Definition set_pages (pages_ : Pages) (this : OIDCProvider) : OIDCProvider :=
  {| initialized := initialized this; provider := provider this; config := config this;
     authorizationServer := authorizationServer this; client := client this;
     cookies_ := cookies_ this; jwt := jwt this; pages := pages_;
     onAuth := onAuth this; oauthFlow := oauthFlow this |}.

(** [setPages]: each page is its base path and the provider id. *)
Definition setPages (pages_ : PartialPages) (this : OIDCProvider) : OIDCProvider :=
  set_pages
    {| pg_signIn :=
         Some (default "/auth/login" (pp_signIn pages_) +:+ "/" +:+ f_id (config this));
       pg_signOut :=
         Some (default "/auth/logout" (pp_signOut pages_) +:+ "/" +:+ f_id (config this));
       pg_callback :=
         Some (default "/auth/callback" (pp_callback pages_) +:+ "/" +:+ f_id (config this)) |}
    this.

End OIDCSetters.

(** ** lib/providers: the first GitHub and Google providers *)

Module Legacy.

(** What [res.json()] gives, and what property reads on it give.  An
    array carries the properties assigned to it besides its items (none
    when it comes from [res.json()]). *)
#[warnings="-register-all"]
Inductive json : Type :=
| JUndefined
| JNull
| JBool (b : bool)
| JNum (n : Z)
| JStr (s : string)
| JArr (items : list json) (props : list (string * json))
| JObj (fields : list (string * json)).

Definition jtruthy (v : json) : bool :=
  match v with
  | JUndefined | JNull => false
  | JBool b => b
  | JNum n => negb (n =? 0)%Z
  | JStr s => negb (String.eqb s "")
  | JArr _ _ | JObj _ => true
  end.

(** [v == null] *)
Definition nullish (v : json) : bool :=
  match v with
  | JUndefined | JNull => true
  | _ => false
  end.

Fixpoint jlookup (k : string) (fields : list (string * json)) : json :=
  match fields with
  | [] => JUndefined
  | (k', v) :: fields' => if String.eqb k' k then v else jlookup k fields'
  end.

(** [v.k], for a key [k] that is neither an index nor defined by a
    prototype: a [TypeError] on [null] and [undefined], [undefined] on the
    other primitives.  The messages of the type errors are the engine's;
    they are abridged here. *)
Definition jget (k : string) (v : json) : outcome json :=
  match v with
  | JUndefined =>
      Thrown (TypeError ("Cannot read properties of undefined (reading '" +:+ k +:+ "')"))
  | JNull =>
      Thrown (TypeError ("Cannot read properties of null (reading '" +:+ k +:+ "')"))
  | JObj fields => Returned (jlookup k fields)
  | JArr _ props => Returned (jlookup k props)
  | _ => Returned JUndefined
  end.

(** [v.k = x] in strict code (a class body), for such a key: a [TypeError]
    on primitives. *)
Definition jset (k : string) (x : json) (v : json) : outcome json :=
  match v with
  | JObj fields => Returned (JObj (entries_set k x fields))
  | JArr items props => Returned (JArr items (entries_set k x props))
  | JUndefined | JNull =>
      Thrown (TypeError ("Cannot set properties of null (setting '" +:+ k +:+ "')"))
  | _ => Thrown (TypeError ("Cannot create property '" +:+ k +:+ "' on a primitive"))
  end.

(** [emails.find((e) => e.primary)] on the items of an array. *)
Fixpoint find_primary (items : list json) : outcome json :=
  match items with
  | [] => Returned JUndefined
  | e :: items' =>
      match jget "primary" e with
      | Returned p => if jtruthy p then Returned e else find_primary items'
      | Thrown err => Thrown err
      end
  end.

(** The requests sent and the hook called, in order. *)
Inductive effect : Type :=
| Fetch (url method : string) (headers : list (string * string)) (body : option string)
| OnLogin (user : json).

(** What the callbacks of the providers take from the runtime. *)
Record Runtime : Type := {
  (** [fetch(url, { method, headers, body }).then(res => res.json())] *)
  fetch_json : string → string → list (string * string) → option string → outcome json;
  (** [new URLSearchParams(record).toString()] *)
  qs : list (string * string) → string;
  (** [String(v)] for a value that is not a string *)
  ToString : json → string
}.

(** A settled result with the effects that led to it. *)
Definition W (A : Type) : Type := (outcome A * list effect)%type.

Definition ret {A} (a : A) : W A := (Returned a, []).
Definition bind {A B} (m : W A) (f : A → W B) : W B :=
  match m with
  | (Returned a, l1) =>
      match f a with
      | (r, l2) => (r, l1 ++ l2)
      end
  | (Thrown e, l1) => (Thrown e, l1)
  end.
Definition fail {A} (e : exn) : W A := (Thrown e, []).
Definition pure {A} (r : outcome A) : W A := (r, []).
Definition logged {A} (c : effect) (r : outcome A) : W A := (r, [c]).

Definition result_of {A} (x : W A) : outcome A := x.1.
Definition effects_of {A} (x : W A) : list effect := x.2.

#[global] Instance W_ret : MRet W := @ret.
#[global] Instance W_bind : MBind W := λ A B f m, bind m f.

Record OAuthConfig : Type := {
  clientId : string;
  clientSecret : string;
  scope : option (list string);
  onLogin : option (json → outcome json)
}.

Record GoogleOauthConfig : Type := {
  g_config : OAuthConfig;
  redirect_uri : string
}.

(** A fetch [Request]: its method and its URL, parsed. *)
Record Request : Type := {
  rq_method : string;
  rq_url : URL
}.

Section Shared.
Variable R : Runtime.

(** A value in a template literal or as a [URLSearchParams] entry. *)
Definition template (v : json) : string :=
  match v with
  | JStr s => s
  | _ => ToString R v
  end.

(** [fetch(url, init).then(res => res.json())], logged. *)
Definition fetch_json_ (url method : string) (headers : list (string * string))
    (body : option string) : W json :=
  logged (Fetch url method headers body) (fetch_json R url method headers body).

(** [await this.config.onLogin?.(user) ?? user] *)
Definition login_hook (config : OAuthConfig) (user : json) : W json :=
  match onLogin config with
  | Some hook =>
      r ← logged (OnLogin user) (hook user);
      mret (if nullish r then user else r)
  | None => mret user
  end.

End Shared.

Module GitHub.
Section Provider.
Variable R : Runtime.

Definition access_token : string := "https://github.com/login/oauth/access_token".
Definition user : string := "https://api.github.com/user".
Definition email : string := "https://api.github.com/user/emails".

Definition getTokens (config : OAuthConfig) (code : string) : W json :=
  let tokenParams :=
    qs R [("client_id", clientId config);
          ("client_secret", clientSecret config);
          ("code", code)] in
  fetch_json_ R (access_token +:+ "?" +:+ tokenParams) "POST"
    [("Accept", "application/json")] None.

Definition getUser (config : OAuthConfig) (access_token : json) : W json :=
  user_ ← fetch_json_ R user "GET"
            [("Authorization", "token " +:+ template R access_token)] None;
  email_ ← pure (jget "email" user_);
  user_ ←
    (if nullish email_ then
       emails ← fetch_json_ R email "GET" [] None;
       chosen ←
         match emails with
         | JArr items props =>
             if existsb (λ p, String.eqb p.1 "find") props
             then fail (TypeError "emails.find is not a function")
             else
               found ← pure (find_primary items);
               mret (if nullish found then default JUndefined (head items) else found)
         | JUndefined | JNull => pure (jget "find" emails)
         | _ => fail (TypeError "emails.find is not a function")
         end;
       address ← pure (jget "email" chosen);
       pure (jset "email" address user_)
     else mret user_);
  login_hook config user_.

Definition authenticateRequest (config : OAuthConfig) (request : Request) : W json :=
  if negb (String.eqb (rq_method request) "GET") then
    fail (Error ("Invalid request method: " +:+ rq_method request))
  else
    match sp_get "code" (searchParams (rq_url request)) with
    | None => fail (Error "No OAuth code found.")
    | Some code =>
        tokens ← getTokens config code;
        token ← pure (jget "access_token" tokens);
        getUser config token
    end.

End Provider.
End GitHub.

Module Google.
Section Provider.
Variable R : Runtime.

Definition access_token : string := "https://oauth2.googleapis.com/token".
Definition user : string := "https://www.googleapis.com/oauth2/v1/userinfo?alt=json".

Definition getTokens (config : GoogleOauthConfig) (code : string) : W json :=
  let tokenParams :=
    qs R [("client_id", clientId (g_config config));
          ("client_secret", clientSecret (g_config config));
          ("code", code);
          ("grant_type", "authorization_code");
          ("redirect_uri", redirect_uri config)] in
  fetch_json_ R (access_token +:+ "?" +:+ tokenParams) "POST"
    [("Accept", "application/json")] None.

Definition getUser (config : GoogleOauthConfig) (access_token : json) : W json :=
  let params := qs R [("access_token", template R access_token)] in
  user_ ← fetch_json_ R (user +:+ "&" +:+ params) "GET" [] None;
  login_hook (g_config config) user_.

Definition callback (config : GoogleOauthConfig) (request : Request) : W json :=
  if negb (String.eqb (rq_method request) "GET") then
    fail (Error ("Invalid request method: " +:+ rq_method request))
  else
    match sp_get "code" (searchParams (rq_url request)) with
    | None => fail (Error "No OAuth code found.")
    | Some code =>
        tokens ← getTokens config code;
        token ← pure (jget "access_token" tokens);
        getUser config token
    end.

End Provider.
End Google.

End Legacy.

(** A runtime for the examples: a GitHub user without a public email
    address, whose second address is the primary one, and a Google user. *)
Definition example_runtime : Legacy.Runtime :=
  {| Legacy.fetch_json := λ url _ _ _,
       if String.eqb url "https://api.github.com/user"
       then Returned (Legacy.JObj [("login", Legacy.JStr "alice"); ("email", Legacy.JNull)])
       else if String.eqb url "https://api.github.com/user/emails"
       then Returned
              (Legacy.JArr
                 [Legacy.JObj [("email", Legacy.JStr "old@example.org");
                               ("primary", Legacy.JBool false)];
                  Legacy.JObj [("email", Legacy.JStr "alice@example.org");
                               ("primary", Legacy.JBool true)]] [])
       else if String.eqb url
                 "https://www.googleapis.com/oauth2/v1/userinfo?alt=json&access_token=at"
       then Returned (Legacy.JObj [("sub", Legacy.JStr "alice")])
       else Returned (Legacy.JObj [("access_token", Legacy.JStr "at")]);
     Legacy.qs := Examples.query;
     Legacy.ToString := λ _, "[object Object]" |}.

Definition example_google : Legacy.GoogleOauthConfig :=
  {| Legacy.g_config :=
       {| Legacy.clientId := "client-1"; Legacy.clientSecret := "shh";
          Legacy.scope := None; Legacy.onLogin := None |};
     Legacy.redirect_uri := "https://app.example/auth/callback/google" |}.

Definition example_get : Legacy.Request :=
  {| Legacy.rq_method := "GET"; Legacy.rq_url := Examples.example_url |}.

(** The address [getUser] of the GitHub provider takes the email from:
    [emails.find((e) => e.primary) ?? emails[0]]. *)
Definition chosen_address (emails : Legacy.json) : outcome Legacy.json :=
  match emails with
  | Legacy.JArr items props =>
      if existsb (λ p, String.eqb p.1 "find") props
      then Thrown (TypeError "emails.find is not a function")
      else
        match Legacy.find_primary items with
        | Returned found =>
            Returned (if Legacy.nullish found then default Legacy.JUndefined (head items)
                      else found)
        | Thrown e => Thrown e
        end
  | Legacy.JUndefined | Legacy.JNull => Legacy.jget "find" emails
  | _ => Thrown (TypeError "emails.find is not a function")
  end.

(** ** Further observations on calls and parameters *)

Definition is_encode (ev : event) : bool :=
  match ev with
  | Call_encode _ => true
  | _ => false
  end.

Definition is_decode (ev : event) : bool :=
  match ev with
  | Call_decode _ => true
  | _ => false
  end.

Definition is_onAuth (ev : event) : bool :=
  match ev with
  | Call_onAuth _ => true
  | _ => false
  end.

(** The value [set_string_params] leaves for the key [k]: that of the last
    entry named [k] whose value is a string, if there is one. *)
Fixpoint last_string (k : string) (params : Obj) : option string :=
  match params with
  | [] => None
  | (k', v) :: params' =>
      match last_string k params' with
      | Some s => Some s
      | None => if String.eqb k' k then match v with VStr s => Some s | _ => None end
                else None
      end
  end.

(** The parameters login may write besides those the endpoint configures. *)
Definition login_params : list string :=
  ["state"; "code_challenge"; "code_challenge_method"; "nonce"; "redirect_uri"].

(** The calls the callback of an initialized OIDC provider [p] may make:
    the three check uses, the validation against the recovered state, the
    token request with the callback page as redirect URI and the recovered
    verifier, [conform], the processing of the OpenID response with the
    recovered nonce, and the profile hook. *)
Definition oidc_callback_call (ck : Checks OIDC.OIDCProvider) (request : InternalRequest)
    (p : OIDC.OIDCProvider) (ev : event) : Prop :=
  match ev with
  | Call_check_use c => c = state ∨ c = pkce ∨ c = nonce
  | Call_validateAuthResponse st => ∃ c, use ck state request p = Returned (st, c)
  | Call_authorizationCodeGrantRequest uri v =>
      uri = origin (req_url request) +:+
            default "undefined" (OIDC.pg_callback (OIDC.pages p)) ∧
      ∃ c, use ck pkce request p = Returned (v, c)
  | Call_processAuthorizationCodeOpenIDResponse n =>
      ∃ c, use ck nonce request p = Returned (n, c)
  | Call_conform | Call_profile => True
  | _ => False
  end.

(** An OIDC provider configured with an id only: no issuer, no client and
    no endpoints. *)
Definition bare_provider : OIDC.OIDCProvider :=
  OIDC.constructor Examples.merge Examples.defaultProfile Examples.createCookiesOptions
    {| OIDC.defaults :=
         {| OIDC.f_id := "bare"; OIDC.f_issuer := None; OIDC.f_clientId := None;
            OIDC.f_clientSecret := None; OIDC.f_client := None; OIDC.f_checks := None;
            OIDC.f_authorization := OIDC.EcUndefined; OIDC.f_token := OIDC.EcUndefined;
            OIDC.f_profile := None |};
       OIDC.options_ := None |}
    {| OIDC.o_useSecureCookies := None; OIDC.o_onAuth := None; OIDC.o_jwt := None;
       OIDC.o_pages := None |}.

(** An OIDC provider without an issuer whose endpoints are configured. *)
Definition static_provider : OIDC.OIDCProvider :=
  OIDC.constructor Examples.merge Examples.defaultProfile Examples.createCookiesOptions
    {| OIDC.defaults :=
         {| OIDC.f_id := "static"; OIDC.f_issuer := None;
            OIDC.f_clientId := Some "client-1"; OIDC.f_clientSecret := Some "shh";
            OIDC.f_client := None; OIDC.f_checks := None;
            OIDC.f_authorization := OIDC.EcString "https://accounts.example/authorize";
            OIDC.f_token := OIDC.EcString "https://accounts.example/token";
            OIDC.f_profile := None |};
       OIDC.options_ := None |}
    {| OIDC.o_useSecureCookies := None; OIDC.o_onAuth := None; OIDC.o_jwt := None;
       OIDC.o_pages := None |}.

(** What a run that throws leaves related by [R]. *)
Definition keeps_on_throw {S A} (R : relation S) (m : M S A) : Prop :=
  ∀ s, match result (m s) with
       | Thrown _ => R s (final (m s))
       | Returned _ => True
       end.

(** The initialization flag and the flow of a provider are the same. *)
Definition flow_kept (p p' : OIDC.OIDCProvider) : Prop :=
  OIDC.initialized p' = OIDC.initialized p ∧ OIDC.oauthFlow p' = OIDC.oauthFlow p.

(** The issuer and the challenge methods of the server are the same. *)
Definition server_kept (p p' : OIDC.OIDCProvider) : Prop :=
  issuer (OIDC.authorizationServer p') = issuer (OIDC.authorizationServer p) ∧
  code_challenge_methods_supported (OIDC.authorizationServer p') =
  code_challenge_methods_supported (OIDC.authorizationServer p).


(** A stand-in for [jose] that seals under the key: tokens are issued
    under the key derived from ["s3cret"] only, decrypt under that key
    only, and decrypt to the payload followed by the registered claims
    [iat], [exp] and [jti] that [EncryptJWT] adds. *)
Definition sealed : list (string * value) :=
  [("hdr..iv.alice.tag",
    VObj [("id", VStr "alice"); ("iat", VNum 1700000000); ("exp", VNum 1700003600);
          ("jti", VStr "00000000-0000-4000-8000-000000000000")]);
   ("hdr..iv.refresh.tag",
    VObj [("rid", VStr "r1"); ("iat", VNum 1700000000); ("exp", VNum 1700604800);
          ("jti", VStr "00000000-0000-4000-8000-000000000000")])].

Definition sealing_externals : Jwt.Externals :=
  {| Jwt.hkdf := λ _ ikm _ _ _, Returned ("key:" +:+ ikm);
     Jwt.jwtDecrypt := λ token key _,
       if negb (Examples.count_dots token =? 4)%nat then Thrown (External "JWEInvalid")
       else if negb (String.eqb key "key:s3cret")
       then Thrown (External "JWEDecryptionFailed")
       else match Examples.lookup_entry token sealed with
            | Some p => Returned {| payload := p; protectedHeader := VObj [] |}
            | None => Thrown (External "JWEDecryptionFailed")
            end;
     Jwt.encryptJWT := λ token exp _ key,
       if negb (String.eqb key "key:s3cret") then Returned "hdr..iv.foreign.tag"
       else match prop "id" token, prop "rid" token, exp with
            | VStr "alice", _, 1700003600%Z => Returned "hdr..iv.alice.tag"
            | _, VStr "r1", 1700604800%Z => Returned "hdr..iv.refresh.tag"
            | _, _, _ => Returned "hdr..iv.other.tag"
            end;
     Jwt.Date_now := 1700000000000;
     Jwt.randomUUID := "00000000-0000-4000-8000-000000000000" |}.

(** The manager of the examples over that codec. *)
Definition sealing_manager : TokenSession.TokenSessionManager :=
  TokenSession.constructor sealing_externals Examples.createCookiesOptions Examples.config.


(** * Properties *)

(** ** The method monad *)

Lemma bind_run {S A B} (m : M S A) (f : A → M S B) (s : S) :
  (m ≫= f) s =
  match m s with
  | (Returned a, s1, l1) => match f a s1 with (r, s2, l2) => (r, s2, l1 ++ l2) end
  | (Thrown e, s1, l1) => (Thrown e, s1, l1)
  end.
Proof. reflexivity. Qed.

Lemma call_run {S A} (ev : event) (r : outcome A) (s : S) :
  call ev r s = (r, s, [ev]).
Proof. reflexivity. Qed.

Lemma existsb_app_false {A} (f : A → bool) (l1 l2 : list A) :
  existsb f l1 = false → existsb f l2 = false → existsb f (l1 ++ l2) = false.
Proof. intros H1 H2. rewrite existsb_app, H1, H2. reflexivity. Qed.

(** Splits a conjunction of implications and closes each by congruence. *)
Ltac finish :=
  repeat match goal with
         | |- _ ∧ _ => split
         | |- _ → _ => intro
         | |- ∀ _, _ => intro
         end;
  repeat match goal with
         | H : _ ∨ _ |- _ => destruct H
         end;
  congruence.

(** ** The token codec *)

(** C3, amended.  [decode] returns [null] for a [null]/[undefined] token.
    For any other token it returns the payload [jwtDecrypt] yields and
    throws whatever key derivation or [jwtDecrypt] throws: it catches
    nothing, so a malformed, tampered or expired token makes it throw. *)
Theorem decode_null_or_jwtDecrypt (E : Jwt.Externals) (params : JWTDecodeParams) :
  (dec_token params = None → Jwt.decode E params = Returned VNull) ∧
  (∀ token, dec_token params = Some token →
     (∀ e, Jwt.getDerivedEncryptionKey E (dec_secret params) = Thrown e →
        Jwt.decode E params = Thrown e) ∧
     (∀ key, Jwt.getDerivedEncryptionKey E (dec_secret params) = Returned key →
        (∀ r, Jwt.jwtDecrypt E token key 15 = Returned r →
           Jwt.decode E params = Returned (payload r)) ∧
        (∀ e, Jwt.jwtDecrypt E token key 15 = Thrown e →
           Jwt.decode E params = Thrown e))).
Proof.
  unfold Jwt.decode. split.
  - intros ->. reflexivity.
  - intros token ->. split.
    + intros e ->. reflexivity.
    + intros key ->. cbn. split; intros ? ->; reflexivity.
Qed.

(** C3 as stated fails: an issued token decodes to its payload, the same
    token with one byte changed makes [decode] throw (it does not return
    [null]), and so does a token that is not a compact JWE. *)
Lemma decode_throws_on_mutated_token :
  Jwt.decode Examples.externals
    {| dec_token := Some "hdr..iv.alice.tag"; dec_secret := "s3cret" |}
  = Returned Examples.alice ∧
  Jwt.decode Examples.externals
    {| dec_token := Some "hdr..iv.alicf.tag"; dec_secret := "s3cret" |}
  = Thrown (External "JWEDecryptionFailed") ∧
  Jwt.decode Examples.externals
    {| dec_token := Some "garbage"; dec_secret := "s3cret" |}
  = Thrown (External "JWEInvalid").
Proof. repeat split; vm_compute; reflexivity. Qed.

(** ** The session and token lifecycle manager *)

Section ManagerProperties.
Import TokenSession.
Variable this : TokenSessionManager.

Lemma createCookies_run (newSession : NewSession) :
  createCookies this newSession tt =
  match truthy (opt_accessToken newSession), truthy (opt_refreshToken newSession) with
  | false, false => (Returned [], tt, [])
  | true, false =>
      match encode this (access_params this (opt_accessToken newSession)) with
      | Returned v =>
          (Returned [access_cookie this v], tt,
           [Call_encode (access_params this (opt_accessToken newSession))])
      | Thrown e =>
          (Thrown e, tt, [Call_encode (access_params this (opt_accessToken newSession))])
      end
  | false, true =>
      match encode this (refresh_params this (opt_refreshToken newSession)) with
      | Returned v =>
          (Returned [refresh_cookie this v], tt,
           [Call_encode (refresh_params this (opt_refreshToken newSession))])
      | Thrown e =>
          (Thrown e, tt, [Call_encode (refresh_params this (opt_refreshToken newSession))])
      end
  | true, true =>
      match encode this (access_params this (opt_accessToken newSession)) with
      | Returned v =>
          match encode this (refresh_params this (opt_refreshToken newSession)) with
          | Returned w =>
              (Returned [access_cookie this v; refresh_cookie this w], tt,
               [Call_encode (access_params this (opt_accessToken newSession));
                Call_encode (refresh_params this (opt_refreshToken newSession))])
          | Thrown e =>
              (Thrown e, tt,
               [Call_encode (access_params this (opt_accessToken newSession));
                Call_encode (refresh_params this (opt_refreshToken newSession))])
          end
      | Thrown e =>
          (Thrown e, tt, [Call_encode (access_params this (opt_accessToken newSession))])
      end
  end.
Proof.
  unfold createCookies. rewrite !bind_run.
  destruct (truthy (opt_accessToken newSession)), (truthy (opt_refreshToken newSession));
    rewrite ?bind_run, ?call_run; cbn;
    repeat (match goal with |- context [encode this ?p] => destruct (encode this p) end; cbn);
    reflexivity.
Qed.

(** [createCookies] calls nothing but the encoder. *)
Lemma createCookies_calls (newSession : NewSession) (f : event → bool) :
  (∀ p, f (Call_encode p) = false) →
  existsb f (calls (createCookies this newSession tt)) = false.
Proof.
  intros Hf. rewrite createCookies_run.
  destruct (truthy _), (truthy _);
    repeat (match goal with |- context [encode this ?p] => destruct (encode this p) end);
    cbn; rewrite ?Hf; reflexivity.
Qed.

(** C4, amended.  [createCookies] emits nothing for a [null]/[undefined]
    session.  Otherwise the cookies are the access cookie, present exactly
    when [accessToken] is truthy, followed by the refresh cookie, present
    exactly when [refreshToken] is truthy, each carrying the encoder's
    output for its token; [createCookies] returns whenever the encoder
    returns. *)
Theorem createCookies_truthy_tokens (newSession : NewSession) :
  let x := createCookies this newSession tt in
  (newSession = None → x = (Returned [], tt, [])) ∧
  (∀ cs, result x = Returned cs →
     ∃ a r, cs = a ++ r ∧
       (if truthy (opt_accessToken newSession)
        then ∃ v, encode this (access_params this (opt_accessToken newSession)) = Returned v ∧
                  a = [access_cookie this v]
        else a = []) ∧
       (if truthy (opt_refreshToken newSession)
        then ∃ v, encode this (refresh_params this (opt_refreshToken newSession)) = Returned v ∧
                  r = [refresh_cookie this v]
        else r = [])) ∧
  ((∀ p, returns (encode this p) = true) → returns (result x) = true).
Proof.
  cbv zeta. rewrite createCookies_run. split; [|split].
  - intros ->. reflexivity.
  - intros cs.
    destruct (truthy (opt_accessToken newSession)), (truthy (opt_refreshToken newSession));
      repeat (match goal with |- context [encode this ?p] =>
                destruct (encode this p) eqn:? end);
      cbn; intros [= <-].
    + exists [access_cookie this a], [refresh_cookie this a0]. repeat eexists.
    + exists [access_cookie this a], []. repeat eexists.
    + exists [], [refresh_cookie this a]. repeat eexists.
    + exists [], []. repeat eexists.
  - intros Henc.
    destruct (truthy (opt_accessToken newSession)), (truthy (opt_refreshToken newSession));
      repeat (match goal with |- context [encode this ?p] =>
                let H := fresh in
                pose proof (Henc p) as H; destruct (encode this p); [|discriminate H] end);
      reflexivity.
Qed.

Section Request.
Variable request : InternalRequest.

Let a : option string := req_cookies request !! co_name (ck_accessToken (cookies_ this)).
Let r : option string := req_cookies request !! co_name (ck_refreshToken (cookies_ this)).
Let d : outcome value := decode this (decode_params this r).

Lemma handleRequest_run :
  handleRequest this request tt =
  match d with
  | Thrown e => (Thrown e, tt, [Call_decode (decode_params this r)])
  | Returned refresh =>
      if negb (truthy_str a) && truthy_str r && truthy refresh then
        match refreshSession this refresh with
        | Thrown e =>
            (Thrown e, tt, [Call_decode (decode_params this r); Call_refreshSession refresh])
        | Returned newSession =>
            (cs ← result (createCookies this newSession tt); Returned (cookies_response cs),
             tt,
             Call_decode (decode_params this r) :: Call_refreshSession refresh ::
               calls (createCookies this newSession tt))
        end
      else (Returned empty_response, tt, [Call_decode (decode_params this r)])
  end.
Proof.
  unfold handleRequest. fold a r. rewrite bind_run, call_run. fold d.
  destruct d as [refresh|e]; [|reflexivity].
  destruct (negb (truthy_str a) && truthy_str r && truthy refresh); [|reflexivity].
  rewrite bind_run, call_run.
  destruct (refreshSession this refresh) as [newSession|e]; [|reflexivity].
  rewrite bind_run.
  destruct (createCookies this newSession tt) as [[[cs|e] []] l];
    cbn; rewrite ?app_nil_r; reflexivity.
Qed.

(** C5, amended.  [handleRequest] decodes the refresh cookie first, whatever
    the access cookie.  It never calls the session-creation callback.  It
    calls the refresh callback exactly when the decoder returns a truthy
    payload, the access cookie is absent or empty and the refresh cookie
    is present and not empty, and then answers with the cookies
    [createCookies] issues for the new session.  When the decoder returns
    and one of these conditions fails the answer is the empty response.
    When the decoder throws, [handleRequest] throws. *)
Theorem handleRequest_refresh :
  let x := handleRequest this request tt in
  existsb is_createSession (calls x) = false ∧
  (existsb is_refreshSession (calls x) = true ↔
     ∃ refresh, d = Returned refresh ∧
       truthy_str a = false ∧ truthy_str r = true ∧ truthy refresh = true) ∧
  (∀ refresh newSession,
     d = Returned refresh →
     truthy_str a = false ∧ truthy_str r = true ∧ truthy refresh = true →
     refreshSession this refresh = Returned newSession →
     result x = (cs ← result (createCookies this newSession tt);
                 Returned (cookies_response cs)) ∧
     calls x = Call_decode (decode_params this r) :: Call_refreshSession refresh ::
                 calls (createCookies this newSession tt)) ∧
  (∀ refresh,
     d = Returned refresh →
     truthy_str a = true ∨ truthy_str r = false ∨ truthy refresh = false →
     x = (Returned empty_response, tt, [Call_decode (decode_params this r)])) ∧
  (∀ e, d = Thrown e → x = (Thrown e, tt, [Call_decode (decode_params this r)])).
Proof.
  cbv zeta. rewrite handleRequest_run. subst d.
  destruct (decode this (decode_params this r)) as [refresh|e].
  2:{ split; [reflexivity|].
      split; [split; [discriminate|intros (? & [=] & _)]|].
      split; [intros ? ? [=]|]. split; [intros ? [=]|].
      intros ? [= <-]. reflexivity. }
  destruct (truthy_str a) eqn:Ha, (truthy_str r) eqn:Hr, (truthy refresh) eqn:Ht;
    cbn [negb andb];
    try (split; [reflexivity|];
         split; [split; [discriminate|intros (? & [= <-] & ? & ? & ?); congruence]|];
         split; [intros ? ? [= <-] (? & ? & ?); congruence|];
         split; [intros ? [= <-] _; reflexivity|intros ? [=]]).
  destruct (refreshSession this refresh) as [newSession|e] eqn:Hrs.
  - split; [cbn; apply createCookies_calls; reflexivity|].
    split; [split; [intros _; exists refresh; auto|reflexivity]|].
    split; [intros ? ? [= <-] _ Hn; rewrite Hrs in Hn; injection Hn as <-;
            split; reflexivity|].
    split; [intros ? [= <-] [?|[?|?]]; congruence|intros ? [=]].
  - split; [reflexivity|].
    split; [split; [intros _; exists refresh; auto|reflexivity]|].
    split; [intros ? ? [= <-] _ Hn; rewrite Hrs in Hn; discriminate Hn|].
    split; [intros ? [= <-] [?|[?|?]]; congruence|intros ? [=]].
Qed.

End Request.

(** C9.  [handleResponse] returns the response as it is, calling nothing,
    when its [user] is falsy.  Otherwise it calls the session-creation
    callback with that user first; and when it returns, the answer is the
    response with the cookies [createCookies] issued for the new session
    appended to the cookies it already had, every other field unchanged. *)
Theorem handleResponse_appends_cookies (response : InternalResponse) :
  let x := handleResponse this response tt in
  (truthy (user response) = false → x = (Returned response, tt, [])) ∧
  (truthy (user response) = true →
     head (calls x) = Some (Call_createSession (user response)) ∧
     (∀ newSession cs,
        createSession this (user response) = Returned newSession →
        result (createCookies this newSession tt) = Returned cs →
        result x = Returned (push_cookies response cs)) ∧
     (∀ response', result x = Returned response' →
        ∃ newSession cs,
          createSession this (user response) = Returned newSession ∧
          result (createCookies this newSession tt) = Returned cs ∧
          cookies response' = Some (default [] (cookies response) ++ cs) ∧
          status response' = status response ∧
          redirect response' = redirect response ∧
          body response' = body response ∧
          headers response' = headers response ∧
          user response' = user response ∧
          session response' = session response)).
Proof.
  cbv zeta. unfold handleResponse. split.
  - intros ->. reflexivity.
  - intros ->. cbn [negb]. rewrite bind_run, call_run.
    destruct (createSession this (user response)) as [newSession|e].
    + rewrite bind_run.
      destruct (createCookies this newSession tt) as [[[cs|e] []] l] eqn:Hcs;
        (split; [reflexivity|split]).
      * intros ? ? [= <-]. rewrite Hcs. intros [= <-]. reflexivity.
      * intros response' [= <-]. exists newSession, cs. rewrite Hcs. repeat split.
      * intros ? ? [= <-]. rewrite Hcs. discriminate.
      * discriminate.
    + split; [reflexivity|split]; discriminate.
Qed.

Section Logout.
Variable parse : string → gmap string string.
Variable request : Request.

Let jar := parse (default "" (cookie_header request)).
Let a : option string := jar !! co_name (ck_accessToken (cookies_ this)).
Let r : option string := jar !! co_name (ck_refreshToken (cookies_ this)).
Let clear : list Cookie :=
  [clearing (ck_accessToken (cookies_ this)); clearing (ck_refreshToken (cookies_ this))].

(** C2, amended.  Whenever [logout] returns, the cookie list of its response
    ends with the clearing cookies of the access and the refresh token.
    It returns when both decoder calls return and the invalidation hook,
    if it is called, returns: the response is then the hook's response, or
    the empty one when no session was decoded, no hook is configured or
    the hook returned nothing, with the two clearing cookies appended.
    When a decoder call or the hook throws, [logout] throws the same
    error and there is no response. *)
Theorem logout_clears_when_it_returns :
  let x := logout parse this request tt in
  (∀ response, result x = Returned response →
     ∃ prior, cookies response = Some (prior ++ clear)) ∧
  (∀ session refresh,
     decode this (decode_params this a) = Returned session →
     decode this (decode_params this r) = Returned refresh →
     (truthy session = false ∨ onInvalidateSession this = None →
        result x = Returned (push_cookies empty_response clear)) ∧
     (∀ hook, truthy session = true → onInvalidateSession this = Some hook →
        (∀ base, hook session refresh = Returned base →
           result x = Returned (push_cookies (default empty_response base) clear)) ∧
        (∀ e, hook session refresh = Thrown e → result x = Thrown e))) ∧
  (∀ e, decode this (decode_params this a) = Thrown e → result x = Thrown e) ∧
  (∀ session e,
     decode this (decode_params this a) = Returned session →
     decode this (decode_params this r) = Thrown e → result x = Thrown e).
Proof.
  cbv zeta. unfold logout. fold jar. fold a r. fold clear.
  rewrite bind_run, call_run.
  destruct (decode this (decode_params this a)) as [session|e1]; [|cbn; finish].
  rewrite bind_run, call_run.
  destruct (decode this (decode_params this r)) as [refresh|e2]; [|cbn; finish].
  rewrite bind_run.
  destruct (truthy session) eqn:Hs.
  - destruct (onInvalidateSession this) as [hook|] eqn:Hh.
    + rewrite bind_run, call_run.
      destruct (hook session refresh) as [base|e3] eqn:Hk; cbn.
      * split; [intros ? [= <-]; eexists; reflexivity|]. finish.
      * finish.
    + cbn. split; [intros ? [= <-]; eexists; reflexivity|]. finish.
  - cbn. split; [intros ? [= <-]; eexists; reflexivity|]. finish.
Qed.

End Logout.
End ManagerProperties.

(** A response that carries a user and a cookie gets the session cookies
    after the cookie it had. *)
Example handleResponse_keeps_cookies :
  let kept := {| name := "theme"; value_ := "dark";
                 options := Examples.base_options None |} in
  result (TokenSession.handleResponse Examples.manager
            {| status := Some 302%Z; headers := None; body := None;
               redirect := Some "/"; cookies := Some [kept];
               user := Examples.alice; session := VUndefined |} tt)
  = Returned {| status := Some 302%Z; headers := None; body := None;
                redirect := Some "/";
                cookies := Some [kept;
                                 TokenSession.access_cookie Examples.manager
                                   "hdr..iv.alice.tag";
                                 TokenSession.refresh_cookie Examples.manager
                                   "hdr..iv.refresh.tag"];
                user := Examples.alice; session := VUndefined |}.
Proof. vm_compute. reflexivity. Qed.

(** C2 as stated fails: with the default codec a malformed access cookie
    makes [logout] throw, and so does an invalidation hook that throws on
    a valid session; in both cases no response, hence no clearing cookie,
    is returned. *)
Lemma logout_throws_when_decode_or_hook_throws :
  result (TokenSession.logout Examples.parse Examples.manager
            {| TokenSession.cookie_header := Some "access-token=garbage" |} tt)
  = Thrown (External "JWEInvalid") ∧
  result (TokenSession.logout Examples.parse Examples.manager_failing_hook
            {| TokenSession.cookie_header := Some "access-token=hdr..iv.alice.tag" |} tt)
  = Thrown (Error "session store unreachable").
Proof. split; vm_compute; reflexivity. Qed.

(** With no cookie at all the default codec decodes [undefined] to [null]
    and [logout] answers with exactly the two clearing cookies. *)
Example logout_without_cookies :
  result (TokenSession.logout Examples.parse Examples.manager
            {| TokenSession.cookie_header := None |} tt)
  = Returned (cookies_response
                [clearing (ck_accessToken (Examples.createCookiesOptions (Some true)));
                 clearing (ck_refreshToken (Examples.createCookiesOptions (Some true)))]).
Proof. vm_compute. reflexivity. Qed.

(** C4 as stated fails: a session whose tokens are defined but falsy (the
    empty string, zero) gets no cookie. *)
Lemma createCookies_skips_falsy_tokens :
  defined (VStr "") = true ∧ defined (VNum 0) = true ∧
  TokenSession.createCookies Examples.manager
    (Some {| accessToken := VStr ""; refreshToken := VNum 0 |}) tt
  = (Returned [], tt, []).
Proof. repeat split. Qed.

Example createCookies_both_tokens :
  name <$> default [] (match result (TokenSession.createCookies Examples.manager
                                       Examples.new_session tt) with
                       | Returned cs => Some cs
                       | Thrown _ => None
                       end)
  = ["access-token"; "refresh-token"].
Proof. vm_compute. reflexivity. Qed.

(** C5 as stated fails: a request that carries a valid access cookie and a
    malformed refresh cookie does not pass through; with the default codec
    [handleRequest] throws. *)
Lemma handleRequest_throws_on_malformed_refresh :
  TokenSession.handleRequest Examples.manager
    {| req_url := Examples.example_url;
       req_cookies := {[ "access-token" := "hdr..iv.alice.tag";
                         "refresh-token" := "garbage" ]} |} tt
  = (Thrown (External "JWEInvalid"), tt,
     [Call_decode {| dec_token := Some "garbage"; dec_secret := "s3cret" |}]).
Proof. vm_compute. reflexivity. Qed.

(** A request with only a valid refresh cookie is refreshed: the refresh
    callback is called and both cookies are issued. *)
Example handleRequest_refreshes :
  calls (TokenSession.handleRequest Examples.manager
           {| req_url := Examples.example_url;
              req_cookies := {[ "refresh-token" := "hdr..iv.refresh.tag" ]} |} tt)
  = [Call_decode {| dec_token := Some "hdr..iv.refresh.tag"; dec_secret := "s3cret" |};
     Call_refreshSession Examples.alice_refresh;
     Call_encode {| enc_token := Some Examples.alice; enc_secret := "s3cret";
                    enc_maxAge := Some 3600%Z |};
     Call_encode {| enc_token := Some Examples.alice_refresh; enc_secret := "s3cret";
                    enc_maxAge := Some 604800%Z |}].
Proof. vm_compute. reflexivity. Qed.

(** ** URL parameters *)

Lemma sp_get_filter_ne (k k' : string) (l : list (string * string)) :
  k ≠ k' → sp_get k (filter (λ p, negb (String.eqb p.1 k')) l) = sp_get k l.
Proof.
  intros Hne. induction l as [|[k0 v0] l IH]; [reflexivity|].
  rewrite filter_cons. cbn.
  destruct (String.eqb_spec k0 k') as [->|Hk0]; cbn.
  - destruct (String.eqb_spec k' k) as [->|_]; [contradiction|]. rewrite decide_False by auto. exact IH.
  - rewrite decide_True by auto. cbn. rewrite IH. reflexivity.
Qed.

Lemma sp_get_set_eq (k v : string) (l : list (string * string)) :
  sp_get k (sp_set k v l) = Some v.
Proof.
  unfold sp_set. induction l as [|[k0 v0] l IH]; cbn.
  - rewrite String.eqb_refl. reflexivity.
  - destruct (String.eqb_spec k0 k) as [->|Hne]; cbn.
    + rewrite String.eqb_refl. reflexivity.
    + destruct (String.eqb_spec k0 k); [contradiction|]. exact IH.
Qed.

Lemma sp_get_set_ne (k k' v : string) (l : list (string * string)) :
  k ≠ k' → sp_get k (sp_set k' v l) = sp_get k l.
Proof.
  intros Hne. unfold sp_set. induction l as [|[k0 v0] l IH]; cbn.
  - destruct (String.eqb_spec k' k); [congruence|reflexivity].
  - destruct (String.eqb_spec k0 k') as [->|Hk0]; cbn.
    + destruct (String.eqb_spec k' k); [congruence|]. apply sp_get_filter_ne, Hne.
    + destruct (String.eqb_spec k0 k); [reflexivity|exact IH].
Qed.

Lemma sp_has_get (k : string) (l : list (string * string)) :
  sp_has k l = bool_decide (is_Some (sp_get k l)).
Proof.
  unfold sp_has. induction l as [|[k0 v0] l IH]; [reflexivity|].
  cbn [existsb sp_get fst]. destruct (String.eqb_spec k0 k); [reflexivity|exact IH].
Qed.

Lemma sp_has_set_ne (k k' v : string) (l : list (string * string)) :
  k ≠ k' → sp_has k (sp_set k' v l) = sp_has k l.
Proof. intros Hne. rewrite !sp_has_get, sp_get_set_ne by exact Hne. reflexivity. Qed.

(** ** Frame and call-log reasoning *)

(** Every run of [m] leaves the state related by [R] to the state before,
    whether it returns or throws. *)
Definition preserves {S A} (R : relation S) (m : M S A) : Prop :=
  ∀ s, R s (final (m s)).

(** Every call [m] makes satisfies [P]. *)
Definition only_calls {S A} (P : event → Prop) (m : M S A) : Prop :=
  ∀ s, Forall P (calls (m s)).

Section Frame.
Context {S : Type} (R : relation S) `{!PreOrder R}.

Lemma get_bind_run {A} (f : S → M S A) (s : S) : (get ≫= f) s = f s s.
Proof. rewrite bind_run. cbn. destruct (f s s) as [[? ?] ?]. reflexivity. Qed.

Lemma preserves_bind {A B} (m : M S A) (f : A → M S B) :
  preserves R m → (∀ a, preserves R (f a)) → preserves R (m ≫= f).
Proof.
  intros Hm Hf s. rewrite bind_run. specialize (Hm s).
  destruct (m s) as [[[a|e] s1] l1]; cbn in *; [|exact Hm].
  specialize (Hf a s1). destruct (f a s1) as [[r s2] l2]. cbn in *.
  etrans; eassumption.
Qed.

Lemma preserves_ret {A} (a : A) : preserves R (mret a : M S A).
Proof. intros s. reflexivity. Qed.

Lemma preserves_throw {A} (e : exn) : preserves R (throw e : M S A).
Proof. intros s. reflexivity. Qed.

Lemma preserves_call {A} (ev : event) (r : outcome A) : preserves R (call ev r : M S A).
Proof. intros s. reflexivity. Qed.

Lemma preserves_lift {A} (r : outcome A) : preserves R (lift r : M S A).
Proof. intros s. reflexivity. Qed.

Lemma preserves_get : preserves R (get : M S S).
Proof. intros s. reflexivity. Qed.

Lemma preserves_modify (f : S → S) : (∀ s, R s (f s)) → preserves R (modify f).
Proof. intros Hf s. apply Hf. Qed.

End Frame.

Section Calls.
Context {S : Type} (P : event → Prop).

Lemma only_calls_bind {A B} (m : M S A) (f : A → M S B) :
  only_calls P m → (∀ a, only_calls P (f a)) → only_calls P (m ≫= f).
Proof.
  intros Hm Hf s. rewrite bind_run. specialize (Hm s).
  destruct (m s) as [[[a|e] s1] l1]; cbn in *; [|exact Hm].
  specialize (Hf a s1). destruct (f a s1) as [[r s2] l2]. cbn in *.
  apply Forall_app. split; assumption.
Qed.

Lemma only_calls_ret {A} (a : A) : only_calls P (mret a : M S A).
Proof. intros s. constructor. Qed.

Lemma only_calls_throw {A} (e : exn) : only_calls P (throw e : M S A).
Proof. intros s. constructor. Qed.

Lemma only_calls_call {A} (ev : event) (r : outcome A) :
  P ev → only_calls P (call ev r : M S A).
Proof. intros Hev s. repeat constructor. exact Hev. Qed.

Lemma only_calls_lift {A} (r : outcome A) : only_calls P (lift r : M S A).
Proof. intros s. constructor. Qed.

Lemma only_calls_get : only_calls P (get : M S S).
Proof. intros s. constructor. Qed.

Lemma only_calls_modify (f : S → S) : only_calls P (modify f).
Proof. intros s. constructor. Qed.

End Calls.

(** Decomposes a method into its statements. *)
Ltac frame_step :=
  match goal with
  | |- preserves _ (_ ≫= _) => apply preserves_bind; [try exact _| |intros]
  | |- preserves _ (mret _) => apply preserves_ret; exact _
  | |- preserves _ (throw _) => apply preserves_throw; exact _
  | |- preserves _ (call _ _) => apply preserves_call; exact _
  | |- preserves _ (lift _) => apply preserves_lift; exact _
  | |- preserves _ get => apply preserves_get; exact _
  | |- only_calls _ (_ ≫= _) => apply only_calls_bind; [|intros]
  | |- only_calls _ (mret _) => apply only_calls_ret
  | |- only_calls _ (throw _) => apply only_calls_throw
  | |- only_calls _ (lift _) => apply only_calls_lift
  | |- only_calls _ get => apply only_calls_get
  | |- only_calls _ (modify _) => apply only_calls_modify
  | |- only_calls _ (call _ _) => apply only_calls_call
  | |- preserves _ (match ?x with _ => _ end) => destruct x
  | |- only_calls _ (match ?x with _ => _ end) => destruct x
  end.



Lemma bind_returned_full {S A B} (m : M S A) (f : A → M S B) (s s' : S) (b : B) l :
  (m ≫= f) s = (Returned b, s', l) →
  ∃ a s1 l1 l2, m s = (Returned a, s1, l1) ∧ f a s1 = (Returned b, s', l2) ∧ l = l1 ++ l2.
Proof.
  rewrite bind_run. destruct (m s) as [[[a|e] s1] l1]; [|discriminate].
  destruct (f a s1) as [[r s2] l2] eqn:Hf. intros [= -> -> <-].
  exists a, s1, l1, l2. repeat split. exact Hf.
Qed.

(** The same, keeping the final state and the calls. *)
Ltac invert_full H :=
  repeat (cbn beta iota zeta in H;
          lazymatch type of H with
          | (_ ≫= _) _ = (Returned _, _, _) =>
              let E := fresh "E" in
              apply bind_returned_full in H as (? & ? & ? & ? & E & H & ?);
              first [ unfold call in E; injection E as E ? ?
                    | unfold lift in E; injection E as E ? ?
                    | unfold get in E; injection E as E ? ?
                    | unfold modify in E; injection E as E ? ?
                    | idtac ];
              subst
          | throw _ _ = (Returned _, _, _) => discriminate H
          | mret _ _ = (Returned _, _, _) =>
              unfold mret, M_ret in H; injection H; intros; subst; clear H
          | modify _ _ = (Returned _, _, _) =>
              unfold modify in H; injection H; intros; subst; clear H
          | call _ _ _ = (Returned _, _, _) =>
              unfold call in H; injection H as H ? ?; subst
          | (match ?t with _ => _ end) _ = (Returned _, _, _) => destruct t eqn:?
          end).

Lemma Forall_existsb_false {A} (f : A → bool) (l : list A) :
  Forall (λ x, f x = false) l → existsb f l = false.
Proof. induction 1 as [|x l Hx _ IH]; cbn; [reflexivity|]. rewrite Hx, IH. reflexivity. Qed.

(** ** The OAuth 2.0 provider *)

Section OAuthProperties.
Import OAuth.
Variable L : Lib.
Variable ck : Checks OAuthProvider.

Lemma login_check_pure c this set acc :
  preserves eq (login_check ck c this set acc).
Proof. unfold login_check. repeat frame_step. Qed.

Lemma login_pure request : preserves eq (login L ck request).
Proof.
  unfold login. repeat first [apply login_check_pure | frame_step].
Qed.

Lemma callback_pure request : preserves eq (callback L ck request).
Proof. unfold callback. repeat frame_step. Qed.



Lemma callback_validate_error request this st c err :
  use ck state request this = Returned (st, c) →
  validateAuthResponse L (authorizationServer this) (client this)
    (searchParams (req_url request)) st = Returned (inl err) →
  callback L ck request this =
  (Thrown (Error (default "" (error_description err))), this,
   [Call_check_use state; Call_validateAuthResponse st]).
Proof.
  intros Hu Hv. unfold callback.
  rewrite get_bind_run, bind_run, call_run, Hu. cbn beta iota.
  rewrite bind_run, call_run, Hv. reflexivity.
Qed.



End OAuthProperties.

(** ** Reading URL parameters after writes *)

Lemma searchParams_url_set k v u : searchParams (url_set k v u) = sp_set k v (searchParams u).
Proof. reflexivity. Qed.

Lemma base_url_set k v u : base (url_set k v u) = base u.
Proof. reflexivity. Qed.

Lemma origin_url_set k v u : origin (url_set k v u) = origin u.
Proof. reflexivity. Qed.

Lemma set_string_params_base params u :
  base (set_string_params params u) = base u ∧
  origin (set_string_params params u) = origin u.
Proof.
  unfold set_string_params. revert u.
  induction params as [|[k v] params IH]; intros u; [auto|].
  cbn [foldl fst snd]. destruct v; try apply IH.
  destruct (IH (url_set k s u)) as [-> ->]. auto.
Qed.

(** Normalizes reads of URL parameters after writes to other keys. *)
Ltac sp_simpl :=
  repeat first
    [ rewrite searchParams_url_set
    | rewrite base_url_set
    | rewrite origin_url_set
    | rewrite sp_get_set_eq
    | rewrite sp_get_set_ne by congruence
    | rewrite sp_has_set_ne by congruence ].

(** ** The OpenID Connect provider *)

Section OIDCProperties.
Import OIDC OIDCFrame.
Variable L : Lib.
Variable ck : Checks OIDCProvider.

#[local] Instance init_frame_preorder : PreOrder init_frame.
Proof.
  split.
  - intros p. repeat split.
  - intros p q r Hpq Hqr. unfold init_frame in *.
    destruct_and!. repeat split; congruence.
Qed.

#[local] Instance login_frame_preorder : PreOrder login_frame.
Proof.
  split.
  - intros p. repeat split.
  - intros p q r Hpq Hqr. unfold login_frame in *.
    destruct_and!. repeat split; congruence.
Qed.

(** *** Initialization *)

Lemma initialize_frame : preserves init_frame (initialize L).
Proof.
  unfold initialize, initializeAuthorizationServer, url_or.
  repeat first [ frame_step | apply preserves_modify; intros ?; repeat split ].
Qed.

Lemma ensure_initialized_frame : preserves init_frame (ensure_initialized L).
Proof.
  unfold ensure_initialized. repeat first [apply initialize_frame | frame_step].
Qed.

(** Initialization calls nothing but the discovery request. *)
Lemma ensure_initialized_calls :
  only_calls (λ ev, ∃ i, ev = Call_discovery i) (ensure_initialized L).
Proof.
  unfold ensure_initialized, initialize, initializeAuthorizationServer, url_or.
  repeat first [ frame_step | eexists; reflexivity ].
Qed.

(** An initialized provider is not initialized again. *)
Lemma ensure_initialized_noop p :
  initialized p = true → ensure_initialized L p = (Returned tt, p, []).
Proof. intros Hi. unfold ensure_initialized. rewrite get_bind_run, Hi. reflexivity. Qed.

(** Initialization that returns leaves the provider initialized, with an
    authorization URL. *)
Lemma ensure_initialized_returned p p' l :
  ensure_initialized L p = (Returned tt, p', l) →
  initialized p' = true ∧ (initialized p = true → p' = p) ∧
  (initialized p = false → is_Some (flow_url p')).
Proof.
  intros H. destruct (initialized p) eqn:Hi.
  - rewrite ensure_initialized_noop in H by exact Hi. injection H as <- _.
    split; [exact Hi|]. split; [reflexivity|discriminate].
  - unfold ensure_initialized in H. rewrite get_bind_run, Hi in H. cbn [negb] in H.
    unfold initialize in H. invert_full H.
    all: split; [reflexivity|]; split; [discriminate|]; intros _; eexists; reflexivity.
Qed.

(** *** The blocks of [signIn] *)

Lemma enabled_set_param c k v p : enabled c (set_param k v p) = enabled c p.
Proof. reflexivity. Qed.

Lemma supports_S256_set_param k v p : supports_S256 (set_param k v p) = supports_S256 p.
Proof. reflexivity. Qed.

Lemma flow_url_set_param k v p : flow_url (set_param k v p) = url_set k v <$> flow_url p.
Proof. unfold flow_url. cbn. destruct (fl_authorization (oauthFlow p)); reflexivity. Qed.

Lemma enabled_set_checks c cs p : enabled c (set_checks cs p) = includes c cs.
Proof. reflexivity. Qed.

Lemma flow_url_set_checks cs p : flow_url (set_checks cs p) = flow_url p.
Proof. reflexivity. Qed.

Lemma login_frame_set_param k v p : login_frame p (set_param k v p).
Proof.
  unfold login_frame. rewrite flow_url_set_param. cbn.
  destruct (flow_url p); repeat split.
Qed.

Lemma login_frame_set_checks cs p : login_frame p (set_checks cs p).
Proof. repeat split. Qed.

(** What each block does when it returns: the cookies and the provider
    before, the cookies and the provider after, and the calls made. *)
Definition state_step (cs : list Cookie) (p : OIDCProvider)
    (cs' : list Cookie) (p' : OIDCProvider) (l : list event) : Prop :=
  (enabled state p = false ∧ cs' = cs ∧ p' = p ∧ l = []) ∨
  (enabled state p = true ∧
   ∃ v c, create ck state p = Returned (v, c) ∧ cs' = cs ++ [c] ∧
          p' = set_param "state" v p ∧ l = [Call_check_create state]).

Definition pkce_step (cs : list Cookie) (p : OIDCProvider)
    (cs' : list Cookie) (p' : OIDCProvider) (l : list event) : Prop :=
  (enabled pkce p = false ∧ cs' = cs ∧ p' = p ∧ l = []) ∨
  (enabled pkce p = true ∧ supports_S256 p = false ∧
   cs' = cs ∧ p' = set_checks [nonce] p ∧ l = []) ∨
  (enabled pkce p = true ∧ supports_S256 p = true ∧
   ∃ v c, create ck pkce p = Returned (v, c) ∧ cs' = cs ++ [c] ∧
          p' = set_param "code_challenge_method" "S256" (set_param "code_challenge" v p) ∧
          l = [Call_check_create pkce]).

Definition nonce_step (cs : list Cookie) (p : OIDCProvider)
    (cs' : list Cookie) (p' : OIDCProvider) (l : list event) : Prop :=
  (enabled nonce p = false ∧ cs' = cs ∧ p' = p ∧ l = []) ∨
  (enabled nonce p = true ∧
   ∃ v c, create ck nonce p = Returned (v, c) ∧ cs' = cs ++ [c] ∧
          p' = set_param "nonce" v p ∧ l = [Call_check_create nonce]).

(** The last two blocks write one parameter of the stored URL, unless it
    is there already, and nothing else. *)
Definition param_step (k v : string) (p p' : OIDCProvider) : Prop :=
  ∃ url, flow_url p = Some url ∧
    flow_url p' = Some (if sp_has k (searchParams url) then url else url_set k v url) ∧
    config p' = config p ∧ pages p' = pages p.

Definition redirect_uri_step (request : InternalRequest) (p p' : OIDCProvider) : Prop :=
  param_step "redirect_uri"
    (origin (req_url request) +:+ default "undefined" (pg_callback (pages p))) p p'.

Definition scope_step (p p' : OIDCProvider) : Prop :=
  param_step "scope" "openid profile email" p p'.

Lemma authorization_url_returned p url p' l :
  authorization_url p = (Returned url, p', l) →
  flow_url p = Some url ∧ p' = p ∧ l = [].
Proof.
  unfold authorization_url, flow_url. rewrite get_bind_run.
  destruct (fl_authorization (oauthFlow p)); [|discriminate].
  intros [= <- <- <-]. auto.
Qed.

Lemma signIn_state_returned cs p cs' p' l :
  signIn_state ck cs p = (Returned cs', p', l) → state_step cs p cs' p' l.
Proof.
  unfold signIn_state, state_step. rewrite get_bind_run.
  destruct (enabled state p); [|intros [= <- <- <-]; auto].
  intros H. right. split; [reflexivity|]. invert_full H.
  eexists _, _. repeat split. eassumption.
Qed.

Lemma signIn_pkce_returned cs p cs' p' l :
  signIn_pkce ck cs p = (Returned cs', p', l) → pkce_step cs p cs' p' l.
Proof.
  unfold signIn_pkce, pkce_step. rewrite get_bind_run.
  destruct (enabled pkce p); [|intros [= <- <- <-]; auto].
  destruct (supports_S256 p); cbn [negb]; intros H; invert_full H.
  - right. right. repeat split. eexists _, _. repeat split. eassumption.
  - right. left. repeat split.
Qed.

Lemma signIn_nonce_returned cs p cs' p' l :
  signIn_nonce ck cs p = (Returned cs', p', l) → nonce_step cs p cs' p' l.
Proof.
  unfold signIn_nonce, nonce_step. rewrite get_bind_run.
  destruct (enabled nonce p); [|intros [= <- <- <-]; auto].
  intros H. right. split; [reflexivity|]. invert_full H.
  eexists _, _. repeat split. eassumption.
Qed.

Lemma signIn_redirect_uri_returned request p p' l :
  signIn_redirect_uri request p = (Returned tt, p', l) →
  redirect_uri_step request p p' ∧ l = [].
Proof.
  unfold signIn_redirect_uri, redirect_uri_step, param_step. intros H.
  apply bind_returned_full in H as (url & p1 & l1 & l2 & E & H & ->).
  apply authorization_url_returned in E as (Hu & -> & ->).
  destruct (sp_has "redirect_uri" (searchParams url)) eqn:Hh; cbn [negb] in H.
  - injection H as <- <-. split; [|reflexivity]. exists url. rewrite Hh. auto.
  - rewrite get_bind_run in H. injection H as <- <-.
    split; [|reflexivity]. exists url. rewrite flow_url_set_param, Hu, Hh. repeat split.
Qed.

Lemma signIn_scope_returned p p' l :
  signIn_scope p = (Returned tt, p', l) → scope_step p p' ∧ l = [].
Proof.
  unfold signIn_scope, scope_step, param_step. intros H.
  apply bind_returned_full in H as (url & p1 & l1 & l2 & E & H & ->).
  apply authorization_url_returned in E as (Hu & -> & ->).
  destruct (sp_has "scope" (searchParams url)) eqn:Hh; cbn [negb] in H;
    injection H as <- <-; (split; [|reflexivity]); exists url;
    rewrite ?flow_url_set_param, Hu, Hh; repeat split.
Qed.

(** The run of [signIn] on an initialized provider, block by block. *)
Lemma signIn_body_trace request p response pf l :
  signIn_body L ck request p = (Returned response, pf, l) →
  ∃ cs1 p1 l1 cs2 p2 l2 cs3 p3 l3 p4 urlf,
    is_Some (flow_url p) ∧
    state_step [] p cs1 p1 l1 ∧ pkce_step cs1 p1 cs2 p2 l2 ∧
    nonce_step cs2 p2 cs3 p3 l3 ∧
    redirect_uri_step request p3 p4 ∧ scope_step p4 pf ∧
    flow_url pf = Some urlf ∧ l = l1 ++ l2 ++ l3 ∧
    response = {| status := Some 302%Z; redirect := Some (URL_toString L urlf);
                  cookies := Some cs3; headers := None; body := None;
                  user := VUndefined; session := VUndefined |}.
Proof.
  unfold signIn_body. intros H.
  apply bind_returned_full in H as (url & ? & ? & ? & E & H & ->).
  apply authorization_url_returned in E as (Hu & -> & ->).
  apply bind_returned_full in H as (cs1 & p1 & l1 & ? & E1 & H & ->).
  apply signIn_state_returned in E1.
  apply bind_returned_full in H as (cs2 & p2 & l2 & ? & E2 & H & ->).
  apply signIn_pkce_returned in E2.
  apply bind_returned_full in H as (cs3 & p3 & l3 & ? & E3 & H & ->).
  apply signIn_nonce_returned in E3.
  apply bind_returned_full in H as ([] & p4 & ? & ? & E4 & H & ->).
  apply signIn_redirect_uri_returned in E4 as (E4 & ->).
  apply bind_returned_full in H as ([] & p5 & ? & ? & E5 & H & ->).
  apply signIn_scope_returned in E5 as (E5 & ->).
  apply bind_returned_full in H as (urlf & ? & ? & ? & E6 & H & ->).
  apply authorization_url_returned in E6 as (Hf & -> & ->).
  injection H as <- <- <-.
  exists cs1, p1, l1, cs2, p2, l2, cs3, p3, l3, p4, urlf.
  rewrite Hu, !app_nil_r. cbn. repeat split; eauto.
Qed.

Lemma enabled_config c p q : config p = config q → enabled c p = enabled c q.
Proof. unfold enabled. intros ->. reflexivity. Qed.

Ltac flow_simpl H Hu :=
  repeat first [ rewrite flow_url_set_param in H | rewrite flow_url_set_checks in H ];
  rewrite Hu in H; cbn [fmap option_fmap option_map] in H; apply (inj Some) in H.

(** Splits a run of [signIn] that returned into the cases of its blocks
    and computes the final URL. *)
Ltac signIn_cases H :=
  apply signIn_body_trace in H
    as (cs1 & p1 & l1 & cs2 & p2 & l2 & cs3 & p3 & l3 & p4 & urlf &
        [url1 Hu] & S1 & S2 & S3 & (u4 & Hu4 & Hu4' & Hc4 & Hp4) &
        (u5 & Hu5 & Hu5' & Hc5 & Hp5) & Hf & -> & ->);
  destruct S1 as [(H1 & -> & -> & ->)|(H1 & v1 & c1 & Hc1 & -> & -> & ->)];
  destruct S2 as [(H2 & -> & -> & ->)|[(H2 & HS & -> & -> & ->)|
                                       (H2 & HS & v2 & c2 & Hc2 & -> & -> & ->)]];
  destruct S3 as [(H3 & -> & -> & ->)|(H3 & v3 & c3 & Hc3 & -> & -> & ->)];
  flow_simpl Hu4 Hu; subst u4;
  rewrite Hu4' in Hu5; apply (inj Some) in Hu5; subst u5;
  rewrite Hu5' in Hf; apply (inj Some) in Hf; subst urlf;
  rewrite Hc4 in Hc5; rewrite Hp4 in Hp5; clear Hu4' Hc4 Hp4;
  rewrite ?enabled_set_param, ?supports_S256_set_param, ?enabled_set_checks in *;
  cbn [pages set_param set_checks set_oauthFlow set_config] in *;
  revert Hu5'; sp_simpl;
  destruct (sp_has "redirect_uri" (searchParams url1)) eqn:Hr; sp_simpl;
  destruct (sp_has "scope" (searchParams url1)) eqn:Hsc; sp_simpl;
  intros Hpf.

Ltac pin_response Hurl Hcs Hpf :=
  rewrite Hpf in Hurl; apply (inj Some) in Hurl;
  cbn [cookies] in Hcs; apply (inj Some) in Hcs; subst.

Ltac pick_check :=
  eexists _, _, _; (split; [eassumption|]);
  (split; [cbn [check_param]; sp_simpl; reflexivity|]);
  rewrite ?elem_of_app, ?list_elem_of_singleton; auto 10.

Lemma signIn_body_returned request p response pf l :
  signIn_body L ck request p = (Returned response, pf, l) →
  status response = Some 302%Z ∧
  ∃ url1 url cs,
    flow_url p = Some url1 ∧ flow_url pf = Some url ∧
    redirect response = Some (URL_toString L url) ∧ cookies response = Some cs ∧
    base url = base url1 ∧ origin url = origin url1.
Proof.
  intros H. signIn_cases H.
  all: (split; [reflexivity|]); eexists url1, _, _; (split; [exact Hu|]);
    (split; [exact Hpf|]); (split; [reflexivity|]); (split; [reflexivity|]);
    split; reflexivity.
Qed.

Lemma signIn_body_checks_after request p response pf l url cs :
  signIn_body L ck request p = (Returned response, pf, l) →
  flow_url pf = Some url → cookies response = Some cs →
  (∀ c, c ∈ [state; pkce; nonce] → enabled c pf = true →
     ∃ p' v cookie, create ck c p' = Returned (v, cookie) ∧
       sp_get (check_param c) (searchParams url) = Some v ∧ cookie ∈ cs) ∧
  (enabled pkce pf = true →
     sp_get "code_challenge_method" (searchParams url) = Some "S256").
Proof.
  intros H Hurl Hcs. signIn_cases H; pin_response Hurl Hcs Hpf.
  all: split;
    [ intros c Hc Hen; rewrite (enabled_config _ _ _ Hc5) in Hen;
      rewrite ?enabled_set_param, ?enabled_set_checks in Hen;
      set_unfold in Hc; destruct Hc as [->|[->|[->|[]]]];
      try congruence; try (vm_compute in Hen; discriminate Hen); pick_check
    | intros Hen; rewrite (enabled_config _ _ _ Hc5) in Hen;
      rewrite ?enabled_set_param, ?enabled_set_checks in Hen;
      try congruence; try (vm_compute in Hen; discriminate Hen); sp_simpl; reflexivity ].
Qed.

Lemma signIn_body_checks_before request p response pf l url cs :
  signIn_body L ck request p = (Returned response, pf, l) →
  flow_url pf = Some url → cookies response = Some cs →
  ∀ c, c ∈ [state; pkce; nonce] → enabled c p = true →
    (c = pkce ∧ supports_S256 p = false) ∨
    ∃ p' v cookie, create ck c p' = Returned (v, cookie) ∧
      sp_get (check_param c) (searchParams url) = Some v ∧ cookie ∈ cs.
Proof.
  intros H Hurl Hcs. signIn_cases H; pin_response Hurl Hcs Hpf.
  all: intros c Hc Hen; set_unfold in Hc; destruct Hc as [->|[->|[->|[]]]];
    try congruence; try (left; split; [reflexivity|assumption]);
    try (vm_compute in H3; discriminate H3); right; pick_check.
Qed.

Lemma signIn_body_redirect_uri request p response pf l url :
  signIn_body L ck request p = (Returned response, pf, l) →
  flow_url pf = Some url →
  ∃ url1, flow_url p = Some url1 ∧
    sp_get "redirect_uri" (searchParams url) =
    if sp_has "redirect_uri" (searchParams url1)
    then sp_get "redirect_uri" (searchParams url1)
    else Some (origin (req_url request) +:+ default "undefined" (pg_callback (pages p))).
Proof.
  intros H Hurl. signIn_cases H;
    rewrite Hpf in Hurl; apply (inj Some) in Hurl; subst url;
    exists url1; (split; [exact Hu|]); rewrite Hr; sp_simpl; reflexivity.
Qed.

(** When pkce is enabled and S256 is not supported: the checks become
    [['nonce']], the PKCE parameters of the URL are not written, and the
    cookies are the state cookie, if state is enabled, and the nonce cookie. *)
Lemma signIn_body_fallback request p response pf l url cs :
  signIn_body L ck request p = (Returned response, pf, l) →
  flow_url pf = Some url → cookies response = Some cs →
  enabled pkce p = true → supports_S256 p = false →
  f_checks (config pf) = Some [nonce] ∧
  ∃ url1, flow_url p = Some url1 ∧
    sp_get "code_challenge" (searchParams url) = sp_get "code_challenge" (searchParams url1) ∧
    sp_get "code_challenge_method" (searchParams url) =
      sp_get "code_challenge_method" (searchParams url1) ∧
    ∃ p' v cookie, create ck nonce p' = Returned (v, cookie) ∧
      sp_get "nonce" (searchParams url) = Some v ∧
      (cs = [cookie] ∨
       ∃ p0 v0 sc, create ck state p0 = Returned (v0, sc) ∧ cs = [sc; cookie]).
Proof.
  intros H Hurl Hcs Hen Hno. signIn_cases H; pin_response Hurl Hcs Hpf;
    try congruence; try (vm_compute in H3; discriminate H3).
  all: rewrite Hc5; (split; [reflexivity|]); exists url1; (split; [exact Hu|]);
    sp_simpl; (split; [reflexivity|]); (split; [reflexivity|]);
    eexists _, _, _; (split; [eassumption|]); (split; [reflexivity|]);
    first [ left; reflexivity | right; eexists _, _, _; split; [eassumption|reflexivity] ].
Qed.

(** *** What [signIn] leaves alone *)

#[local] Instance signIn_frame_preorder : PreOrder signIn_frame.
Proof.
  split.
  - intros p. split; [reflexivity|]. left. reflexivity.
  - intros p q r [Hpq Cpq] [Hqr Cqr]. split; [etrans; eassumption|].
    assert (authorizationServer q = authorizationServer p) as Ha by apply Hpq.
    unfold checks_step, enabled, supports_S256 in *.
    destruct Cpq as [E1|(? & ? & E1)], Cqr as [E2|(? & ? & E2)];
      rewrite ?Ha, ?E1 in *; auto.
Qed.

Lemma signIn_frame_set_param k v p : signIn_frame p (set_param k v p).
Proof. split; [apply login_frame_set_param|]. left. reflexivity. Qed.

Lemma signIn_pkce_frame cs : preserves signIn_frame (signIn_pkce ck cs).
Proof.
  intros p. unfold signIn_pkce. rewrite get_bind_run.
  destruct (enabled pkce p) eqn:He; [|reflexivity].
  destruct (supports_S256 p) eqn:Hs; cbn [negb].
  - rewrite bind_run, call_run.
    destruct (create ck pkce p) as [[v c]|e]; [|reflexivity]. cbn.
    etrans; apply signIn_frame_set_param.
  - cbn. split; [apply login_frame_set_checks|]. right. auto.
Qed.

Lemma signIn_body_frame request : preserves signIn_frame (signIn_body L ck request).
Proof.
  unfold signIn_body, signIn_state, signIn_nonce, signIn_redirect_uri, signIn_scope,
    authorization_url.
  repeat first [ apply signIn_pkce_frame
               | apply preserves_modify; intros ?; apply signIn_frame_set_param
               | frame_step ].
Qed.

(** *** The calls of [signIn] *)

Lemma calls_bind_pointwise {A B} (P : event → Prop) (m : M OIDCProvider A)
    (f : A → M OIDCProvider B) (s : OIDCProvider) :
  Forall P (calls (m s)) →
  (∀ a s1 l1, m s = (Returned a, s1, l1) → Forall P (calls (f a s1))) →
  Forall P (calls ((m ≫= f) s)).
Proof.
  intros Hm Hf. rewrite bind_run.
  destruct (m s) as [[[a|e] s1] l1]; [|exact Hm].
  specialize (Hf a s1 l1 eq_refl). destruct (f a s1) as [[r s2] l2].
  apply Forall_app. split; assumption.
Qed.

Lemma signIn_state_calls cs :
  only_calls (λ ev, is_check_create pkce ev = false) (signIn_state ck cs).
Proof. unfold signIn_state. repeat frame_step. reflexivity. Qed.

Lemma signIn_nonce_calls cs :
  only_calls (λ ev, is_check_create pkce ev = false) (signIn_nonce ck cs).
Proof. unfold signIn_nonce. repeat frame_step. reflexivity. Qed.

Lemma signIn_body_no_pkce_call request p :
  enabled pkce p = true → supports_S256 p = false →
  Forall (λ ev, is_check_create pkce ev = false) (calls (signIn_body L ck request p)).
Proof.
  intros Hen Hno. unfold signIn_body.
  apply calls_bind_pointwise.
  { unfold authorization_url. rewrite get_bind_run.
    destruct (fl_authorization (oauthFlow p)); constructor. }
  intros url ? ? E. apply authorization_url_returned in E as (_ & -> & ->).
  apply calls_bind_pointwise; [apply signIn_state_calls|]. intros cs1 p1 l1 E1.
  assert (enabled pkce p1 = true ∧ supports_S256 p1 = false) as [Hen1 Hno1].
  { apply signIn_state_returned in E1
      as [(_ & _ & -> & _)|(_ & v & c & _ & _ & -> & _)]; auto. }
  apply calls_bind_pointwise.
  { unfold signIn_pkce. rewrite get_bind_run, Hen1, Hno1. constructor. }
  intros cs2 p2 l2 _.
  apply calls_bind_pointwise; [apply signIn_nonce_calls|]. intros cs3 p3 l3 _.
  match goal with
  | |- Forall ?P (calls (?m ?s)) => assert (only_calls P m) as Hm; [|apply Hm]
  end.
  unfold signIn_redirect_uri, signIn_scope, authorization_url. repeat frame_step.
Qed.

(** [signIn] is initialization followed by its body. *)
Lemma signIn_returned_inv request p response :
  result (signIn L ck request p) = Returned response →
  ∃ p1 l1 l2,
    ensure_initialized L p = (Returned tt, p1, l1) ∧
    signIn_body L ck request p1 = (Returned response, final (signIn L ck request p), l2) ∧
    calls (signIn L ck request p) = l1 ++ l2.
Proof.
  unfold signIn. rewrite bind_run.
  destruct (ensure_initialized L p) as [[[[]|e] p1] l1]; [|discriminate].
  destruct (signIn_body L ck request p1) as [[r pf] l2] eqn:Hb. cbn.
  intros ->. exists p1, l1, l2. auto.
Qed.

(** *** [callback] *)

Lemma callback_body_pure request : preserves eq (callback_body L ck request).
Proof. unfold callback_body. repeat frame_step. Qed.




(** [callback] is initialization followed by its body. *)
Lemma callback_run request p :
  callback L ck request p =
  match ensure_initialized L p with
  | (Returned _, p1, l1) =>
      (result (callback_body L ck request p1), final (callback_body L ck request p1),
       l1 ++ calls (callback_body L ck request p1))
  | (Thrown e, p1, l1) => (Thrown e, p1, l1)
  end.
Proof.
  unfold callback. rewrite bind_run.
  destruct (ensure_initialized L p) as [[[[]|e] p1] l1]; [|reflexivity].
  destruct (callback_body L ck request p1) as [[? ?] ?]. reflexivity.
Qed.

Lemma signIn_run request p :
  signIn L ck request p =
  match ensure_initialized L p with
  | (Returned _, p1, l1) =>
      (result (signIn_body L ck request p1), final (signIn_body L ck request p1),
       l1 ++ calls (signIn_body L ck request p1))
  | (Thrown e, p1, l1) => (Thrown e, p1, l1)
  end.
Proof.
  unfold signIn. rewrite bind_run.
  destruct (ensure_initialized L p) as [[[[]|e] p1] l1]; [|reflexivity].
  destruct (signIn_body L ck request p1) as [[? ?] ?]. reflexivity.
Qed.

(** The parameters of the stored URL that [signIn] does not write, and
    the scope it falls back to. *)
Lemma signIn_body_other_params request p response pf l url :
  signIn_body L ck request p = (Returned response, pf, l) →
  flow_url pf = Some url →
  ∃ url1, flow_url p = Some url1 ∧
    (∀ k, k ∉ login_params → k ≠ "scope" →
       sp_get k (searchParams url) = sp_get k (searchParams url1)) ∧
    sp_get "scope" (searchParams url) =
    if sp_has "scope" (searchParams url1)
    then sp_get "scope" (searchParams url1)
    else Some "openid profile email".
Proof.
  intros H Hurl. signIn_cases H;
    rewrite Hpf in Hurl; apply (inj Some) in Hurl; subst url;
    exists url1; (split; [exact Hu|]);
    (split; [intros k Hk K6; unfold login_params in Hk;
             rewrite !not_elem_of_cons in Hk;
             destruct Hk as (K1 & K2 & K3 & K4 & K5 & _); sp_simpl; reflexivity
            |rewrite Hsc; sp_simpl; reflexivity]).
Qed.


End OIDCProperties.

(** ** Defaults of the enabled checks *)

(** C10.  A provider constructed without a [checks] option has exactly the
    check [pkce] enabled, so neither [state] nor [nonce]: for the OAuth
    provider when neither the user's nor the provider's default options
    name checks, for the OIDC provider when the merged configuration names
    none. *)
Theorem checks_default_to_pkce
    (createCookiesOptions defaultCookies : option bool → CookiesOptions)
    (merge : OIDC.Fields → option OIDC.Fields → OIDC.Fields)
    (defaultProfile : value → value → outcome value) :
  (∀ userOptions defaultOptions,
     OAuth.u_checks userOptions = None → OAuth.d_checks defaultOptions = None →
     let this := OAuth.constructor
                   (OAuth.mergeOAuthOptions createCookiesOptions userOptions defaultOptions) in
     OAuth.checks this = [pkce] ∧
     includes state (OAuth.checks this) = false ∧
     includes nonce (OAuth.checks this) = false) ∧
  (∀ provider options,
     OIDC.f_checks (merge (OIDC.defaults provider) (OIDC.options_ provider)) = None →
     let this := OIDC.constructor merge defaultProfile defaultCookies provider options in
     OIDC.f_checks (OIDC.config this) = Some [pkce] ∧
     OIDC.enabled pkce this = true ∧
     OIDC.enabled state this = false ∧
     OIDC.enabled nonce this = false).
Proof.
  split.
  - intros userOptions defaultOptions Hu Hd. cbn. rewrite Hu, Hd. repeat split.
  - intros provider options Hm. unfold OIDC.enabled. cbn. rewrite Hm. repeat split.
Qed.

Example github_default_checks : OAuth.checks (Examples.github None) = [pkce].
Proof. reflexivity. Qed.

Example accounts_default_checks :
  OIDC.f_checks (OIDC.config (Examples.accounts None)) = Some [pkce].
Proof. reflexivity. Qed.

(** ** The callback verifies the state first *)







(** The same callback with a state cookie issued for another state: the
    mismatch is caught by [validateAuthResponse], before any token request. *)
Example callback_state_mismatch :
  let request :=
    {| req_url := {| origin := "https://app.example";
                     base := "https://app.example/auth/callback/github";
                     searchParams := [("code", "X"); ("state", "other")] |};
       req_cookies := {[ "state" := "hdr..iv.state.tag" ]} |} in
  let x := OAuth.callback Examples.lib (Examples.checks_for OAuth.cookies_) request
             (Examples.github (Some [state])) in
  result x = Thrown (External "OperationProcessingError") ∧
  calls x = [Call_check_use state; Call_validateAuthResponse (Some "S")].
Proof. vm_compute. split; reflexivity. Qed.

(** With a matching state (and the verifier cookie) the callback goes
    through and clears both cookies. *)
Example callback_state_match :
  let request :=
    {| req_url := Examples.example_url;
       req_cookies := {[ "state" := "hdr..iv.state.tag";
                         "pkce" := "hdr..iv.verifier.tag" ]} |} in
  let x := OAuth.callback Examples.lib (Examples.checks_for OAuth.cookies_) request
             (Examples.github (Some [state; pkce])) in
  (name <$> default [] (match result x with
                        | Returned r => cookies r
                        | Thrown _ => None
                        end)) = ["state"; "pkce"] ∧
  existsb is_token_request (calls x) = true.
Proof. vm_compute. split; reflexivity. Qed.

(** ** Login with the OAuth provider *)

Section OAuthLogin.
Import OAuth.
Variable L : Lib.
Variable ck : Checks OAuthProvider.

Lemma login_check_returned c this set acc acc' p p' l :
  login_check ck c this set acc p = (Returned acc', p', l) →
  (includes c (checks this) = false ∧ acc' = acc) ∨
  (includes c (checks this) = true ∧
   ∃ v cookie, create ck c this = Returned (v, cookie) ∧
               acc' = (set v acc.1, acc.2 ++ [cookie])).
Proof.
  unfold login_check. destruct (includes c (checks this)).
  - intros H. right. split; [reflexivity|]. invert_full H.
    eexists _, _. split; [eassumption|reflexivity].
  - intros [= <- _ _]. auto.
Qed.

Lemma login_returned request this response :
  result (login L ck request this) = Returned response →
  status response = Some 302%Z ∧
  ∃ url0 url cs,
    URL_new L (ep_url (ep_authorization (endpoints this))) = Returned url0 ∧
    redirect response = Some (URL_toString L url) ∧
    cookies response = Some cs ∧
    base url = base url0 ∧ origin url = origin url0 ∧
    (∀ c, c ∈ [state; pkce; nonce] → includes c (checks this) = true →
       ∃ v cookie, create ck c this = Returned (v, cookie) ∧
         sp_get (check_param c) (searchParams url) = Some v ∧ cookie ∈ cs) ∧
    (includes pkce (checks this) = true →
       sp_get "code_challenge_method" (searchParams url) = Some "S256") ∧
    length cs = length (filter (λ c, includes c (checks this) = true) [state; pkce; nonce]) ∧
    let configured :=
      set_string_params (default [] (ep_params (ep_authorization (endpoints this)))) url0 in
    sp_get "redirect_uri" (searchParams url) =
    if sp_has "redirect_uri" (searchParams configured)
    then sp_get "redirect_uri" (searchParams configured)
    else Some (origin (req_url request) +:+ pg_callback (pages this)).
Proof.
  intros H.
  destruct (login L ck request this) as [[r pf] l] eqn:Hx. cbn in H. subst r.
  unfold login in Hx. invert_full Hx.
  repeat match goal with
         | E : login_check _ _ _ _ _ _ = _ |- _ => apply login_check_returned in E
         end.
  match goal with
  | E : URL_new L (ep_url (ep_authorization (endpoints ?t))) = Returned ?u |- _ =>
      rename t into this0; rename u into url0
  end.
  split; [reflexivity|].
  destruct (set_string_params_base
              (default [] (ep_params (ep_authorization (endpoints this0)))) url0) as [Hb Ho].
  set (configured := set_string_params _ _) in *.
  eexists url0, _, _. split; [assumption|]. split; [reflexivity|]. split; [reflexivity|].
  destruct E0 as [[H1 ->]|[H1 (v1 & c1 & Hc1 & ->)]];
  destruct E1 as [[H2 ->]|[H2 (v2 & c2 & Hc2 & ->)]];
  destruct E2 as [[H3 ->]|[H3 (v3 & c3 & Hc3 & ->)]];
    cbn [fst snd]; cbn zeta; sp_simpl;
    destruct (sp_has "redirect_uri" (searchParams configured)) eqn:Hr; cbn [negb]; sp_simpl;
    (split; [exact Hb|]); (split; [exact Ho|]);
    (split; [intros c Hc Hen; set_unfold in Hc;
             destruct Hc as [->|[->|[->|[]]]]; try congruence;
             eexists _, _; (split; [eassumption|]); cbn [check_param]; sp_simpl;
             (split; [reflexivity|set_solver])|]);
    (split; [intros Hen; try congruence; reflexivity|]);
    rewrite !filter_cons, filter_nil, H1, H2, H3;
    (split; [reflexivity|]);
    subst configured; cbv zeta in *; rewrite Hr; reflexivity.
Qed.

End OAuthLogin.

(** ** Login: the redirect and its checks *)

(** C8, amended.  When login returns, the response has status 302 and
    redirects to the authorization URL (for the OAuth provider the
    configured endpoint with its configured parameters, for the OIDC
    provider the URL the provider stores since its initialization) with
    further parameters.  Every enabled check has its parameter in the URL
    ([state], [code_challenge] with [code_challenge_method=S256], [nonce])
    and its cookie in the response, with one exception: an OIDC provider
    whose server does not support S256 writes no PKCE parameter and
    attaches no PKCE cookie.  For the OIDC provider the statement holds of
    the checks enabled before login, with that exception, and of all
    checks enabled when login is over.  [redirect_uri] is the request's
    origin followed by the callback page, unless the URL had a
    [redirect_uri] already, which is then kept. *)
Theorem login_redirects_with_checks (L : Lib)
    (oc : Checks OAuth.OAuthProvider) (ic : Checks OIDC.OIDCProvider)
    (request : InternalRequest) :
  (∀ this response,
     result (OAuth.login L oc request this) = Returned response →
     status response = Some 302%Z ∧
     ∃ url0 url cs,
       URL_new L (OAuth.ep_url (OAuth.ep_authorization (OAuth.endpoints this)))
         = Returned url0 ∧
       redirect response = Some (URL_toString L url) ∧
       cookies response = Some cs ∧
       base url = base url0 ∧ origin url = origin url0 ∧
       (∀ c, c ∈ [state; pkce; nonce] → includes c (OAuth.checks this) = true →
          ∃ v cookie, create oc c this = Returned (v, cookie) ∧
            sp_get (check_param c) (searchParams url) = Some v ∧ cookie ∈ cs) ∧
       (includes pkce (OAuth.checks this) = true →
          sp_get "code_challenge_method" (searchParams url) = Some "S256") ∧
       length cs =
         length (filter (λ c, includes c (OAuth.checks this) = true) [state; pkce; nonce]) ∧
       let configured :=
         set_string_params
           (default [] (OAuth.ep_params (OAuth.ep_authorization (OAuth.endpoints this))))
           url0 in
       sp_get "redirect_uri" (searchParams url) =
       if sp_has "redirect_uri" (searchParams configured)
       then sp_get "redirect_uri" (searchParams configured)
       else Some (origin (req_url request) +:+ OAuth.pg_callback (OAuth.pages this))) ∧
  (∀ this response,
     let i := OIDC.ensure_initialized L this in
     let x := OIDC.signIn L ic request this in
     result x = Returned response →
     status response = Some 302%Z ∧
     ∃ url1 url cs,
       OIDCFrame.flow_url (final i) = Some url1 ∧
       OIDCFrame.flow_url (final x) = Some url ∧
       redirect response = Some (URL_toString L url) ∧
       cookies response = Some cs ∧
       base url = base url1 ∧ origin url = origin url1 ∧
       (∀ c, c ∈ [state; pkce; nonce] → OIDC.enabled c (final x) = true →
          ∃ p' v cookie, create ic c p' = Returned (v, cookie) ∧
            sp_get (check_param c) (searchParams url) = Some v ∧ cookie ∈ cs) ∧
       (OIDC.enabled pkce (final x) = true →
          sp_get "code_challenge_method" (searchParams url) = Some "S256") ∧
       (∀ c, c ∈ [state; pkce; nonce] → OIDC.enabled c (final i) = true →
          (c = pkce ∧ OIDC.supports_S256 (final i) = false) ∨
          ∃ p' v cookie, create ic c p' = Returned (v, cookie) ∧
            sp_get (check_param c) (searchParams url) = Some v ∧ cookie ∈ cs) ∧
       sp_get "redirect_uri" (searchParams url) =
       if sp_has "redirect_uri" (searchParams url1)
       then sp_get "redirect_uri" (searchParams url1)
       else Some (origin (req_url request) +:+
                  default "undefined" (OIDC.pg_callback (OIDC.pages this)))).
Proof.
  split.
  - intros this response. apply login_returned.
  - intros this response i x Hx. subst i x.
    apply signIn_returned_inv in Hx as (p1 & l1 & l2 & Hi & Hb & _).
    pose proof (ensure_initialized_frame L this) as Hfr. rewrite Hi in *. cbn in Hfr |- *.
    destruct (signIn_body_returned L ic _ _ _ _ _ Hb)
      as (Hst & url1 & url & cs & Hu1 & Hu & Hred & Hcs & Hbase & Horig).
    destruct (signIn_body_checks_after L ic _ _ _ _ _ _ _ Hb Hu Hcs) as [Hafter Hm].
    pose proof (signIn_body_checks_before L ic _ _ _ _ _ _ _ Hb Hu Hcs) as Hbefore.
    destruct (signIn_body_redirect_uri L ic _ _ _ _ _ _ Hb Hu) as (url1' & Hu1' & Hr).
    rewrite Hu1 in Hu1'. injection Hu1' as <-.
    destruct Hfr as (_ & _ & _ & _ & _ & Hpages & _). rewrite Hpages in Hr.
    split; [exact Hst|]. exists url1, url, cs. auto 15.
Qed.

(** Scenario 1: login with the state check redirects to the authorize
    endpoint with [state] and [client_id] and sets the state cookie. *)
Example github_login :
  let x := OAuth.login Examples.lib (Examples.checks_for OAuth.cookies_)
             Examples.login_request (Examples.github (Some [state])) in
  (redirect <$> (match result x with Returned r => Some r | Thrown _ => None end)) =
  Some (Some "https://github.com/login/oauth/authorize?client_id=client-1&response_type=code&state=S&redirect_uri=https://app.example/auth/callback/github") ∧
  calls x = [Call_check_create state].
Proof. vm_compute. split; reflexivity. Qed.

(** ** PKCE without S256 *)

(** C7.  Take an OIDC provider that, once initialized, has pkce enabled
    and whose authorization-server metadata does not list S256.  Then
    login never creates a PKCE challenge or verifier cookie; and when it
    returns, the provider's checks are [['nonce']], the PKCE parameters of
    the URL are as they were, the nonce is in the URL, and the cookies are
    the nonce cookie, preceded by the state cookie if state was enabled. *)
Theorem signIn_without_S256_falls_back_to_nonce (L : Lib)
    (ic : Checks OIDC.OIDCProvider) (request : InternalRequest)
    (this : OIDC.OIDCProvider) :
  let i := OIDC.ensure_initialized L this in
  let x := OIDC.signIn L ic request this in
  result i = Returned tt →
  OIDC.enabled pkce (final i) = true →
  OIDC.supports_S256 (final i) = false →
  existsb (is_check_create pkce) (calls x) = false ∧
  ∀ response, result x = Returned response →
    OIDC.f_checks (OIDC.config (final x)) = Some [nonce] ∧
    ∃ url1 url cs,
      OIDCFrame.flow_url (final i) = Some url1 ∧
      OIDCFrame.flow_url (final x) = Some url ∧
      redirect response = Some (URL_toString L url) ∧
      cookies response = Some cs ∧
      sp_get "code_challenge" (searchParams url) =
        sp_get "code_challenge" (searchParams url1) ∧
      sp_get "code_challenge_method" (searchParams url) =
        sp_get "code_challenge_method" (searchParams url1) ∧
      ∃ p' v cookie, create ic nonce p' = Returned (v, cookie) ∧
        sp_get "nonce" (searchParams url) = Some v ∧
        (cs = [cookie] ∨
         ∃ p0 v0 sc, create ic state p0 = Returned (v0, sc) ∧ cs = [sc; cookie]).
Proof.
  intros i x Hi Hen Hno. subst i x. split.
  - rewrite signIn_run.
    pose proof (ensure_initialized_calls L this) as Hc.
    destruct (OIDC.ensure_initialized L this) as [[[[]|e] p1] l1] eqn:Hinit;
      cbn in Hi, Hen, Hno |- *; [|discriminate].
    rewrite existsb_app. apply orb_false_intro; apply Forall_existsb_false.
    + eapply Forall_impl; [apply Hc|]. intros ? [? ->]. reflexivity.
    + apply signIn_body_no_pkce_call; assumption.
  - intros response Hx.
    apply signIn_returned_inv in Hx as (p1 & l1 & l2 & Hinit & Hb & _).
    rewrite Hinit in *. cbn in Hen, Hno |- *.
    destruct (signIn_body_returned L ic _ _ _ _ _ Hb)
      as (_ & url1 & url & cs & Hu1 & Hu & Hred & Hcs & _).
    destruct (signIn_body_fallback L ic _ _ _ _ _ _ _ Hb Hu Hcs Hen Hno)
      as (Hchecks & url1' & Hu1' & Hcc & Hcm & Hnonce).
    rewrite Hu1 in Hu1'. injection Hu1' as <-.
    split; [exact Hchecks|]. exists url1, url, cs. auto 10.
Qed.

(** The example issuer announces no S256: the first login of a provider
    with the default checks creates the nonce only and leaves
    [['nonce']] as the provider's checks. *)
Lemma signIn_without_S256_witness :
  let x := OIDC.signIn Examples.lib (Examples.checks_for OIDC.cookies_)
             Examples.login_request (Examples.accounts None) in
  existsb (is_check_create pkce) (calls x) = false ∧
  ∀ response, result x = Returned response →
    OIDC.f_checks (OIDC.config (final x)) = Some [nonce] ∧
    ∃ url1 url cs,
      OIDCFrame.flow_url
        (final (OIDC.ensure_initialized Examples.lib (Examples.accounts None))) = Some url1 ∧
      OIDCFrame.flow_url (final x) = Some url ∧
      redirect response = Some (URL_toString Examples.lib url) ∧
      cookies response = Some cs ∧
      sp_get "code_challenge" (searchParams url) =
        sp_get "code_challenge" (searchParams url1) ∧
      sp_get "code_challenge_method" (searchParams url) =
        sp_get "code_challenge_method" (searchParams url1) ∧
      ∃ p' v cookie,
        create (Examples.checks_for OIDC.cookies_) nonce p' = Returned (v, cookie) ∧
        sp_get "nonce" (searchParams url) = Some v ∧
        (cs = [cookie] ∨
         ∃ p0 v0 sc,
           create (Examples.checks_for OIDC.cookies_) state p0 = Returned (v0, sc) ∧
           cs = [sc; cookie]).
Proof.
  apply (signIn_without_S256_falls_back_to_nonce Examples.lib
           (Examples.checks_for OIDC.cookies_) Examples.login_request
           (Examples.accounts None)); vm_compute; reflexivity.
Defined.

(** C8 as stated fails: the example OIDC provider has pkce enabled, by
    default, before and after its initialization, and its login response
    carries no [code_challenge] parameter and no PKCE cookie (it carries
    the nonce instead). *)
Lemma signIn_omits_pkce_parameter :
  let p := Examples.accounts None in
  let p1 := final (OIDC.ensure_initialized Examples.lib p) in
  let x := OIDC.signIn Examples.lib (Examples.checks_for OIDC.cookies_)
             Examples.login_request p in
  OIDC.enabled pkce p = true ∧ OIDC.enabled pkce p1 = true ∧
  (redirect <$> (match result x with Returned r => Some r | Thrown _ => None end)) =
  Some (Some "https://accounts.example/authorize?response_type=code&client_id=client-1&nonce=N&redirect_uri=https://app.example/auth/callback/accounts&scope=openid profile email") ∧
  (sp_get "code_challenge" <$> (searchParams <$> OIDCFrame.flow_url (final x))) = Some None ∧
  (name <$> default [] (match result x with
                        | Returned r => cookies r
                        | Thrown _ => None
                        end)) = ["nonce"].
Proof. vm_compute. repeat split. Qed.

Example accounts_login :
  let x := OIDC.signIn Examples.lib (Examples.checks_for OIDC.cookies_)
             Examples.login_request (Examples.accounts (Some [state; pkce])) in
  calls x = [Call_discovery "https://accounts.example"; Call_check_create state;
             Call_check_create nonce] ∧
  (name <$> default [] (match result x with
                        | Returned r => cookies r
                        | Thrown _ => None
                        end)) = ["state"; "nonce"] ∧
  OIDC.f_checks (OIDC.config (final x)) = Some [nonce].
Proof. vm_compute. repeat split. Qed.

(** ** What login and callback change in a provider *)

(** C6, amended.  Login and callback leave every field of an OAuth
    provider as it was.  An initialized OIDC provider is not initialized
    again, callback leaves every field as it was, and login leaves every
    field as it was but for the list of checks and the parameters of the
    stored authorization URL; the list of checks is kept, or becomes
    [['nonce']] when pkce is enabled and S256 is not supported.
    Initialization that returns leaves the provider initialized and
    touches only the server metadata and the endpoints derived from it. *)
Theorem provider_state_after_login_and_callback (L : Lib)
    (oc : Checks OAuth.OAuthProvider) (ic : Checks OIDC.OIDCProvider)
    (request : InternalRequest) :
  (∀ this,
     final (OAuth.login L oc request this) = this ∧
     final (OAuth.callback L oc request this) = this) ∧
  (∀ this,
     OIDC.initialized this = true →
     OIDC.ensure_initialized L this = (Returned tt, this, []) ∧
     final (OIDC.callback L ic request this) = this ∧
     OIDCFrame.login_frame this (final (OIDC.signIn L ic request this)) ∧
     OIDCFrame.checks_step this (final (OIDC.signIn L ic request this))) ∧
  (∀ this p' l,
     OIDC.ensure_initialized L this = (Returned tt, p', l) →
     OIDC.initialized p' = true ∧ OIDCFrame.init_frame this p').
Proof.
  split; [|split].
  - intros this. split; symmetry.
    + apply (login_pure L oc request this).
    + apply (callback_pure L oc request this).
  - intros this Hi.
    pose proof (ensure_initialized_noop L this Hi) as Hn.
    split; [exact Hn|]. split.
    + rewrite callback_run, Hn. cbn. symmetry. apply (callback_body_pure L ic request this).
    + rewrite signIn_run, Hn. cbn. apply (signIn_body_frame L ic request this).
  - intros this p' l H. split.
    + apply (ensure_initialized_returned L this p' l H).
    + pose proof (ensure_initialized_frame L this) as Hfr. rewrite H in Hfr. exact Hfr.
Qed.

(** C6 as stated fails: for the initialized example provider with the
    default checks, whose issuer announces no S256, one login replaces the
    enabled checks [['pkce']] by [['nonce']] and adds parameters to the
    stored authorization URL, so a second login observes another
    configuration than the first. *)
Lemma signIn_changes_provider_configuration :
  let p1 := final (OIDC.ensure_initialized Examples.lib (Examples.accounts None)) in
  let p2 := final (OIDC.signIn Examples.lib (Examples.checks_for OIDC.cookies_)
                     Examples.login_request p1) in
  OIDC.initialized p1 = true ∧
  OIDC.f_checks (OIDC.config p1) = Some [pkce] ∧
  OIDC.f_checks (OIDC.config p2) = Some [nonce] ∧
  (searchParams <$> OIDCFrame.flow_url p1) =
    Some [("response_type", "code"); ("client_id", "client-1")] ∧
  (searchParams <$> OIDCFrame.flow_url p2) =
    Some [("response_type", "code"); ("client_id", "client-1"); ("nonce", "N");
          ("redirect_uri", "https://app.example/auth/callback/accounts");
          ("scope", "openid profile email")].
Proof. vm_compute. repeat split. Qed.

(** * Further properties of the code *)

(** Closes a goal from a membership of an event in a list of calls of
    other kinds. *)
Ltac absent H :=
  repeat (apply elem_of_cons in H as [H|H]; [discriminate H|]);
  apply elem_of_nil in H; contradiction.

(** ** Reading the user, and round trips through the issued cookies *)

Section ManagerRoundTrips.
Import TokenSession.
Variable parse : string → gmap string string.
Variable this : TokenSessionManager.

Lemma getUser_run (request : Request) :
  getUser parse this request tt =
  let a := parse (default "" (cookie_header request))
             !! co_name (ck_accessToken (cookies_ this)) in
  if truthy_str a
  then (decode this (decode_params this a), tt, [Call_decode (decode_params this a)])
  else (Returned VNull, tt, []).
Proof. unfold getUser. cbv zeta. destruct (truthy_str _); reflexivity. Qed.

(** X1.  [getUser] answers [null] without calling the decoder when the
    request has no access cookie or an empty one (also without a cookie
    header); otherwise it calls the decoder once, on that cookie with the
    manager's secret, and returns or throws what the decoder does.  It
    calls nothing else. *)
Theorem getUser_reads_access_cookie (request : Request) :
  let a := parse (default "" (cookie_header request))
             !! co_name (ck_accessToken (cookies_ this)) in
  let x := getUser parse this request tt in
  (a = None ∨ a = Some "" → x = (Returned VNull, tt, [])) ∧
  (∀ token, a = Some token → token ≠ "" →
     result x = decode this {| dec_token := Some token; dec_secret := secret this |} ∧
     calls x = [Call_decode {| dec_token := Some token; dec_secret := secret this |}]) ∧
  Forall (λ ev, is_decode ev = true) (calls x).
Proof.
  cbv zeta. rewrite getUser_run. cbv zeta.
  destruct (parse _ !! _) as [token|] eqn:Ha; cbn [truthy_str].
  - destruct (String.eqb_spec token "") as [->|Hne]; cbn [negb].
    + split; [reflexivity|]. split; [intros ? [= <-] ?; congruence|constructor].
    + split; [intros [?|[= ?]]; congruence|].
      split; [intros ? [= <-] _; split; reflexivity|repeat constructor].
  - split; [reflexivity|]. split; [intros ? [=]|constructor].
Qed.

(** X2.  A request that sends back the access cookie [createCookies]
    issued for a session is recognised: when the decoder returns a payload
    for the encoding of the session's access token (with the codec of the
    library: the fields of the token and the registered claims [iat], [exp]
    and [jti]), and the encoding is not empty, [getUser] returns that
    payload. *)
Theorem issued_access_cookie_identifies_user
    (session : SessionTokens) (request : Request) (cs : list Cookie) (claims : value) :
  truthy (accessToken session) = true →
  result (createCookies this (Some session) tt) = Returned cs →
  (∀ v, encode this (access_params this (accessToken session)) = Returned v →
        v ≠ "" ∧ decode this (decode_params this (Some v)) = Returned claims) →
  (∀ c, head cs = Some c →
        parse (default "" (cookie_header request))
          !! co_name (ck_accessToken (cookies_ this)) = Some (value_ c)) →
  result (getUser parse this request tt) = Returned claims.
Proof.
  intros Ht Hcs Hcodec Hsent. rewrite createCookies_run in Hcs. cbn in Hcs.
  rewrite Ht in Hcs.
  destruct (encode this (access_params this (accessToken session))) as [v|e] eqn:Hv.
  2:{ destruct (truthy (refreshToken session)); discriminate. }
  destruct (Hcodec v eq_refl) as [Hne Hdec].
  assert (head cs = Some (access_cookie this v)) as Hhd.
  { destruct (truthy (refreshToken session)).
    - destruct (encode this (refresh_params this (refreshToken session)));
        [|discriminate]. injection Hcs as <-. reflexivity.
    - injection Hcs as <-. reflexivity. }
  specialize (Hsent _ Hhd). cbn in Hsent.
  rewrite getUser_run. cbv zeta. rewrite Hsent. cbn [truthy_str].
  destruct (String.eqb_spec v ""); [contradiction|]. cbn. exact Hdec.
Qed.

(** X3.  A request that carries the refresh cookie [createCookies] issued
    for a session, and no access cookie, is refreshed: when the decoder
    returns a truthy payload for the encoding of the session's refresh
    token (with the codec of the library: the fields of the token and the
    registered claims), and the encoding is not empty, [handleRequest]
    calls the refresh callback with that payload, right after decoding the
    cookie. *)
Theorem issued_refresh_cookie_refreshes
    (session : SessionTokens) (request : InternalRequest) (cs : list Cookie)
    (claims : value) :
  truthy (refreshToken session) = true →
  result (createCookies this (Some session) tt) = Returned cs →
  (∀ v, encode this (refresh_params this (refreshToken session)) = Returned v →
        v ≠ "" ∧ decode this (decode_params this (Some v)) = Returned claims) →
  truthy claims = true →
  (∀ c, last cs = Some c →
        req_cookies request !! co_name (ck_refreshToken (cookies_ this)) = Some (value_ c)) →
  req_cookies request !! co_name (ck_accessToken (cookies_ this)) = None →
  ∃ c rest,
    last cs = Some c ∧
    calls (handleRequest this request tt) =
    Call_decode {| dec_token := Some (value_ c); dec_secret := secret this |} ::
    Call_refreshSession claims :: rest.
Proof.
  intros Ht Hcs Hcodec Htc Hsent Hno. rewrite createCookies_run in Hcs. cbn in Hcs.
  rewrite Ht in Hcs.
  assert (∃ v, encode this (refresh_params this (refreshToken session)) = Returned v ∧
               last cs = Some (refresh_cookie this v)) as (v & Hv & Hlast).
  { destruct (truthy (accessToken session)).
    - destruct (encode this (access_params this (accessToken session)));
        [|discriminate].
      destruct (encode this (refresh_params this (refreshToken session))) as [v|];
        [|discriminate]. injection Hcs as <-. eauto.
    - destruct (encode this (refresh_params this (refreshToken session))) as [v|];
        [|discriminate]. injection Hcs as <-. eauto. }
  destruct (Hcodec v Hv) as [Hne Hdec]. specialize (Hsent _ Hlast). cbn in Hsent.
  rewrite handleRequest_run. rewrite Hsent, Hno, Hdec. cbn [truthy_str negb andb].
  destruct (String.eqb_spec v ""); [contradiction|]. rewrite Htc. cbn [negb andb].
  exists (refresh_cookie this v).
  destruct (refreshSession this claims); eexists; (split; [exact Hlast|reflexivity]).
Qed.

Lemma logout_run (request : Request) :
  logout parse this request tt =
  let jar := parse (default "" (cookie_header request)) in
  let a := jar !! co_name (ck_accessToken (cookies_ this)) in
  let r := jar !! co_name (ck_refreshToken (cookies_ this)) in
  let clear := [clearing (ck_accessToken (cookies_ this));
                clearing (ck_refreshToken (cookies_ this))] in
  let da := Call_decode (decode_params this a) in
  let dr := Call_decode (decode_params this r) in
  match decode this (decode_params this a) with
  | Thrown e => (Thrown e, tt, [da])
  | Returned session =>
      match decode this (decode_params this r) with
      | Thrown e => (Thrown e, tt, [da; dr])
      | Returned refresh =>
          match (if truthy session then onInvalidateSession this else None) with
          | Some hook =>
              match hook session refresh with
              | Returned base =>
                  (Returned (push_cookies (default empty_response base) clear), tt,
                   [da; dr; Call_onInvalidateSession session refresh])
              | Thrown e => (Thrown e, tt, [da; dr; Call_onInvalidateSession session refresh])
              end
          | None => (Returned (push_cookies empty_response clear), tt, [da; dr])
          end
      end
  end.
Proof.
  unfold logout. cbv zeta. rewrite bind_run, call_run.
  destruct (decode this _) as [session|e1]; [|reflexivity].
  rewrite bind_run, call_run.
  destruct (decode this _) as [refresh|e2]; [|reflexivity].
  rewrite bind_run.
  destruct (truthy session); [|reflexivity].
  destruct (onInvalidateSession this) as [hook|]; [|reflexivity].
  rewrite bind_run, call_run. destruct (hook session refresh); reflexivity.
Qed.

(** X4.  [logout] never calls the encoder, the session-creation callback or
    the refresh callback.  It calls the invalidation hook only with the
    payloads the decoder returned for the access and the refresh cookie,
    the first of them truthy; and when both decoder calls return, the
    session is truthy and a hook is configured, the hook is called. *)
Theorem logout_calls (request : Request) :
  let jar := parse (default "" (cookie_header request)) in
  let a := jar !! co_name (ck_accessToken (cookies_ this)) in
  let r := jar !! co_name (ck_refreshToken (cookies_ this)) in
  let x := logout parse this request tt in
  existsb is_encode (calls x) = false ∧
  existsb is_createSession (calls x) = false ∧
  existsb is_refreshSession (calls x) = false ∧
  (∀ session refresh,
     Call_onInvalidateSession session refresh ∈ calls x →
     decode this (decode_params this a) = Returned session ∧
     decode this (decode_params this r) = Returned refresh ∧
     truthy session = true ∧ is_Some (onInvalidateSession this)) ∧
  (∀ session refresh,
     decode this (decode_params this a) = Returned session →
     decode this (decode_params this r) = Returned refresh →
     truthy session = true → is_Some (onInvalidateSession this) →
     calls x = [Call_decode (decode_params this a); Call_decode (decode_params this r);
                Call_onInvalidateSession session refresh]).
Proof.
  cbv zeta. rewrite logout_run. cbv zeta.
  set (a := parse _ !! co_name (ck_accessToken _)).
  set (r := parse _ !! co_name (ck_refreshToken _)).
  destruct (decode this (decode_params this a)) as [session|e1].
  2:{ split; [reflexivity|]. split; [reflexivity|]. split; [reflexivity|].
      split; [intros ? ? Hin; absent Hin|intros ? ? [=]]. }
  destruct (decode this (decode_params this r)) as [refresh|e2].
  2:{ split; [reflexivity|]. split; [reflexivity|]. split; [reflexivity|].
      split; [intros ? ? Hin; absent Hin|intros ? ? _ [=]]. }
  destruct (truthy session) eqn:Hs.
  - destruct (onInvalidateSession this) as [hook|] eqn:Hh.
    + destruct (hook session refresh) as [base|e3];
        (split; [reflexivity|]); (split; [reflexivity|]); (split; [reflexivity|]);
        (split; [intros ? ? Hin;
                 apply elem_of_cons in Hin as [[=]|Hin];
                 apply elem_of_cons in Hin as [[=]|Hin];
                 apply elem_of_cons in Hin as [[= <- <-]|Hin];
                 [eauto|apply elem_of_nil in Hin; contradiction]
                |intros ? ? [= <-] [= <-] _ _; reflexivity]).
    + split; [reflexivity|]. split; [reflexivity|]. split; [reflexivity|].
      split; [intros ? ? Hin; absent Hin|intros ? ? _ _ _ [? [=]]].
  - split; [reflexivity|]. split; [reflexivity|]. split; [reflexivity|].
    split; [intros ? ? Hin; absent Hin|intros ? ? [= <-] _ ?; congruence].
Qed.

(** X5.  Every cookie [createCookies] issues lives as long as its token:
    the max-age of the cookie is the max-age the encoder was given for its
    value, and the encoder is always given the manager's secret; there is
    one encoder call per cookie, in the order of the cookies. *)
Theorem cookie_and_token_expire_together (newSession : NewSession) (cs : list Cookie) :
  result (createCookies this newSession tt) = Returned cs →
  Forall2 (λ ev c, ∃ p, ev = Call_encode p ∧
                     encode this p = Returned (value_ c) ∧
                     enc_secret p = secret this ∧
                     enc_maxAge p = maxAge (options c))
    (calls (createCookies this newSession tt)) cs.
Proof.
  rewrite createCookies_run.
  destruct (truthy (opt_accessToken newSession)), (truthy (opt_refreshToken newSession));
    repeat (match goal with |- context [encode this ?p] =>
              destruct (encode this p) eqn:? end);
    cbn; intros [= <-]; repeat constructor; eexists; repeat split; eassumption.
Qed.

End ManagerRoundTrips.

Lemma issued_access_cookie_witness :
  result (TokenSession.getUser Examples.parse sealing_manager
            {| TokenSession.cookie_header := Some "access-token=hdr..iv.alice.tag" |} tt) =
  Returned (VObj [("id", VStr "alice"); ("iat", VNum 1700000000);
                  ("exp", VNum 1700003600);
                  ("jti", VStr "00000000-0000-4000-8000-000000000000")]).
Proof.
  eapply (issued_access_cookie_identifies_user Examples.parse sealing_manager
            {| accessToken := Examples.alice; refreshToken := Examples.alice_refresh |}).
  - reflexivity.
  - vm_compute. reflexivity.
  - intros v Hv. vm_compute in Hv. injection Hv as <-.
    split; [discriminate|vm_compute; reflexivity].
  - intros c Hc. vm_compute in Hc. injection Hc as <-. vm_compute. reflexivity.
Defined.

Lemma issued_refresh_cookie_witness :
  ∃ rest,
    calls (TokenSession.handleRequest sealing_manager
             {| req_url := Examples.example_url;
                req_cookies := {[ "refresh-token" := "hdr..iv.refresh.tag" ]} |} tt) =
    Call_decode {| dec_token := Some "hdr..iv.refresh.tag"; dec_secret := "s3cret" |} ::
    Call_refreshSession
      (VObj [("rid", VStr "r1"); ("iat", VNum 1700000000); ("exp", VNum 1700604800);
             ("jti", VStr "00000000-0000-4000-8000-000000000000")]) :: rest.
Proof.
  eassert (result (TokenSession.createCookies sealing_manager
                     (Some {| accessToken := Examples.alice;
                              refreshToken := Examples.alice_refresh |}) tt) = Returned _)
    as Hcs by (vm_compute; reflexivity).
  edestruct (issued_refresh_cookie_refreshes sealing_manager
               {| accessToken := Examples.alice; refreshToken := Examples.alice_refresh |}
               {| req_url := Examples.example_url;
                  req_cookies := {[ "refresh-token" := "hdr..iv.refresh.tag" ]} |}
               _ (VObj [("rid", VStr "r1"); ("iat", VNum 1700000000);
                        ("exp", VNum 1700604800);
                        ("jti", VStr "00000000-0000-4000-8000-000000000000")])
               eq_refl Hcs) as (c & rest & Hl & Hc).
  - intros v Hv. vm_compute in Hv. injection Hv as <-.
    split; [discriminate|vm_compute; reflexivity].
  - reflexivity.
  - intros c Hc. vm_compute in Hc. injection Hc as <-. vm_compute. reflexivity.
  - vm_compute. reflexivity.
  - vm_compute in Hl. injection Hl as <-. exists rest. exact Hc.
Defined.

Lemma cookie_and_token_witness :
  ∃ cs,
    result (TokenSession.createCookies Examples.manager Examples.new_session tt) = Returned cs ∧
    Forall2 (λ ev c, ∃ p, ev = Call_encode p ∧
                       TokenSession.encode Examples.manager p = Returned (value_ c) ∧
                       enc_secret p = "s3cret" ∧ enc_maxAge p = maxAge (options c))
      (calls (TokenSession.createCookies Examples.manager Examples.new_session tt)) cs.
Proof.
  eexists. split; [vm_compute; reflexivity|].
  apply (cookie_and_token_expire_together Examples.manager Examples.new_session).
  vm_compute. reflexivity.
Defined.

(** ** The token codec *)

Section CodecProperties.
Variable E : Jwt.Externals.

(** X6.  A token [encode] returned was encrypted under the key derived
    from the secret, with the payload defaulting to the empty object, the
    expiry set to the current time plus the max-age (30 days when none is
    given) and a fresh identifier; [decode] with the same secret hands that
    token to [jwtDecrypt] under the same key, with a clock tolerance of 15
    seconds, and returns the payload of its result. *)
Theorem encoded_token_decodes_under_same_key (params : JWTEncodeParams) (t : string) :
  Jwt.encode E params = Returned t →
  ∃ key,
    Jwt.hkdf E "sha256" (enc_secret params) "" "Aponia Auth" 32 = Returned key ∧
    Jwt.encryptJWT E (default (VObj []) (enc_token params))
      (Jwt.now E + default 2592000 (enc_maxAge params))%Z (Jwt.randomUUID E) key
      = Returned t ∧
    Jwt.decode E {| dec_token := Some t; dec_secret := enc_secret params |} =
    match Jwt.jwtDecrypt E t key 15 with
    | Returned r => Returned (payload r)
    | Thrown e => Thrown e
    end.
Proof.
  unfold Jwt.encode, Jwt.decode, Jwt.getDerivedEncryptionKey. cbn.
  destruct (Jwt.hkdf E _ _ _ _ _) as [key|e]; cbn; [|discriminate].
  intros Ht. exists key. repeat split. exact Ht.
Qed.

(** X7.  The clock of the codec is a signed 32-bit number of seconds: it
    is the number of whole seconds since the epoch until 2^31 seconds
    (January 2038), and from then until 2^32 seconds it is that number less
    2^32, a negative time. *)
Theorem now_wraps_to_int32 :
  (- 2 ^ 31 ≤ Jwt.now E < 2 ^ 31)%Z ∧
  ((0 ≤ Jwt.Date_now E < 2 ^ 31 * 1000)%Z → Jwt.now E = (Jwt.Date_now E / 1000)%Z) ∧
  ((2 ^ 31 * 1000 ≤ Jwt.Date_now E < 2 ^ 32 * 1000)%Z →
   Jwt.now E = (Jwt.Date_now E / 1000 - 2 ^ 32)%Z ∧ (Jwt.now E < 0)%Z).
Proof.
  unfold Jwt.now, Jwt.to_int32.
  split; [|split].
  - pose proof (Z.mod_pos_bound (Jwt.Date_now E ÷ 1000 + 2 ^ 31) (2 ^ 32)). lia.
  - intros H. rewrite Z.quot_div_nonneg by lia.
    assert (0 ≤ Jwt.Date_now E / 1000 < 2 ^ 31)%Z as Hq.
    { split; [apply Z.div_pos; lia|apply Z.div_lt_upper_bound; lia]. }
    rewrite Z.mod_small by lia. lia.
  - intros H. rewrite Z.quot_div_nonneg by lia.
    assert (2 ^ 31 ≤ Jwt.Date_now E / 1000 < 2 ^ 32)%Z as Hq.
    { split; [apply Z.div_le_lower_bound; lia|apply Z.div_lt_upper_bound; lia]. }
    replace (Jwt.Date_now E / 1000 + 2 ^ 31)%Z
      with ((Jwt.Date_now E / 1000 - 2 ^ 31) + 1 * 2 ^ 32)%Z by lia.
    rewrite Z.mod_add by lia. rewrite Z.mod_small by lia. lia.
Qed.

End CodecProperties.

Lemma encoded_token_witness :
  ∃ key,
    Jwt.hkdf Examples.externals "sha256" "s3cret" "" "Aponia Auth" 32 = Returned key ∧
    Jwt.encryptJWT Examples.externals Examples.alice (1700000000 + 3600)%Z
      "00000000-0000-4000-8000-000000000000" key = Returned "hdr..iv.alice.tag" ∧
    Jwt.decode Examples.externals
      {| dec_token := Some "hdr..iv.alice.tag"; dec_secret := "s3cret" |} =
    match Jwt.jwtDecrypt Examples.externals "hdr..iv.alice.tag" key 15 with
    | Returned r => Returned (payload r)
    | Thrown e => Thrown e
    end.
Proof.
  apply (encoded_token_decodes_under_same_key Examples.externals
           {| enc_token := Some Examples.alice; enc_secret := "s3cret";
              enc_maxAge := Some 3600%Z |}).
  vm_compute. reflexivity.
Defined.

(** ** The opaque-session manager *)

Section SessionProperties.
Import SessionManager.
Variable E : Jwt.Externals.
Variable parse : string → gmap string string.

(** X8.  [getSessionToken] gives the [sid] cookie of the request when it is
    not empty, and [null] when the request has no such cookie, an empty one
    or no cookie header: it never gives the empty string. *)
Theorem getSessionToken_never_empty (request : TokenSession.Request) :
  let sid := parse (default "" (TokenSession.cookie_header request)) !! "sid" in
  getSessionToken parse request ≠ Some "" ∧
  (∀ s, getSessionToken parse request = Some s ↔ sid = Some s ∧ s ≠ "") ∧
  (getSessionToken parse request = None ↔ sid = None ∨ sid = Some "").
Proof.
  cbv zeta. unfold getSessionToken, SESSION_COOKIE_NAME. cbv zeta.
  destruct (parse _ !! "sid") as [s|]; cbn [truthy_str].
  - destruct (String.eqb_spec s "") as [->|Hne]; cbn [negb].
    + split; [discriminate|]. split; [|split; auto].
      intros s. split; [discriminate|]. intros [[= <-] ?]. congruence.
    + split; [congruence|]. split.
      * intros s'. split; [intros [= <-]; auto|intros [? _]; assumption].
      * split; [discriminate|]. intros [[=]|[= ?]]. congruence.
  - split; [discriminate|]. split; [|split; auto].
    intros s. split; [discriminate|]. intros [[=] _].
Qed.

(** X9.  A session manager constructed without a [jwt] configuration issues
    its session tokens with the codec of the library under the empty
    secret, expiring 30 days from now; with a configuration it passes that
    configuration's secret and max-age to the configured encoder, or to the
    codec of the library when none is configured.  In both cases the
    encoder is called once, on the session as payload. *)
Theorem session_token_defaults (config : SessionManagerConfig) (session : value) :
  let this := constructor E config in
  let x := createSessionToken this session tt in
  (smc_jwt config = None →
   calls x = [Call_encode {| enc_token := Some session; enc_secret := "";
                             enc_maxAge := None |}] ∧
   result x =
   match Jwt.hkdf E "sha256" "" "" "Aponia Auth" 32 with
   | Returned key =>
       Jwt.encryptJWT E session (Jwt.now E + 2592000)%Z (Jwt.randomUUID E) key
   | Thrown e => Thrown e
   end) ∧
  (∀ j, smc_jwt config = Some j →
   let p := {| enc_token := Some session; enc_secret := jc_secret j;
               enc_maxAge := jc_maxAge j |} in
   calls x = [Call_encode p] ∧
   result x = default (Jwt.encode E) (jc_encode j) p).
Proof.
  cbv zeta. unfold createSessionToken. rewrite bind_run, call_run.
  split.
  - intros Hn. unfold constructor, token_params. rewrite Hn. cbn.
    unfold Jwt.encode, Jwt.getDerivedEncryptionKey. cbn.
    destruct (Jwt.hkdf E _ _ _ _ _) as [key|e]; cbn; [|auto].
    destruct (Jwt.encryptJWT E _ _ _ _); auto.
  - intros j Hj. unfold constructor, token_params. rewrite Hj. cbn.
    destruct (default (Jwt.encode E) (jc_encode j) _); auto.
Qed.

End SessionProperties.

(** ** A manager as its constructor builds it *)

Section ConstructedManager.
Import TokenSession.
Variable E : Jwt.Externals.
Variable createCookiesOptions : option bool → CookiesOptions.

(** X10.  For a manager built by the constructor, every cookie
    [createCookies] issues is encoded under the configured secret (also
    when the [jwt] option names another one, which the constructor
    overrides), by the configured encoder or else the codec of the library;
    the access cookie and its token live for the configured max-age or one
    hour, the refresh cookie and its token for the configured max-age or
    seven days; the cookies are named by the cookie options for the
    configured [useSecureCookies]. *)
Theorem constructed_manager_defaults
    (config : TokenSessionConfig) (newSession : NewSession) (cs : list Cookie) :
  let this := constructor E createCookiesOptions config in
  let opts := createCookiesOptions (cfg_useSecureCookies config) in
  result (createCookies this newSession tt) = Returned cs →
  jwt_secret (jwt this) = Some (cfg_secret config) ∧
  Forall2 (λ ev c, ∃ p,
             ev = Call_encode p ∧ enc_secret p = cfg_secret config ∧
             default (Jwt.encode E) (cfg_jwt config ≫= jwt_encode) p = Returned (value_ c) ∧
             maxAge (options c) = enc_maxAge p ∧
             ((name c = co_name (ck_accessToken opts) ∧
               enc_maxAge p = Some (default 3600%Z (cfg_maxAge config ≫= pma_accessToken))) ∨
              (name c = co_name (ck_refreshToken opts) ∧
               enc_maxAge p = Some (default 604800%Z (cfg_maxAge config ≫= pma_refreshToken)))))
    (calls (createCookies this newSession tt)) cs.
Proof.
  cbv zeta. rewrite createCookies_run. intros H. split; [reflexivity|]. revert H.
  destruct (truthy (opt_accessToken newSession)), (truthy (opt_refreshToken newSession));
    repeat (match goal with |- context [encode ?t ?p] =>
              destruct (encode t p) eqn:? end);
    cbn; intros [= <-]; repeat constructor; eexists;
    (split; [reflexivity|]); (split; [reflexivity|]); (split; [eassumption|]);
    (split; [reflexivity|]); cbn; auto.
Qed.

End ConstructedManager.

Lemma constructed_manager_witness :
  TokenSession.jwt_secret (TokenSession.jwt Examples.manager) = Some "s3cret" ∧
  Forall2 (λ ev c, ∃ p,
             ev = Call_encode p ∧ enc_secret p = "s3cret" ∧
             Jwt.encode Examples.externals p = Returned (value_ c) ∧
             maxAge (options c) = enc_maxAge p ∧
             ((name c = "access-token" ∧ enc_maxAge p = Some 3600%Z) ∨
              (name c = "refresh-token" ∧ enc_maxAge p = Some 604800%Z)))
    (calls (TokenSession.createCookies Examples.manager Examples.new_session tt))
    [TokenSession.access_cookie Examples.manager "hdr..iv.alice.tag";
     TokenSession.refresh_cookie Examples.manager "hdr..iv.refresh.tag"].
Proof.
  apply (constructed_manager_defaults Examples.externals Examples.createCookiesOptions
           Examples.config Examples.new_session).
  vm_compute. reflexivity.
Defined.

(** ** Objects and URL parameters after spreads *)

Lemma obj_get_filter_ne (k k' : string) (l : list (string * value)) :
  k ≠ k' → obj_get k (filter (λ p, negb (String.eqb p.1 k')) l) = obj_get k l.
Proof.
  intros Hne. induction l as [|[k0 v0] l IH]; [reflexivity|].
  rewrite filter_cons. cbn.
  destruct (String.eqb_spec k0 k') as [->|Hk0]; cbn.
  - destruct (String.eqb_spec k' k) as [->|_]; [contradiction|].
    rewrite decide_False by auto. exact IH.
  - rewrite decide_True by auto. cbn. rewrite IH. reflexivity.
Qed.

Lemma obj_get_set_eq (k : string) (v : value) (l : list (string * value)) :
  obj_get k (entries_set k v l) = v.
Proof.
  induction l as [|[k0 v0] l IH]; cbn.
  - rewrite String.eqb_refl. reflexivity.
  - destruct (String.eqb_spec k0 k) as [->|Hne]; cbn.
    + rewrite String.eqb_refl. reflexivity.
    + destruct (String.eqb_spec k0 k); [contradiction|]. exact IH.
Qed.

Lemma obj_get_set_ne (k k' : string) (v : value) (l : list (string * value)) :
  k ≠ k' → obj_get k (entries_set k' v l) = obj_get k l.
Proof.
  intros Hne. induction l as [|[k0 v0] l IH]; cbn.
  - destruct (String.eqb_spec k' k); [congruence|reflexivity].
  - destruct (String.eqb_spec k0 k') as [->|Hk0]; cbn.
    + destruct (String.eqb_spec k' k); [congruence|]. apply obj_get_filter_ne, Hne.
    + destruct (String.eqb_spec k0 k); [reflexivity|exact IH].
Qed.

Lemma last_string_filter_eq (k : string) (l : list (string * value)) :
  last_string k (filter (λ p, negb (String.eqb p.1 k)) l) = None.
Proof.
  induction l as [|[k0 v0] l IH]; [reflexivity|].
  rewrite filter_cons. cbn.
  destruct (String.eqb_spec k0 k) as [->|Hk0]; cbn.
  - rewrite decide_False by auto. exact IH.
  - rewrite decide_True by auto. cbn. rewrite IH.
    destruct (String.eqb_spec k0 k); [contradiction|reflexivity].
Qed.

Lemma last_string_filter_ne (k k' : string) (l : list (string * value)) :
  k ≠ k' → last_string k (filter (λ p, negb (String.eqb p.1 k')) l) = last_string k l.
Proof.
  intros Hne. induction l as [|[k0 v0] l IH]; [reflexivity|].
  rewrite filter_cons. cbn.
  destruct (String.eqb_spec k0 k') as [->|Hk0]; cbn.
  - rewrite decide_False by auto. rewrite IH.
    destruct (String.eqb_spec k' k); [congruence|].
    destruct (last_string k l); reflexivity.
  - rewrite decide_True by auto. cbn. rewrite IH. reflexivity.
Qed.

Lemma last_string_set_eq (k s : string) (l : list (string * value)) :
  last_string k (entries_set k (VStr s) l) = Some s.
Proof.
  induction l as [|[k0 v0] l IH]; cbn.
  - rewrite String.eqb_refl. reflexivity.
  - destruct (String.eqb_spec k0 k) as [->|Hne]; cbn.
    + rewrite last_string_filter_eq, String.eqb_refl. reflexivity.
    + rewrite IH. reflexivity.
Qed.

Lemma last_string_set_ne (k k' : string) (v : value) (l : list (string * value)) :
  k ≠ k' → last_string k (entries_set k' v l) = last_string k l.
Proof.
  intros Hne. induction l as [|[k0 v0] l IH]; cbn.
  - destruct (String.eqb_spec k' k); [congruence|reflexivity].
  - destruct (String.eqb_spec k0 k') as [->|Hk0]; cbn.
    + rewrite last_string_filter_ne by exact Hne.
      destruct (String.eqb_spec k' k); [congruence|].
      destruct (last_string k l); reflexivity.
    + rewrite IH. reflexivity.
Qed.

(** Reading a parameter after [set_string_params]. *)
Lemma sp_get_set_string_params (k : string) (params : Obj) (u : URL) :
  sp_get k (searchParams (set_string_params params u)) =
  match last_string k params with
  | Some s => Some s
  | None => sp_get k (searchParams u)
  end.
Proof.
  unfold set_string_params. revert u.
  induction params as [|[k0 v0] params IH]; intros u; [reflexivity|].
  cbn [foldl fst snd last_string]. rewrite IH.
  destruct (last_string k params); [reflexivity|].
  destruct (String.eqb_spec k0 k) as [->|Hne].
  - destruct v0; try reflexivity. rewrite searchParams_url_set. apply sp_get_set_eq.
  - destruct v0; try reflexivity. rewrite searchParams_url_set.
    apply sp_get_set_ne. congruence.
Qed.

(** ** The OAuth provider: merged options and the login URL *)

Section OAuthMergedLogin.
Import OAuth.
Variable L : Lib.
Variable ck : Checks OAuthProvider.
Variable createCookiesOptions : option bool → CookiesOptions.

(** The parameters of the login URL that [login] does not write are those
    of the configured endpoint. *)
Lemma login_other_params request this response :
  result (login L ck request this) = Returned response →
  ∃ url0 url,
    URL_new L (ep_url (ep_authorization (endpoints this))) = Returned url0 ∧
    redirect response = Some (URL_toString L url) ∧
    ∀ k, k ∉ login_params →
      sp_get k (searchParams url) =
      sp_get k (searchParams
                  (set_string_params
                     (default [] (ep_params (ep_authorization (endpoints this)))) url0)).
Proof.
  intros H.
  destruct (login L ck request this) as [[r pf] l] eqn:Hx. cbn in H. subst r.
  unfold login in Hx. invert_full Hx.
  repeat match goal with
         | E : login_check _ _ _ _ _ _ = _ |- _ => apply login_check_returned in E
         end.
  match goal with
  | E : URL_new L (ep_url (ep_authorization (endpoints ?t))) = Returned ?u |- _ =>
      rename t into this0; rename u into url0
  end.
  set (configured := set_string_params _ _) in *.
  eexists url0, _. split; [assumption|]. split; [reflexivity|].
  intros k Hk. unfold login_params in Hk.
  rewrite !not_elem_of_cons in Hk. destruct Hk as (K1 & K2 & K3 & K4 & K5 & _).
  destruct E0 as [[H1 ->]|[H1 (v1 & c1 & Hc1 & ->)]];
  destruct E1 as [[H2 ->]|[H2 (v2 & c2 & Hc2 & ->)]];
  destruct E2 as [[H3 ->]|[H3 (v3 & c3 & Hc3 & ->)]];
    cbn [fst snd]; cbn zeta;
    destruct (sp_has "redirect_uri" _); cbn [negb]; sp_simpl; reflexivity.
Qed.

(** X11.  Whatever the user's and the provider's [client] objects and
    endpoint options say, the merged options carry the user's client id and
    secret in [client], and [client_id] and [response_type=code] among the
    authorization parameters; the other authorization parameters are those
    of the provider's defaults, so parameters the user gives for the
    authorization endpoint are dropped; and the JWT secret is empty. *)
Theorem mergeOAuthOptions_forces_credentials
    (userOptions : OAuthUserConfig) (defaultOptions : OAuthDefaultConfig) :
  let c := mergeOAuthOptions createCookiesOptions userOptions defaultOptions in
  let params := default [] (ep_params (ep_authorization (c_endpoints c))) in
  let defaults :=
    default [] (ep_params (ep_authorization (d_endpoints defaultOptions))) in
  obj_get "client_id" (c_client c) = VStr (u_clientId userOptions) ∧
  obj_get "client_secret" (c_client c) = VStr (u_clientSecret userOptions) ∧
  obj_get "client_id" params = VStr (u_clientId userOptions) ∧
  obj_get "response_type" params = VStr "code" ∧
  (∀ k, k ≠ "client_id" → k ≠ "response_type" → obj_get k params = obj_get k defaults) ∧
  jwt_secret (c_jwt c) = "".
Proof.
  cbv zeta. unfold mergeOAuthOptions. cbv zeta.
  cbn [c_client c_endpoints c_jwt jwt_secret ep_authorization].
  assert (∀ dflt e url params,
            ep_params (endpoint_merge dflt e url params) = params) as Hp.
  { intros ? [[]|] ? ?; reflexivity. }
  rewrite Hp. cbn [default from_option Datatypes.id]. unfold spread. cbn [foldl fst snd].
  split; [rewrite obj_get_set_ne by discriminate; apply obj_get_set_eq|].
  split; [apply obj_get_set_eq|].
  split; [rewrite obj_get_set_ne by discriminate; apply obj_get_set_eq|].
  split; [apply obj_get_set_eq|].
  split; [|reflexivity].
  intros k K1 K2. rewrite !obj_get_set_ne by congruence. reflexivity.
Qed.

(** X12.  A provider built from merged options identifies its client at
    login: when [login] returns, the URL it redirects to has the user's
    client id as [client_id] and [code] as [response_type], also when the
    endpoint URL or the provider's default parameters name other values. *)
Theorem merged_login_identifies_client
    (userOptions : OAuthUserConfig) (defaultOptions : OAuthDefaultConfig)
    (request : InternalRequest) (response : InternalResponse) :
  let this :=
    constructor (mergeOAuthOptions createCookiesOptions userOptions defaultOptions) in
  result (login L ck request this) = Returned response →
  ∃ url,
    redirect response = Some (URL_toString L url) ∧
    sp_get "client_id" (searchParams url) = Some (u_clientId userOptions) ∧
    sp_get "response_type" (searchParams url) = Some "code".
Proof.
  cbv zeta. intros H.
  apply login_other_params in H as (url0 & url & _ & Hr & Hk).
  exists url. split; [exact Hr|].
  assert (∀ dflt e u params,
            ep_params (endpoint_merge dflt e u params) = params) as Hp.
  { intros ? [[]|] ? ?; reflexivity. }
  cbn [constructor endpoints mergeOAuthOptions c_endpoints ep_authorization] in Hk.
  rewrite Hp in Hk. cbn [default from_option Datatypes.id] in Hk.
  unfold spread in Hk. cbn [foldl fst snd] in Hk.
  split.
  - rewrite Hk by (unfold login_params; rewrite !not_elem_of_cons;
                   repeat split; try discriminate; apply not_elem_of_nil).
    rewrite sp_get_set_string_params, last_string_set_ne by discriminate.
    rewrite last_string_set_eq. reflexivity.
  - rewrite Hk by (unfold login_params; rewrite !not_elem_of_cons;
                   repeat split; try discriminate; apply not_elem_of_nil).
    rewrite sp_get_set_string_params, last_string_set_eq. reflexivity.
Qed.

(** X13.  [login] writes no URL parameter besides [state],
    [code_challenge], [code_challenge_method], [nonce] and [redirect_uri]:
    when it returns, every other parameter of the redirect URL has the last
    string value the endpoint's [params] give it, or else the value it has
    in the endpoint URL. *)
Theorem login_writes_only_login_params
    (request : InternalRequest) (this : OAuthProvider) (response : InternalResponse) :
  result (login L ck request this) = Returned response →
  ∃ url0 url,
    URL_new L (ep_url (ep_authorization (endpoints this))) = Returned url0 ∧
    redirect response = Some (URL_toString L url) ∧
    ∀ k, k ∉ login_params →
      sp_get k (searchParams url) =
      match last_string k (default [] (ep_params (ep_authorization (endpoints this)))) with
      | Some s => Some s
      | None => sp_get k (searchParams url0)
      end.
Proof.
  intros H. apply login_other_params in H as (url0 & url & Hu & Hr & Hk).
  exists url0, url. split; [exact Hu|]. split; [exact Hr|].
  intros k Hnot. rewrite (Hk k Hnot). apply sp_get_set_string_params.
Qed.

End OAuthMergedLogin.

Lemma merged_login_witness :
  ∃ response url,
    result (OAuth.login Examples.lib (Examples.checks_for OAuth.cookies_)
              Examples.login_request (Examples.github (Some [state]))) = Returned response ∧
    redirect response = Some (URL_toString Examples.lib url) ∧
    sp_get "client_id" (searchParams url) = Some "client-1" ∧
    sp_get "response_type" (searchParams url) = Some "code".
Proof.
  eassert (result (OAuth.login Examples.lib (Examples.checks_for OAuth.cookies_)
                     Examples.login_request (Examples.github (Some [state]))) = Returned _)
    as H by (vm_compute; reflexivity).
  destruct (merged_login_identifies_client Examples.lib (Examples.checks_for OAuth.cookies_)
              Examples.createCookiesOptions (Examples.github_user (Some [state]))
              Examples.github_defaults Examples.login_request _ H) as (url & Hu).
  eexists _, url. split; [exact H|exact Hu].
Defined.

Lemma login_writes_only_witness :
  ∃ response url0 url,
    result (OAuth.login Examples.lib (Examples.checks_for OAuth.cookies_)
              Examples.login_request (Examples.github (Some [state]))) = Returned response ∧
    URL_new Examples.lib "https://github.com/login/oauth/authorize" = Returned url0 ∧
    redirect response = Some (URL_toString Examples.lib url) ∧
    ∀ k, k ∉ login_params →
      sp_get k (searchParams url) =
      match last_string k [("client_id", VStr "client-1"); ("response_type", VStr "code")] with
      | Some s => Some s
      | None => sp_get k (searchParams url0)
      end.
Proof.
  eassert (result (OAuth.login Examples.lib (Examples.checks_for OAuth.cookies_)
                     Examples.login_request (Examples.github (Some [state]))) = Returned _)
    as H by (vm_compute; reflexivity).
  destruct (login_writes_only_login_params Examples.lib (Examples.checks_for OAuth.cookies_)
              Examples.login_request _ _ H) as (url0 & url & Hu).
  eexists _, url0, url. split; [exact H|exact Hu].
Defined.

(** ** The OAuth provider: the callback *)

Lemma calls_bind_forall {S A B} (P : event → Prop) (m : M S A) (f : A → M S B) (s : S) :
  Forall P (calls (m s)) →
  (∀ a s1 l1, m s = (Returned a, s1, l1) → Forall P (calls (f a s1))) →
  Forall P (calls ((m ≫= f) s)).
Proof.
  intros Hm Hf. rewrite bind_run.
  destruct (m s) as [[[a|e] s1] l1]; [|exact Hm].
  specialize (Hf a s1 l1 eq_refl). destruct (f a s1) as [[r s2] l2].
  apply Forall_app. split; assumption.
Qed.

(** One logged call followed by the rest of the method. *)
Ltac one_call :=
  apply calls_bind_forall;
  [unfold call; cbn; apply Forall_singleton; cbn; eauto|].

Section OAuthCallback.
Import OAuth.
Variable L : Lib.
Variable ck : Checks OAuthProvider.


(** X15.  Whatever its outcome, [callback] uses no check but state and
    pkce (never nonce) and creates none; it validates the response against
    the state that the state check recovered; a token request carries the
    request's origin followed by the callback page as redirect URI and the
    verifier that the pkce check recovered; [conform] is called only when
    the token endpoint has one; [onAuth] is called only on a truthy
    profile; and it calls neither the token codec, the discovery request,
    the OpenID response processing nor the session hooks. *)
Theorem oauth_callback_calls (request : InternalRequest) (this : OAuthProvider) :
  Forall (λ ev,
            match ev with
            | Call_check_use c => c = state ∨ c = pkce
            | Call_validateAuthResponse st =>
                ∃ c, use ck state request this = Returned (st, c)
            | Call_authorizationCodeGrantRequest uri v =>
                uri = origin (req_url request) +:+ pg_callback (pages this) ∧
                ∃ c, use ck pkce request this = Returned (v, c)
            | Call_conform => is_Some (ep_conform (ep_token (endpoints this)))
            | Call_onAuth profile => truthy profile = true
            | Call_processAuthorizationCodeOAuth2Response | Call_userinfo => True
            | _ => False
            end)
    (calls (callback L ck request this)).
Proof.
  unfold callback. rewrite get_bind_run.
  one_call. intros [st sc] ? ? E. unfold call in E. injection E as E <- _.
  one_call. intros [err|params] ? ? _; [constructor|].
  one_call. intros [pk pc] ? ? E1. unfold call in E1. injection E1 as E1 <- _.
  one_call. intros resp0 ? ? _.
  apply calls_bind_forall.
  { destruct (ep_conform (ep_token (endpoints this))) as [conform|] eqn:Hc;
      [|constructor].
    one_call. intros; constructor. }
  intros resp ? ? _.
  destruct (parseWwwAuthenticateChallenges L resp); [constructor|].
  one_call. intros [e|tokens] ? ? _; [constructor|]. cbv zeta.
  apply calls_bind_forall.
  { destruct (ep_request (ep_userinfo (endpoints this))) as [hook|].
    - one_call. intros [profile|] ? ? _; [constructor|].
      unfold call; cbn. apply Forall_singleton. exact I.
    - unfold call; cbn. apply Forall_singleton. exact I. }
  intros profile ? ? _.
  destruct (truthy profile) eqn:Ht; cbn [negb]; [|constructor].
  one_call. intros; constructor.
Qed.

End OAuthCallback.


(** ** The OpenID Connect provider: the callback *)

Section OIDCCallback.
Import OIDC OIDCFrame.
Variable L : Lib.
Variable ck : Checks OIDCProvider.

Lemma oidc_callback_body_calls request p :
  Forall (oidc_callback_call ck request p) (calls (callback_body L ck request p)).
Proof.
  unfold callback_body. rewrite get_bind_run.
  one_call. intros [st sc] ? ? E. unfold call in E. injection E as E <- _.
  one_call. intros [err|params] ? ? _; [constructor|].
  one_call. intros [pk pc] ? ? E1. unfold call in E1. injection E1 as E1 <- _.
  one_call. intros resp0 ? ? _.
  apply calls_bind_forall.
  { destruct (fl_token (oauthFlow p) ≫= tk_conform); [|constructor].
    unfold call; cbn. apply Forall_singleton. exact I. }
  intros resp ? ? _.
  destruct (parseWwwAuthenticateChallenges L resp); [constructor|].
  one_call. intros [nc ncc] ? ? E2. unfold call in E2. injection E2 as E2 <- _.
  one_call. intros [e|r] ? ? _; [constructor|].
  apply calls_bind_forall.
  { destruct (f_profile (config p)); [|constructor].
    unfold call; cbn. apply Forall_singleton. exact I. }
  intros; constructor.
Qed.


Lemma oidc_callback_calls_all request p :
  Forall (λ ev, (∃ i, ev = Call_discovery i) ∨
                oidc_callback_call ck request (final (ensure_initialized L p)) ev)
    (calls (callback L ck request p)).
Proof.
  rewrite callback_run.
  pose proof (ensure_initialized_calls L p) as Hi.
  destruct (ensure_initialized L p) as [[[[]|e] p1] l1]; cbn in Hi |- *.
  - apply Forall_app. split.
    + eapply Forall_impl; [exact Hi|]. intros ? ?. left. assumption.
    + eapply Forall_impl; [apply oidc_callback_body_calls|]. intros ? ?. right. assumption.
  - eapply Forall_impl; [exact Hi|]. intros ? ?. left. assumption.
Qed.

(** X17.  The OIDC provider never calls its [onAuth] hook, the userinfo
    request or the token codec.  Whatever its outcome, [signIn] calls
    nothing but the discovery request and the creation of checks, and
    [callback] nothing but the discovery request and, on the provider as
    initialization left it, the check uses, the validation against the
    recovered state, the token request, [conform], the processing of the
    OpenID response with the recovered nonce and the profile hook. *)
Theorem oidc_provider_calls (request : InternalRequest) (p : OIDCProvider) :
  Forall (λ ev, (∃ i, ev = Call_discovery i) ∨ (∃ c, ev = Call_check_create c))
    (calls (signIn L ck request p)) ∧
  Forall (λ ev, (∃ i, ev = Call_discovery i) ∨
                oidc_callback_call ck request (final (ensure_initialized L p)) ev)
    (calls (callback L ck request p)) ∧
  existsb is_onAuth (calls (signIn L ck request p)) = false ∧
  existsb is_onAuth (calls (callback L ck request p)) = false.
Proof.
  assert (Forall (λ ev, (∃ i, ev = Call_discovery i) ∨ (∃ c, ev = Call_check_create c))
            (calls (signIn L ck request p))) as Hs.
  { assert (only_calls
              (λ ev, (∃ i, ev = Call_discovery i) ∨ (∃ c, ev = Call_check_create c))
              (signIn L ck request)) as Hm; [|apply Hm].
    unfold signIn, ensure_initialized, initialize, initializeAuthorizationServer, url_or,
      signIn_body, signIn_state, signIn_pkce, signIn_nonce, signIn_redirect_uri,
      signIn_scope, authorization_url.
    repeat first [ frame_step | left; eexists; reflexivity | right; eexists; reflexivity ]. }
  pose proof (oidc_callback_calls_all request p) as Hc.
  split; [exact Hs|]. split; [exact Hc|].
  split; apply Forall_existsb_false.
  - eapply Forall_impl; [exact Hs|]. intros ? [[? ->]|[? ->]]; reflexivity.
  - eapply Forall_impl; [exact Hc|]. intros [] [[? [=]]|H]; try reflexivity;
      try contradiction.
Qed.

End OIDCCallback.


(** ** The OpenID Connect provider: initialization *)

Lemma keeps_on_throw_bind {S A B} (R : relation S) `{!PreOrder R}
    (m : M S A) (f : A → M S B) :
  preserves R m → (∀ a, keeps_on_throw R (f a)) → keeps_on_throw R (m ≫= f).
Proof.
  intros Hm Hf s. rewrite bind_run. specialize (Hm s).
  destruct (m s) as [[[a|e] s1] l1]; cbn in *; [|exact Hm].
  specialize (Hf a s1). destruct (f a s1) as [[[b|e] s2] l2]; cbn in *; [exact I|].
  etrans; eassumption.
Qed.

Lemma keeps_on_throw_throw {S A} (R : relation S) `{!PreOrder R} (e : exn) :
  keeps_on_throw R (throw e : M S A).
Proof. intros s. cbn. reflexivity. Qed.

Section OIDCInitialization.
Import OIDC OIDCFrame.
Variable L : Lib.
Variable ck : Checks OIDCProvider.

#[local] Instance flow_kept_preorder : PreOrder flow_kept.
Proof.
  split.
  - intros p. split; reflexivity.
  - intros p q r [H1 H2] [H3 H4]. split; congruence.
Qed.

#[local] Instance server_kept_preorder : PreOrder server_kept.
Proof.
  split.
  - intros p. split; reflexivity.
  - intros p q r [H1 H2] [H3 H4]. split; congruence.
Qed.

Lemma initialize_keeps_flow_on_throw : keeps_on_throw flow_kept (initialize L).
Proof.
  unfold initialize.
  apply keeps_on_throw_bind; [exact _| |intros _].
  { unfold initializeAuthorizationServer.
    repeat first [ frame_step | apply preserves_modify; intros ?; split; reflexivity ]. }
  apply keeps_on_throw_bind; [exact _|apply preserves_get; exact _|intros this].
  apply keeps_on_throw_bind; [exact _| |intros [authorizationUrl|]].
  { unfold url_or. repeat frame_step. }
  2:{ apply keeps_on_throw_throw; exact _. }
  cbv zeta.
  apply keeps_on_throw_bind; [exact _| |intros [tokenUrl|]].
  { unfold url_or. repeat frame_step. }
  2:{ apply keeps_on_throw_throw; exact _. }
  apply keeps_on_throw_bind; [exact _|apply preserves_lift; exact _|intros userinfoUrl].
  intros s. cbn. exact I.
Qed.

(** X18.  An initialization that throws leaves the provider uninitialized
    and without the endpoints a login needs, so that the next login or
    callback runs the initialization again; it changes nothing but the
    server metadata. *)
Theorem failed_initialization_is_retried (p : OIDCProvider) (e : exn) :
  result (ensure_initialized L p) = Thrown e →
  let p' := final (ensure_initialized L p) in
  initialized p = false ∧ initialized p' = false ∧ oauthFlow p' = oauthFlow p ∧
  init_frame p p' ∧
  ensure_initialized L p' = initialize L p'.
Proof.
  intros H. cbv zeta.
  destruct (initialized p) eqn:Hi.
  { rewrite ensure_initialized_noop in H by exact Hi. discriminate H. }
  pose proof (ensure_initialized_frame L p) as Hfr.
  assert (ensure_initialized L p = initialize L p) as Heq.
  { unfold ensure_initialized. rewrite get_bind_run, Hi. reflexivity. }
  rewrite Heq in *.
  pose proof (initialize_keeps_flow_on_throw p) as Hk. rewrite H in Hk.
  destruct Hk as [Hk1 Hk2]. rewrite Hi in Hk1.
  split; [reflexivity|]. split; [exact Hk1|]. split; [exact Hk2|]. split; [exact Hfr|].
  unfold ensure_initialized. rewrite get_bind_run, Hk1. reflexivity.
Qed.

(** Without an issuer the initialization makes no call, and the server
    metadata it leaves announce no challenge method. *)
Lemma initialize_no_issuer (p : OIDCProvider) :
  truthy_str (f_issuer (config p)) = false →
  calls (initialize L p) = [] ∧
  issuer (authorizationServer (final (initialize L p))) = Some "authjs.dev" ∧
  supports_S256 (final (initialize L p)) = false.
Proof.
  intros Hi. unfold initialize. rewrite bind_run.
  assert (initializeAuthorizationServer L p =
          (Returned tt,
           set_authorizationServer
             {| issuer := Some "authjs.dev"; authorization_endpoint := None;
                token_endpoint := None; userinfo_endpoint := None;
                code_challenge_methods_supported := None |} p, [])) as ->.
  { unfold initializeAuthorizationServer. rewrite get_bind_run, Hi. reflexivity. }
  match goal with
  | |- context [(get ≫= ?f) ?s] =>
      assert (only_calls (λ _, False) (get ≫= f)) as Hc
        by (unfold url_or; repeat frame_step);
      assert (preserves server_kept (get ≫= f)) as Hp
        by (unfold url_or;
            repeat first [ frame_step | apply preserves_modify; intros ?; split; reflexivity ]);
      specialize (Hc s); specialize (Hp s);
      destruct ((get ≫= f) s) as [[r pf] l]
  end.
  cbn in *. destruct Hp as [Hp1 Hp2].
  split; [destruct Hc as [|? ? []]; reflexivity|].
  split; [exact Hp1|]. unfold supports_S256. rewrite Hp2. reflexivity.
Qed.

(** X19.  A provider without an issuer (none, or the empty string) is
    initialized without a discovery request or any other call; its server
    metadata name the issuer [authjs.dev] and no challenge method, so S256
    counts as unsupported; and the initialization returns only when the
    configuration gives the authorization endpoint, as a string or as the
    [url] of an object, and the token endpoint as a string. *)
Theorem initialize_without_issuer (p : OIDCProvider) :
  truthy_str (f_issuer (config p)) = false →
  let x := initialize L p in
  calls x = [] ∧
  issuer (authorizationServer (final x)) = Some "authjs.dev" ∧
  supports_S256 (final x) = false ∧
  (returns (result x) = true →
   (∃ s, f_authorization (config p) = EcString s ∨
         ∃ ps c, f_authorization (config p) = EcObject (Some s) ps c ∧ s ≠ "") ∧
   ∃ t, f_token (config p) = EcString t).
Proof.
  intros Hi. cbv zeta.
  destruct (initialize_no_issuer p Hi) as (H1 & H2 & H3).
  split; [exact H1|]. split; [exact H2|]. split; [exact H3|].
  intros Hr. destruct (initialize L p) as [[[[]|e] pf] l] eqn:Hx; [|discriminate Hr].
  clear Hr H1 H2 H3. unfold initialize, initializeAuthorizationServer in Hx.
  rewrite bind_run, get_bind_run, Hi in Hx. cbn [negb] in Hx.
  unfold modify at 1 in Hx. rewrite get_bind_run in Hx.
  cbn [config set_authorizationServer authorizationServer authorization_endpoint
       token_endpoint] in Hx.
  unfold url_or in Hx. cbn [truthy_str] in Hx.
  match type of Hx with
  | match ?t with _ => _ end = _ => destruct t as [[[[]|?] ?] ?] eqn:Hy; [|discriminate Hx]
  end.
  clear Hx. invert_full Hy.
  repeat match goal with
         | E : (match ?t with _ => _ end) _ = (Returned _, _, _) |- _ =>
             destruct t eqn:?; invert_full E; simplify_eq
         end.
  - split; [|eexists; reflexivity]. eexists. left. reflexivity.
  - split; [|eexists; reflexivity].
    match goal with
    | H : truthy_str ?u = true |- _ => destruct u as [s|]; [|discriminate H]; cbn in H
    end.
    exists s. right. eexists _, _. split; [reflexivity|].
    intros ->. discriminate.
Qed.

End OIDCInitialization.

Lemma failed_initialization_witness :
  OIDC.initialized bare_provider = false ∧
  OIDC.initialized (final (OIDC.ensure_initialized Examples.lib bare_provider)) = false ∧
  OIDC.oauthFlow (final (OIDC.ensure_initialized Examples.lib bare_provider)) =
    OIDC.oauthFlow bare_provider ∧
  OIDCFrame.init_frame bare_provider
    (final (OIDC.ensure_initialized Examples.lib bare_provider)) ∧
  OIDC.ensure_initialized Examples.lib
    (final (OIDC.ensure_initialized Examples.lib bare_provider)) =
  OIDC.initialize Examples.lib (final (OIDC.ensure_initialized Examples.lib bare_provider)).
Proof.
  apply (failed_initialization_is_retried Examples.lib bare_provider
           (TypeError "Invalid authorization endpoint")).
  vm_compute. reflexivity.
Defined.

Lemma initialize_without_issuer_witness :
  calls (OIDC.initialize Examples.lib static_provider) = [] ∧
  issuer (OIDC.authorizationServer (final (OIDC.initialize Examples.lib static_provider)))
    = Some "authjs.dev" ∧
  OIDC.supports_S256 (final (OIDC.initialize Examples.lib static_provider)) = false ∧
  (returns (result (OIDC.initialize Examples.lib static_provider)) = true →
   (∃ s, OIDC.f_authorization (OIDC.config static_provider) = OIDC.EcString s ∨
         ∃ ps c, OIDC.f_authorization (OIDC.config static_provider)
                 = OIDC.EcObject (Some s) ps c ∧ s ≠ "") ∧
   ∃ t, OIDC.f_token (OIDC.config static_provider) = OIDC.EcString t).
Proof.
  apply (initialize_without_issuer Examples.lib static_provider).
  vm_compute. reflexivity.
Defined.

(** ** The OpenID Connect provider: endpoints, pages and repeated logins *)

Lemma last_string_spread_notin (k : string) (a b : list (string * value)) :
  k ∉ b.*1 → last_string k (spread a b) = last_string k a.
Proof.
  unfold spread. revert a. induction b as [|[k0 v0] b IH]; intros a Hk; [reflexivity|].
  cbn [foldl fst snd]. rewrite fmap_cons, not_elem_of_cons in Hk. destruct Hk as [Hne Hk].
  rewrite IH by exact Hk. apply last_string_set_ne. exact Hne.
Qed.

Section OIDCEndpoints.
Import OIDC OIDCFrame OIDCSetters.
Variable L : Lib.
Variable ck : Checks OIDCProvider.

#[local] Existing Instance init_frame_preorder.

Lemma initializeAuthorizationServer_frame :
  preserves init_frame (initializeAuthorizationServer L).
Proof.
  unfold initializeAuthorizationServer.
  repeat first [ frame_step | apply preserves_modify; intros ?; repeat split ].
Qed.

(** X20.  An initialization that returns stores the three endpoints of the
    flow and mirrors them in the server metadata: the authorization, token
    and userinfo endpoints of the metadata are the serializations of the
    stored URLs.  The stored authorization URL carries
    [response_type=code] and the configured client id (the empty string
    when none is configured) as [client_id], unless the configured
    authorization parameters name these keys.  [conform] is the one of a
    token endpoint configured as an object, and otherwise the identity. *)
Theorem initialization_mirrors_endpoints (p p' : OIDCProvider) (l : list event) :
  initialized p = false →
  ensure_initialized L p = (Returned tt, p', l) →
  let user_params :=
    match f_authorization (config p) with
    | EcObject _ (Some ps) _ => ps
    | _ => []
    end in
  ∃ aurl turl uurl,
    oauthFlow p' =
      {| fl_authorization := Some {| au_url := aurl |};
         fl_token :=
           Some {| tk_url := turl;
                   tk_conform :=
                     match f_token (config p) with
                     | EcObject _ _ conform => conform
                     | _ => Some (λ response, Returned response)
                     end |};
         fl_userinfo := Some {| ui_url := uurl |} |} ∧
    authorization_endpoint (authorizationServer p') = Some (URL_toString L aurl) ∧
    token_endpoint (authorizationServer p') = Some (URL_toString L turl) ∧
    userinfo_endpoint (authorizationServer p') = Some (URL_toString L uurl) ∧
    ("response_type" ∉ user_params.*1 →
     sp_get "response_type" (searchParams aurl) = Some "code") ∧
    ("client_id" ∉ user_params.*1 →
     sp_get "client_id" (searchParams aurl) = Some (default "" (f_clientId (config p)))).
Proof.
  intros Hi H. cbv zeta.
  unfold ensure_initialized in H. rewrite get_bind_run, Hi in H. cbn [negb] in H.
  unfold initialize in H.
  apply bind_returned_full in H as ([] & p1 & l1 & l2 & E & H & ->).
  assert (config p1 = config p) as Hcfg.
  { pose proof (initializeAuthorizationServer_frame p) as Hf. rewrite E in Hf. apply Hf. }
  clear E. invert_full H.
  all: repeat match goal with
         | E : (match ?t with _ => _ end) _ = (Returned _, _, _) |- _ =>
             destruct t eqn:?; unfold url_or in E; invert_full E; simplify_eq
         end.
  all: rewrite Hcfg in *.
  all: eexists _, _, _; cbn [oauthFlow set_initialized set_authorizationServer
         set_oauthFlow authorizationServer authorization_endpoint token_endpoint
         userinfo_endpoint].
  all: repeat match goal with
         | H : f_authorization (config _) = _ |- _ => rewrite H; clear H
         | H : f_token (config _) = _ |- _ => rewrite H; clear H
         end.
  all: split; [reflexivity|]; split; [reflexivity|]; split; [reflexivity|];
       split; [reflexivity|].
  all: split; intros Hn;
       rewrite sp_get_set_string_params, last_string_spread_notin by exact Hn;
       reflexivity.
Qed.

(** X21.  After [setPages] the provider's callback page is the given base
    path, or [/auth/callback], followed by the provider id, and login and
    callback agree on it: the [redirect_uri] that [signIn] writes, when the
    authorization URL has none, and the redirect URI of every token request
    of [callback] are both the request's origin followed by that page. *)
Theorem setPages_redirect_uri
    (pages_ : PartialPages) (p : OIDCProvider) (request : InternalRequest) :
  let p' := setPages pages_ p in
  let uri :=
    origin (req_url request) +:+
    (default "/auth/callback" (pp_callback pages_) +:+ "/" +:+ f_id (config p)) in
  (∀ response,
     result (signIn L ck request p') = Returned response →
     ∃ url1 url,
       flow_url (final (ensure_initialized L p')) = Some url1 ∧
       flow_url (final (signIn L ck request p')) = Some url ∧
       redirect response = Some (URL_toString L url) ∧
       (sp_has "redirect_uri" (searchParams url1) = false →
        sp_get "redirect_uri" (searchParams url) = Some uri)) ∧
  Forall (λ ev, ∀ u v, ev = Call_authorizationCodeGrantRequest u v → u = uri)
    (calls (callback L ck request p')).
Proof.
  cbv zeta. split.
  - intros response Hx.
    apply signIn_returned_inv in Hx as (p1 & l1 & l2 & Hi & Hb & _).
    pose proof (ensure_initialized_frame L (setPages pages_ p)) as Hfr.
    rewrite Hi in *. cbn in Hfr |- *.
    destruct (signIn_body_returned L ck _ _ _ _ _ Hb)
      as (_ & url1 & url & cs & Hu1 & Hu & Hred & _).
    destruct (signIn_body_redirect_uri L ck _ _ _ _ _ _ Hb Hu) as (url1' & Hu1' & Hr).
    rewrite Hu1 in Hu1'. injection Hu1' as <-.
    destruct Hfr as (_ & _ & _ & _ & _ & Hpages & _). rewrite Hpages in Hr.
    exists url1, url. split; [exact Hu1|]. split; [exact Hu|]. split; [exact Hred|].
    intros Hno. rewrite Hno in Hr. exact Hr.
  - eapply Forall_impl; [apply oidc_callback_calls_all|].
    pose proof (ensure_initialized_frame L (setPages pages_ p)) as Hfr.
    destruct Hfr as (_ & _ & _ & _ & _ & Hpages & _).
    intros ev [[i ->]|Hev] u v Heq; [discriminate Heq|subst ev].
    destruct Hev as [-> _]. rewrite Hpages. reflexivity.
Qed.

(** X22.  [signIn] writes no parameter of the authorization URL besides
    [state], [code_challenge], [code_challenge_method], [nonce],
    [redirect_uri] and [scope]: when it returns, every other parameter is as
    initialization left it, and [scope] is the scope the URL had, or
    [openid profile email] when it had none. *)
Theorem signIn_writes_only_login_params
    (request : InternalRequest) (p : OIDCProvider) (response : InternalResponse) :
  result (signIn L ck request p) = Returned response →
  ∃ url1 url,
    flow_url (final (ensure_initialized L p)) = Some url1 ∧
    flow_url (final (signIn L ck request p)) = Some url ∧
    redirect response = Some (URL_toString L url) ∧
    (∀ k, k ∉ login_params → k ≠ "scope" →
       sp_get k (searchParams url) = sp_get k (searchParams url1)) ∧
    sp_get "scope" (searchParams url) =
    if sp_has "scope" (searchParams url1)
    then sp_get "scope" (searchParams url1)
    else Some "openid profile email".
Proof.
  intros Hx.
  apply signIn_returned_inv in Hx as (p1 & l1 & l2 & Hi & Hb & _).
  rewrite Hi. cbn.
  destruct (signIn_body_returned L ck _ _ _ _ _ Hb)
    as (_ & url1 & url & cs & Hu1 & Hu & Hred & _).
  destruct (signIn_body_other_params L ck _ _ _ _ _ _ Hb Hu) as (url1' & Hu1' & Hk & Hs).
  rewrite Hu1 in Hu1'. injection Hu1' as <-.
  exists url1, url. auto.
Qed.

(** When [signIn] returns, the stored URL has a [redirect_uri], and the
    provider is initialized. *)
Lemma signIn_leaves_redirect_uri request p response :
  result (signIn L ck request p) = Returned response →
  ∃ url uri,
    flow_url (final (signIn L ck request p)) = Some url ∧
    redirect response = Some (URL_toString L url) ∧
    sp_get "redirect_uri" (searchParams url) = Some uri ∧
    initialized (final (signIn L ck request p)) = true.
Proof.
  intros H.
  apply signIn_returned_inv in H as (p1 & l1 & l2 & Hi & Hb & _).
  set (pf := final (signIn L ck request p)) in *.
  destruct (signIn_body_returned L ck _ _ _ _ _ Hb)
    as (_ & u0 & url & cs & Hu0 & Hu & Hred & _).
  destruct (signIn_body_redirect_uri L ck _ _ _ _ _ _ Hb Hu) as (u0' & Hu0' & Hr).
  rewrite Hu0 in Hu0'. injection Hu0' as <-.
  assert (∃ uri, sp_get "redirect_uri" (searchParams url) = Some uri) as [uri Huri].
  { destruct (sp_has "redirect_uri" (searchParams u0)) eqn:Hh; [|eauto].
    rewrite sp_has_get in Hh. apply bool_decide_eq_true in Hh as [uri Hh].
    exists uri. congruence. }
  exists url, uri. split; [exact Hu|]. split; [exact Hred|]. split; [exact Huri|].
  destruct (ensure_initialized_returned L _ _ _ Hi) as (Hp1 & _).
  pose proof (signIn_body_frame L ck request p1) as Hfr.
  rewrite Hb in Hfr. cbn in Hfr. destruct Hfr as [(Hfr & _) _]. congruence.
Qed.

(** [signIn] on an initialized provider whose stored URL has a
    [redirect_uri] keeps it. *)
Lemma signIn_keeps_redirect_uri request q u uri response :
  initialized q = true → flow_url q = Some u →
  sp_get "redirect_uri" (searchParams u) = Some uri →
  result (signIn L ck request q) = Returned response →
  ∃ url,
    flow_url (final (signIn L ck request q)) = Some url ∧
    redirect response = Some (URL_toString L url) ∧
    sp_get "redirect_uri" (searchParams url) = Some uri.
Proof.
  intros Hinit Hu Huri H.
  pose proof (ensure_initialized_noop L q Hinit) as Hn.
  apply signIn_returned_inv in H as (p2 & l1 & l2 & Hi & Hb & _).
  rewrite Hn in Hi. injection Hi as <- <-.
  destruct (signIn_body_returned L ck _ _ _ _ _ Hb)
    as (_ & u1 & url & cs & Hu1 & Hu2 & Hred & _).
  destruct (signIn_body_redirect_uri L ck _ _ _ _ _ _ Hb Hu2) as (u1' & Hu1' & Hr).
  rewrite Hu1 in Hu1'. injection Hu1' as <-.
  rewrite Hu in Hu1. injection Hu1 as <-.
  assert (sp_has "redirect_uri" (searchParams u) = true) as Hhas.
  { rewrite sp_has_get, Huri. reflexivity. }
  rewrite Hhas, Huri in Hr. exists url. auto.
Qed.

(** X23.  The authorization URL is kept between logins, so the
    [redirect_uri] of the first login stays: when two logins in a row
    return, the second runs no initialization and redirects with the same
    [redirect_uri] as the first, whatever the origin of its request. *)
Theorem signIn_keeps_first_redirect_uri
    (request1 request2 : InternalRequest) (p : OIDCProvider)
    (response1 response2 : InternalResponse) :
  let x1 := signIn L ck request1 p in
  let x2 := signIn L ck request2 (final x1) in
  result x1 = Returned response1 →
  result x2 = Returned response2 →
  ∃ url1 url2 uri,
    flow_url (final x1) = Some url1 ∧ flow_url (final x2) = Some url2 ∧
    redirect response1 = Some (URL_toString L url1) ∧
    redirect response2 = Some (URL_toString L url2) ∧
    sp_get "redirect_uri" (searchParams url1) = Some uri ∧
    sp_get "redirect_uri" (searchParams url2) = Some uri ∧
    ensure_initialized L (final x1) = (Returned tt, final x1, []).
Proof.
  cbv zeta. intros H1 H2.
  destruct (signIn_leaves_redirect_uri _ _ _ H1) as (url1 & uri & Hu1 & Hred1 & Huri & Hinit).
  destruct (signIn_keeps_redirect_uri _ _ _ _ _ Hinit Hu1 Huri H2)
    as (url2 & Hu2 & Hred2 & Huri2).
  exists url1, url2, uri. repeat (split; [assumption|]).
  apply ensure_initialized_noop, Hinit.
Qed.

(** X24.  [setPages] after a login does not reach the authorization URL:
    when a login returns, the pages are set and a second login returns,
    the second redirects with the [redirect_uri] of the first, built from
    the callback page of that time, while every token request of a
    callback carries the new callback page as redirect URI. *)
Theorem setPages_after_login_keeps_redirect_uri
    (request1 request2 : InternalRequest) (pages_ : PartialPages) (p : OIDCProvider)
    (response1 response2 : InternalResponse) :
  let x1 := signIn L ck request1 p in
  let q := setPages pages_ (final x1) in
  let x2 := signIn L ck request2 q in
  result x1 = Returned response1 →
  result x2 = Returned response2 →
  (∃ url1 url2 uri,
     redirect response1 = Some (URL_toString L url1) ∧
     redirect response2 = Some (URL_toString L url2) ∧
     sp_get "redirect_uri" (searchParams url1) = Some uri ∧
     sp_get "redirect_uri" (searchParams url2) = Some uri) ∧
  Forall (λ ev, ∀ u v,
            ev = Call_authorizationCodeGrantRequest u v →
            u = origin (req_url request2) +:+
                (default "/auth/callback" (pp_callback pages_) +:+ "/" +:+ f_id (config p)))
    (calls (callback L ck request2 q)).
Proof.
  cbv zeta. intros H1 H2.
  destruct (signIn_leaves_redirect_uri _ _ _ H1) as (url1 & uri & Hu1 & Hred1 & Huri & Hinit).
  set (pf := final (signIn L ck request1 p)) in *.
  assert (initialized (setPages pages_ pf) = true) as Hinit' by exact Hinit.
  assert (flow_url (setPages pages_ pf) = Some url1) as Hu1' by exact Hu1.
  destruct (signIn_keeps_redirect_uri _ _ _ _ _ Hinit' Hu1' Huri H2)
    as (url2 & Hu2 & Hred2 & Huri2).
  split; [exists url1, url2, uri; auto|].
  assert (f_id (config pf) = f_id (config p)) as Hid.
  { subst pf. rewrite signIn_run.
    pose proof (ensure_initialized_frame L p) as Hf1.
    destruct (ensure_initialized L p) as [[[[]|e] p1] l1]; cbn in Hf1 |- *.
    - pose proof (signIn_body_frame L ck request1 p1) as [Hf2 _].
      destruct Hf1 as (_ & Hc1 & _).
      destruct Hf2 as (_ & _ & _ & _ & _ & _ & _ & _ & _ & _ & Hc2 & _).
      apply (f_equal f_id) in Hc2. cbn in Hc2. rewrite Hc2, Hc1. reflexivity.
    - destruct Hf1 as (_ & Hc1 & _). rewrite Hc1. reflexivity. }
  eapply Forall_impl; [apply oidc_callback_calls_all|].
  rewrite (ensure_initialized_noop L _ Hinit'). cbn [final fst snd].
  intros ev [[i ->]|Hev] u v Heq; [discriminate Heq|subst ev].
  destruct Hev as [-> _]. cbn. rewrite Hid. reflexivity.
Qed.

End OIDCEndpoints.

Lemma initialization_mirrors_witness :
  let p' := final (OIDC.ensure_initialized Examples.lib (Examples.accounts None)) in
  ∃ aurl turl uurl,
    OIDC.oauthFlow p' =
      {| OIDC.fl_authorization := Some {| OIDC.au_url := aurl |};
         OIDC.fl_token :=
           Some {| OIDC.tk_url := turl;
                   OIDC.tk_conform := Some (λ response, Returned response) |};
         OIDC.fl_userinfo := Some {| OIDC.ui_url := uurl |} |} ∧
    authorization_endpoint (OIDC.authorizationServer p') =
      Some (URL_toString Examples.lib aurl) ∧
    token_endpoint (OIDC.authorizationServer p') = Some (URL_toString Examples.lib turl) ∧
    userinfo_endpoint (OIDC.authorizationServer p') = Some (URL_toString Examples.lib uurl) ∧
    ("response_type" ∉ ([] : list (string * value)).*1 →
     sp_get "response_type" (searchParams aurl) = Some "code") ∧
    ("client_id" ∉ ([] : list (string * value)).*1 →
     sp_get "client_id" (searchParams aurl) = Some "client-1").
Proof.
  apply (initialization_mirrors_endpoints Examples.lib (Examples.accounts None)
           (final (OIDC.ensure_initialized Examples.lib (Examples.accounts None)))
           (calls (OIDC.ensure_initialized Examples.lib (Examples.accounts None)))).
  - reflexivity.
  - vm_compute. reflexivity.
Defined.

Lemma signIn_writes_only_witness :
  ∃ response url1 url,
    result (OIDC.signIn Examples.lib (Examples.checks_for OIDC.cookies_)
              Examples.login_request (Examples.accounts (Some [state]))) = Returned response ∧
    OIDCFrame.flow_url
      (final (OIDC.ensure_initialized Examples.lib (Examples.accounts (Some [state]))))
      = Some url1 ∧
    OIDCFrame.flow_url
      (final (OIDC.signIn Examples.lib (Examples.checks_for OIDC.cookies_)
                Examples.login_request (Examples.accounts (Some [state])))) = Some url ∧
    redirect response = Some (URL_toString Examples.lib url) ∧
    (∀ k, k ∉ login_params → k ≠ "scope" →
       sp_get k (searchParams url) = sp_get k (searchParams url1)) ∧
    sp_get "scope" (searchParams url) =
    if sp_has "scope" (searchParams url1)
    then sp_get "scope" (searchParams url1)
    else Some "openid profile email".
Proof.
  eassert (result (OIDC.signIn Examples.lib (Examples.checks_for OIDC.cookies_)
                     Examples.login_request (Examples.accounts (Some [state])))
           = Returned _) as H by (vm_compute; reflexivity).
  destruct (signIn_writes_only_login_params Examples.lib
              (Examples.checks_for OIDC.cookies_) _ _ _ H) as (url1 & url & Hu).
  eexists _, url1, url. split; [exact H|exact Hu].
Defined.

Lemma signIn_keeps_first_witness :
  let other :=
    {| req_url := {| origin := "https://other.example";
                     base := "https://other.example/auth/login/accounts";
                     searchParams := [] |};
       req_cookies := ∅ |} in
  let x1 := OIDC.signIn Examples.lib (Examples.checks_for OIDC.cookies_)
              Examples.login_request (Examples.accounts (Some [state])) in
  let x2 := OIDC.signIn Examples.lib (Examples.checks_for OIDC.cookies_) other (final x1) in
  ∃ response1 response2 url1 url2 uri,
    result x1 = Returned response1 ∧ result x2 = Returned response2 ∧
    OIDCFrame.flow_url (final x1) = Some url1 ∧ OIDCFrame.flow_url (final x2) = Some url2 ∧
    redirect response1 = Some (URL_toString Examples.lib url1) ∧
    redirect response2 = Some (URL_toString Examples.lib url2) ∧
    sp_get "redirect_uri" (searchParams url1) = Some uri ∧
    sp_get "redirect_uri" (searchParams url2) = Some uri ∧
    OIDC.ensure_initialized Examples.lib (final x1) = (Returned tt, final x1, []).
Proof.
  cbv zeta.
  eassert (result (OIDC.signIn Examples.lib (Examples.checks_for OIDC.cookies_)
                     Examples.login_request (Examples.accounts (Some [state])))
           = Returned _) as H1 by (vm_compute; reflexivity).
  eassert (result (OIDC.signIn Examples.lib (Examples.checks_for OIDC.cookies_)
                     {| req_url := {| origin := "https://other.example";
                                      base := "https://other.example/auth/login/accounts";
                                      searchParams := [] |};
                        req_cookies := ∅ |}
                     (final (OIDC.signIn Examples.lib (Examples.checks_for OIDC.cookies_)
                               Examples.login_request (Examples.accounts (Some [state])))))
           = Returned _) as H2 by (vm_compute; reflexivity).
  destruct (signIn_keeps_first_redirect_uri Examples.lib
              (Examples.checks_for OIDC.cookies_) _ _ _ _ _ H1 H2)
    as (url1 & url2 & uri & Hu).
  eexists _, _, url1, url2, uri. split; [exact H1|]. split; [exact H2|]. exact Hu.
Defined.

Lemma setPages_after_login_witness :
  let pages_ := {| OIDCSetters.pp_signIn := None; OIDCSetters.pp_signOut := None;
                   OIDCSetters.pp_callback := Some "/cb" |} in
  let x1 := OIDC.signIn Examples.lib (Examples.checks_for OIDC.cookies_)
              Examples.login_request (Examples.accounts (Some [state])) in
  let q := OIDCSetters.setPages pages_ (final x1) in
  let x2 := OIDC.signIn Examples.lib (Examples.checks_for OIDC.cookies_)
              Examples.login_request q in
  ∃ response1 response2,
    result x1 = Returned response1 ∧ result x2 = Returned response2 ∧
    (∃ url1 url2 uri,
       redirect response1 = Some (URL_toString Examples.lib url1) ∧
       redirect response2 = Some (URL_toString Examples.lib url2) ∧
       sp_get "redirect_uri" (searchParams url1) = Some uri ∧
       sp_get "redirect_uri" (searchParams url2) = Some uri) ∧
    Forall (λ ev, ∀ u v,
              ev = Call_authorizationCodeGrantRequest u v →
              u = "https://app.example" +:+ ("/cb" +:+ "/" +:+ "accounts"))
      (calls (OIDC.callback Examples.lib (Examples.checks_for OIDC.cookies_)
                Examples.login_request q)).
Proof.
  cbv zeta.
  eassert (result (OIDC.signIn Examples.lib (Examples.checks_for OIDC.cookies_)
                     Examples.login_request (Examples.accounts (Some [state])))
           = Returned _) as H1 by (vm_compute; reflexivity).
  eassert (result (OIDC.signIn Examples.lib (Examples.checks_for OIDC.cookies_)
                     Examples.login_request
                     (OIDCSetters.setPages
                        {| OIDCSetters.pp_signIn := None; OIDCSetters.pp_signOut := None;
                           OIDCSetters.pp_callback := Some "/cb" |}
                        (final (OIDC.signIn Examples.lib (Examples.checks_for OIDC.cookies_)
                                  Examples.login_request (Examples.accounts (Some [state]))))))
           = Returned _) as H2 by (vm_compute; reflexivity).
  eexists _, _. split; [exact H1|]. split; [exact H2|].
  exact (setPages_after_login_keeps_redirect_uri Examples.lib
           (Examples.checks_for OIDC.cookies_) _ _ _ _ _ _ H1 H2).
Defined.

(** ** Logging out of an issued session *)

Section LogoutIssued.
Import TokenSession.
Variable parse : string → gmap string string.
Variable this : TokenSessionManager.

(** X25.  Logout clears what the manager issues: when [createCookies]
    returns cookies and [logout] returns a response, the response holds,
    for every issued cookie, a cookie of the same name and the same options
    with an empty value and max-age 0. *)
Theorem logout_clears_issued_cookies
    (newSession : NewSession) (cs : list Cookie)
    (request : Request) (response : InternalResponse) :
  result (createCookies this newSession tt) = Returned cs →
  result (logout parse this request tt) = Returned response →
  ∀ c, c ∈ cs →
    {| name := name c; value_ := ""; options := with_maxAge (options c) 0 |}
      ∈ default [] (cookies response).
Proof.
  intros Hcs Hl c Hc.
  assert (c ∈ cs → ∃ v, c = access_cookie this v ∨ c = refresh_cookie this v) as Hshape.
  { clear Hl Hc. rewrite createCookies_run in Hcs.
    destruct (truthy (opt_accessToken newSession)), (truthy (opt_refreshToken newSession));
      repeat (match goal with H : context [encode this ?p] |- _ =>
                destruct (encode this p) end);
      cbn in Hcs; simplify_eq; intros Hc;
      repeat (apply elem_of_cons in Hc as [->|Hc]; [eauto|]);
      apply elem_of_nil in Hc; contradiction. }
  destruct (Hshape Hc) as [v Hv]. clear Hshape Hcs Hc.
  assert (∃ base, cookies response =
                  Some (base ++ [clearing (ck_accessToken (cookies_ this));
                                 clearing (ck_refreshToken (cookies_ this))])) as [base Hb].
  { rewrite logout_run in Hl. cbv zeta in Hl.
    repeat match type of Hl with
           | context [match ?t with _ => _ end] => destruct t; cbn in Hl
           end; simplify_eq; eexists; reflexivity. }
  rewrite Hb. cbn. rewrite elem_of_app. right.
  destruct Hv as [-> | ->]; cbn; unfold clearing, with_maxAge; cbn.
  - apply elem_of_cons. left. reflexivity.
  - apply elem_of_cons. right. apply elem_of_cons. left. reflexivity.
Qed.

End LogoutIssued.

Lemma logout_clears_issued_witness :
  let c := TokenSession.access_cookie Examples.manager "hdr..iv.alice.tag" in
  {| name := name c; value_ := ""; options := with_maxAge (options c) 0 |}
    ∈ [clearing (ck_accessToken (TokenSession.cookies_ Examples.manager));
       clearing (ck_refreshToken (TokenSession.cookies_ Examples.manager))].
Proof.
  apply (logout_clears_issued_cookies Examples.parse Examples.manager Examples.new_session
           [TokenSession.access_cookie Examples.manager "hdr..iv.alice.tag";
            TokenSession.refresh_cookie Examples.manager "hdr..iv.refresh.tag"]
           {| TokenSession.cookie_header := None |}
           {| status := None; headers := None; body := None; redirect := None;
              cookies := Some [clearing (ck_accessToken (TokenSession.cookies_ Examples.manager));
                               clearing (ck_refreshToken (TokenSession.cookies_ Examples.manager))];
              user := VUndefined; session := VUndefined |}).
  - vm_compute. reflexivity.
  - vm_compute. reflexivity.
  - apply elem_of_cons. left. reflexivity.
Defined.

(** ** The first GitHub and Google providers *)

Section LegacyProviders.
Import Legacy.
Variable R : Runtime.

Lemma W_bind_run {A B} (m : W A) (f : A → W B) :
  m ≫= f =
  match m with
  | (Returned a, l1) => (result_of (f a), l1 ++ effects_of (f a))
  | (Thrown e, l1) => (Thrown e, l1)
  end.
Proof.
  unfold mbind, W_bind, bind. destruct m as [[a|e] l1]; [|reflexivity].
  destruct (f a) as [r l2]. reflexivity.
Qed.

(** X26.  The callbacks of the first GitHub and Google providers check
    the request before anything is sent: a request whose method is not GET
    is refused with the error [Invalid request method: <method>], and a GET
    request without a [code] parameter with [No OAuth code found.], in both
    cases without a request to the provider.  Otherwise the first request
    is the POST to the token endpoint, whose query carries the client id,
    the client secret and the code of the callback (for Google also the
    grant type and the redirect URI). *)
Theorem legacy_callbacks_guard_the_request (request : Request) :
  (∀ config,
     let x := GitHub.authenticateRequest R config request in
     (rq_method request ≠ "GET" →
      x = (Thrown (Error ("Invalid request method: " +:+ rq_method request)), [])) ∧
     (rq_method request = "GET" → sp_get "code" (searchParams (rq_url request)) = None →
      x = (Thrown (Error "No OAuth code found."), [])) ∧
     (∀ code,
        rq_method request = "GET" →
        sp_get "code" (searchParams (rq_url request)) = Some code →
        head (effects_of x) =
        Some (Fetch ("https://github.com/login/oauth/access_token?" +:+
                     qs R [("client_id", clientId config);
                           ("client_secret", clientSecret config); ("code", code)])
                "POST" [("Accept", "application/json")] None))) ∧
  (∀ config,
     let x := Google.callback R config request in
     (rq_method request ≠ "GET" →
      x = (Thrown (Error ("Invalid request method: " +:+ rq_method request)), [])) ∧
     (rq_method request = "GET" → sp_get "code" (searchParams (rq_url request)) = None →
      x = (Thrown (Error "No OAuth code found."), [])) ∧
     (∀ code,
        rq_method request = "GET" →
        sp_get "code" (searchParams (rq_url request)) = Some code →
        head (effects_of x) =
        Some (Fetch ("https://oauth2.googleapis.com/token?" +:+
                     qs R [("client_id", clientId (g_config config));
                           ("client_secret", clientSecret (g_config config));
                           ("code", code); ("grant_type", "authorization_code");
                           ("redirect_uri", redirect_uri config)])
                "POST" [("Accept", "application/json")] None))).
Proof.
  split; intros config; cbv zeta;
    unfold GitHub.authenticateRequest, Google.callback;
    (destruct (String.eqb_spec (rq_method request) "GET") as [Hm|Hm]; cbn [negb];
     [|split; [reflexivity|]; split; [contradiction|intros ? ? _; contradiction]]);
    (split; [intros Hn; contradiction|]);
    (split; [intros _ ->; reflexivity|]);
    intros code _ ->; rewrite W_bind_run;
    unfold GitHub.getTokens, Google.getTokens, fetch_json_, logged;
    match goal with
    | |- context [fetch_json R ?a ?b ?c ?d] => destruct (fetch_json R a b c d)
    end; reflexivity.
Qed.

Lemma github_getUser_run (config : OAuthConfig) (access_token : json) :
  GitHub.getUser R config access_token =
  let headers := [("Authorization", "token " +:+ template R access_token)] in
  let fetch_user := Fetch "https://api.github.com/user" "GET" headers None in
  let fetch_emails := Fetch "https://api.github.com/user/emails" "GET" [] None in
  match fetch_json R "https://api.github.com/user" "GET" headers None with
  | Thrown e => (Thrown e, [fetch_user])
  | Returned user_ =>
      match jget "email" user_ with
      | Thrown e => (Thrown e, [fetch_user])
      | Returned email_ =>
          if nullish email_ then
            match fetch_json R "https://api.github.com/user/emails" "GET" [] None with
            | Thrown e => (Thrown e, [fetch_user; fetch_emails])
            | Returned emails =>
                match (chosen ← chosen_address emails;
                       address ← jget "email" chosen;
                       jset "email" address user_) with
                | Thrown e => (Thrown e, [fetch_user; fetch_emails])
                | Returned user' =>
                    (result_of (login_hook config user'),
                     fetch_user :: fetch_emails :: effects_of (login_hook config user'))
                end
            end
          else (result_of (login_hook config user_),
                fetch_user :: effects_of (login_hook config user_))
      end
  end.
Proof.
  cbv zeta. unfold GitHub.getUser, GitHub.user, GitHub.email, fetch_json_, logged, pure, fail.
  unfold mbind at 1 2 3. unfold W_bind, bind.
  destruct (fetch_json R "https://api.github.com/user" _ _ _) as [user_|e]; [|reflexivity].
  destruct (jget "email" user_) as [email_|e]; [|reflexivity].
  destruct (nullish email_).
  2:{ cbn. destruct (login_hook config user_) as [r l]. reflexivity. }
  unfold mbind, W_bind, bind, outcome_bind, mret, W_ret, ret, chosen_address.
  destruct (fetch_json R "https://api.github.com/user/emails" _ _ _) as [emails|e];
    [|reflexivity].
  destruct emails as [| | | | |items props|];
    try (cbn; reflexivity).
  - destruct (existsb _ props); [reflexivity|].
    destruct (find_primary items) as [found|e]; [|reflexivity].
    destruct (jget "email" _) as [address|e]; [|reflexivity].
    destruct (jset "email" address user_) as [user'|e]; [|reflexivity].
    cbn. destruct (login_hook config user') as [r l]. reflexivity.
Qed.

Lemma find_primary_first (pre post : list json) (e p : json) :
  Forall (λ e', ∃ p', jget "primary" e' = Returned p' ∧ jtruthy p' = false) pre →
  jget "primary" e = Returned p → jtruthy p = true →
  find_primary (pre ++ e :: post) = Returned e.
Proof.
  intros Hpre He Hp. induction Hpre as [|e' pre (p' & Hg & Hf) _ IH]; cbn [app find_primary].
  - rewrite He, Hp. reflexivity.
  - rewrite Hg, Hf. exact IH.
Qed.

Lemma find_primary_none (items : list json) :
  Forall (λ e', ∃ p', jget "primary" e' = Returned p' ∧ jtruthy p' = false) items →
  find_primary items = Returned JUndefined.
Proof.
  induction 1 as [|e' items (p' & Hg & Hf) _ IH]; cbn [find_primary]; [reflexivity|].
  rewrite Hg, Hf. exact IH.
Qed.

Lemma truthy_primary_not_nullish (e p : json) :
  jget "primary" e = Returned p → nullish e = false.
Proof. destruct e; cbn; intros; congruence. Qed.

(** X27.  [getUser] of the first GitHub provider asks for the email
    addresses only when the user has no [email] ([null] or absent), and
    then without an authorization header.  It sets the user's email to the
    [email] of the first address whose [primary] is truthy, or of the first
    address when none is primary, leaving the other fields as they are,
    and hands the user to the login hook; with an empty list of addresses
    it throws a [TypeError] and the hook is not called. *)
Theorem github_getUser_fills_email
    (config : OAuthConfig) (access_token : json) (fields : list (string * json)) :
  let headers := [("Authorization", "token " +:+ template R access_token)] in
  let fetch_user := Fetch "https://api.github.com/user" "GET" headers None in
  let fetch_emails := Fetch "https://api.github.com/user/emails" "GET" [] None in
  let x := GitHub.getUser R config access_token in
  let filled address :=
    let user' := JObj (entries_set "email" address fields) in
    x = (result_of (login_hook config user'),
         fetch_user :: fetch_emails :: effects_of (login_hook config user')) in
  fetch_json R "https://api.github.com/user" "GET" headers None = Returned (JObj fields) →
  (nullish (jlookup "email" fields) = false →
   x = (result_of (login_hook config (JObj fields)),
        fetch_user :: effects_of (login_hook config (JObj fields)))) ∧
  (∀ items,
     nullish (jlookup "email" fields) = true →
     fetch_json R "https://api.github.com/user/emails" "GET" [] None
       = Returned (JArr items []) →
     (∀ pre e post p address,
        items = pre ++ e :: post →
        Forall (λ e', ∃ p', jget "primary" e' = Returned p' ∧ jtruthy p' = false) pre →
        jget "primary" e = Returned p → jtruthy p = true →
        jget "email" e = Returned address →
        filled address) ∧
     (∀ first rest address,
        items = first :: rest →
        Forall (λ e', ∃ p', jget "primary" e' = Returned p' ∧ jtruthy p' = false) items →
        jget "email" first = Returned address →
        filled address) ∧
     (items = [] → ∃ m, x = (Thrown (TypeError m), [fetch_user; fetch_emails]))).
Proof.
  cbv beta zeta. intros Hu. rewrite github_getUser_run. cbv zeta. rewrite Hu. cbn [jget].
  split.
  - intros Hn. rewrite Hn. reflexivity.
  - intros items Hn He. rewrite Hn, He. unfold chosen_address. cbn [existsb].
    split; [|split].
    + intros pre e post p address -> Hpre Hp Ht Ha.
      rewrite (find_primary_first _ _ _ _ Hpre Hp Ht). cbn [mbind outcome_bind].
      rewrite (truthy_primary_not_nullish _ _ Hp). cbn [mbind outcome_bind].
      rewrite Ha. reflexivity.
    + intros first rest address -> Hall Ha.
      rewrite (find_primary_none _ Hall). cbn [mbind outcome_bind nullish head default
        from_option Datatypes.id].
      rewrite Ha. reflexivity.
    + intros ->. cbn. eexists. reflexivity.
Qed.

(** X28.  When the callback of the first Google provider returns, the
    request was a GET with a [code]; the provider has posted that code to
    the token endpoint, read [access_token] from the answer, asked the
    userinfo endpoint with it as a query parameter, and called the login
    hook, if one is configured, on the user it got; these are all its
    requests, in this order.  It returns what the hook returned, or the
    user itself when there is no hook or the hook returned [null] or
    [undefined]. *)
Theorem google_callback_returns_user
    (config : GoogleOauthConfig) (request : Request) (v : json) :
  result_of (Google.callback R config request) = Returned v →
  ∃ code tokens token user_,
    rq_method request = "GET" ∧
    sp_get "code" (searchParams (rq_url request)) = Some code ∧
    let token_url :=
      "https://oauth2.googleapis.com/token?" +:+
      qs R [("client_id", clientId (g_config config));
            ("client_secret", clientSecret (g_config config));
            ("code", code); ("grant_type", "authorization_code");
            ("redirect_uri", redirect_uri config)] in
    let user_url :=
      "https://www.googleapis.com/oauth2/v1/userinfo?alt=json&" +:+
      qs R [("access_token", template R token)] in
    fetch_json R token_url "POST" [("Accept", "application/json")] None = Returned tokens ∧
    jget "access_token" tokens = Returned token ∧
    fetch_json R user_url "GET" [] None = Returned user_ ∧
    effects_of (Google.callback R config request) =
      [Fetch token_url "POST" [("Accept", "application/json")] None;
       Fetch user_url "GET" [] None] ++
      match onLogin (g_config config) with
      | Some _ => [OnLogin user_]
      | None => []
      end ∧
    match onLogin (g_config config) with
    | Some hook => ∃ r, hook user_ = Returned r ∧ v = if nullish r then user_ else r
    | None => v = user_
    end.
Proof.
  unfold Google.callback.
  destruct (String.eqb_spec (rq_method request) "GET") as [Hm|Hm]; cbn [negb];
    [|discriminate].
  destruct (sp_get "code" (searchParams (rq_url request))) as [code|]; [|discriminate].
  unfold Google.getTokens, Google.getUser, Google.access_token, Google.user, login_hook,
    fetch_json_, logged, pure.
  unfold mbind, W_bind, bind, mret, W_ret, ret.
  destruct (fetch_json R _ "POST" _ _) as [tokens|e] eqn:Ht; [|discriminate].
  destruct (jget "access_token" tokens) as [token|e] eqn:Ha; [|discriminate].
  destruct (fetch_json R _ "GET" _ _) as [user_|e] eqn:Hu; [|discriminate].
  destruct (onLogin (g_config config)) as [hook|].
  - destruct (hook user_) as [r|e] eqn:Hh; [|discriminate].
    cbn. intros [= <-]. exists code, tokens, token, user_.
    repeat (split; [first [assumption|reflexivity]|]). exists r. auto.
  - cbn. intros [= <-]. exists code, tokens, token, user_.
    repeat (split; [first [assumption|reflexivity]|]). reflexivity.
Qed.

End LegacyProviders.

Lemma github_getUser_witness :
  let headers := [("Authorization", "token at")] in
  let fetch_user := Legacy.Fetch "https://api.github.com/user" "GET" headers None in
  let fetch_emails := Legacy.Fetch "https://api.github.com/user/emails" "GET" [] None in
  let user' :=
    Legacy.JObj [("login", Legacy.JStr "alice"); ("email", Legacy.JStr "alice@example.org")] in
  Legacy.GitHub.getUser example_runtime (Legacy.g_config example_google) (Legacy.JStr "at") =
  (Returned user', [fetch_user; fetch_emails]).
Proof.
  cbv zeta.
  destruct (github_getUser_fills_email example_runtime (Legacy.g_config example_google)
              (Legacy.JStr "at")
              [("login", Legacy.JStr "alice"); ("email", Legacy.JNull)] eq_refl)
    as [_ H].
  destruct (H _ eq_refl eq_refl) as [H1 _].
  apply (H1 [Legacy.JObj [("email", Legacy.JStr "old@example.org");
                          ("primary", Legacy.JBool false)]]
            (Legacy.JObj [("email", Legacy.JStr "alice@example.org");
                          ("primary", Legacy.JBool true)])
            [] (Legacy.JBool true) (Legacy.JStr "alice@example.org")).
  - reflexivity.
  - repeat constructor. eexists. split; reflexivity.
  - reflexivity.
  - reflexivity.
  - reflexivity.
Defined.

Lemma google_callback_witness :
  ∃ v code tokens token user_,
    Legacy.result_of (Legacy.Google.callback example_runtime example_google example_get)
      = Returned v ∧
    Legacy.rq_method example_get = "GET" ∧
    sp_get "code" (searchParams (Legacy.rq_url example_get)) = Some code ∧
    Legacy.fetch_json example_runtime
      ("https://oauth2.googleapis.com/token?" +:+
       Legacy.qs example_runtime
         [("client_id", "client-1"); ("client_secret", "shh"); ("code", code);
          ("grant_type", "authorization_code");
          ("redirect_uri", "https://app.example/auth/callback/google")])
      "POST" [("Accept", "application/json")] None = Returned tokens ∧
    Legacy.jget "access_token" tokens = Returned token ∧
    Legacy.fetch_json example_runtime
      ("https://www.googleapis.com/oauth2/v1/userinfo?alt=json&" +:+
       Legacy.qs example_runtime [("access_token", Legacy.template example_runtime token)])
      "GET" [] None = Returned user_ ∧
    v = user_.
Proof.
  eassert (Legacy.result_of (Legacy.Google.callback example_runtime example_google example_get)
           = Returned _) as H by (vm_compute; reflexivity).
  destruct (google_callback_returns_user example_runtime example_google example_get _ H)
    as (code & tokens & token & user_ & H1 & H2 & H3 & H4 & H5 & _ & H7).
  eexists _, code, tokens, token, user_.
  split; [exact H|]. repeat (split; [assumption|]). exact H7.
Defined.
